(** * OpenTelemetry instrumentation of the Anthropic client and of LangChain chat models

    A shallow embedding of
    - [opentelemetry/instrumentation/anthropic/__init__.py] and
    - [opentelemetry/instrumentation/langchain/custom_chat_wrapper.py]
    over a small model of Python values, exceptions and the tracing and
    metrics backend, followed by the properties of the interception
    wrappers [_wrap], [_awrap] and [chat_wrapper]. *)

From Stdlib Require Import ZArith Ascii.
From stdpp Require Import gmap strings list pretty.

#[local] Set Warnings "-register-all".
#[local] Open Scope Z_scope.
#[local] Open Scope string_scope.
#[local] Open Scope list_scope.

(** ** Python values *)

(** The data that requests and responses are made of. A [VDict] is a [dict]
    with string keys, a [VObject] an instance of the named class with its
    [__dict__]. A [VFloat] is the rational [num / den]. Tuples are [VList]s. *)
Inductive pyval : Type :=
| VNone
| VBool (b : bool)
| VInt (z : Z)
| VFloat (num : Z) (den : positive)
| VStr (s : string)
| VList (l : list pyval)
| VDict (d : gmap string pyval)
| VObject (cls : string) (d : gmap string pyval).

Abbreviation dict := (gmap string pyval).

(** An exception: the name of its class, the text of [str(e)] and its truth
    value [bool(e)], which is true unless the class defines [__bool__] or
    [__len__]. What the functions below and the library functions raise
    derives from [Exception]; whether what a wrapped callable raises does is
    part of its [outcome]. *)
Record exn : Type := mk_exn {
  exn_class : string;
  exn_str : string;
  exn_bool : bool
}.

Definition AttributeError (msg : string) := mk_exn "AttributeError" msg true.
Definition TypeError (msg : string) := mk_exn "TypeError" msg true.
Definition ValueError (msg : string) := mk_exn "ValueError" msg true.
Definition IndexError (msg : string) := mk_exn "IndexError" msg true.
Definition KeyError (msg : string) := mk_exn "KeyError" msg true.

(** A computation that returns or raises. *)
Inductive result (A : Type) : Type :=
| Ok (a : A)
| Raise (e : exn).
Arguments Ok {A} a.
Arguments Raise {A} e.

Definition rbind {A B} (r : result A) (k : A -> result B) : result B :=
  match r with
  | Ok a => k a
  | Raise e => Raise e
  end.

Declare Scope py_scope.
Delimit Scope py_scope with py.
Notation "'let?' x ':=' r 'in' k" := (rbind r (fun x => k))
  (at level 10, x name, r at level 100, k at level 200) : py_scope.
#[local] Open Scope py_scope.

(** [type(v).__name__] *)
Definition type_name (v : pyval) : string :=
  match v with
  | VNone => "NoneType"
  | VBool _ => "bool"
  | VInt _ => "int"
  | VFloat _ _ => "float"
  | VStr _ => "str"
  | VList _ => "list"
  | VDict _ => "dict"
  | VObject cls _ => cls
  end.

(** Truth value testing, [bool(v)]. *)
Definition py_bool (v : pyval) : bool :=
  match v with
  | VNone => false
  | VBool b => b
  | VInt z => negb (Z.eqb z 0)
  | VFloat num _ => negb (Z.eqb num 0)
  | VStr s => negb (String.eqb s "")
  | VList l => negb (Nat.eqb (length l) 0)
  | VDict d => negb (Nat.eqb (size d) 0)
  | VObject _ _ => true
  end.

Definition is_none (v : pyval) : bool :=
  match v with
  | VNone => true
  | _ => false
  end.

(** [d.get(key)] on a mapping known to be a [dict]. *)
Definition get (d : dict) (key : string) : pyval := default VNone (d !! key).

(** [v.get(key)]: only a [dict] has the method. *)
Definition py_get (v : pyval) (key : string) : result pyval :=
  match v with
  | VDict d => Ok (get d key)
  | _ => Raise (AttributeError ("'" +:+ type_name v +:+ "' object has no attribute 'get'"))
  end.

(** [v.name]: the attributes of an instance are those of its [__dict__]. *)
Definition py_getattr (v : pyval) (name : string) : result pyval :=
  match v with
  | VObject cls d =>
      match d !! name with
      | Some x => Ok x
      | None => Raise (AttributeError ("'" +:+ cls +:+ "' object has no attribute '" +:+ name +:+ "'"))
      end
  | _ => Raise (AttributeError ("'" +:+ type_name v +:+ "' object has no attribute '" +:+ name +:+ "'"))
  end.

Definition py_hasattr (v : pyval) (name : string) : bool :=
  match py_getattr v name with
  | Ok _ => true
  | Raise _ => false
  end.

Fixpoint chars (s : string) : list pyval :=
  match s with
  | EmptyString => []
  | String c s' => VStr (String c EmptyString) :: chars s'
  end.

(** The items produced by iterating over [v]. *)
Definition py_iter (v : pyval) : result (list pyval) :=
  match v with
  | VList l => Ok l
  | VStr s => Ok (chars s)
  | VDict d => Ok ((fun kv => VStr kv.1) <$> map_to_list d)
  | _ => Raise (TypeError ("'" +:+ type_name v +:+ "' object is not iterable"))
  end.

(** [v[i]] for a non-negative index. *)
Definition py_index (v : pyval) (i : nat) : result pyval :=
  match v with
  | VList l =>
      match l !! i with
      | Some x => Ok x
      | None => Raise (IndexError "list index out of range")
      end
  | VStr s =>
      match chars s !! i with
      | Some x => Ok x
      | None => Raise (IndexError "string index out of range")
      end
  | VDict _ => Raise (KeyError (pretty i))
  | _ => Raise (TypeError ("'" +:+ type_name v +:+ "' object is not subscriptable"))
  end.

(** The number a numeric value stands for, as a fraction. *)
Definition as_fraction (v : pyval) : option (Z * positive) :=
  match v with
  | VBool b => Some (Z.b2z b, 1%positive)
  | VInt z => Some (z, 1%positive)
  | VFloat num den => Some (num, den)
  | _ => None
  end.

(** [a + b]: numbers add (a [bool] counts as an [int]), strings and lists
    concatenate, any other pair raises. *)
Definition py_add (a b : pyval) : result pyval :=
  match a, b with
  | VInt x, VInt y => Ok (VInt (x + y))
  | VInt x, VBool y => Ok (VInt (x + Z.b2z y))
  | VBool x, VInt y => Ok (VInt (Z.b2z x + y))
  | VBool x, VBool y => Ok (VInt (Z.b2z x + Z.b2z y))
  | VFloat _ _, (VBool _ | VInt _ | VFloat _ _)
  | (VBool _ | VInt _), VFloat _ _ =>
      match as_fraction a, as_fraction b with
      | Some (n1, d1), Some (n2, d2) => Ok (VFloat (n1 * Z.pos d2 + n2 * Z.pos d1) (d1 * d2))
      | _, _ => Raise (TypeError "unsupported operand type(s) for +")
      end
  | VStr x, VStr y => Ok (VStr (x +:+ y))
  | VList x, VList y => Ok (VList (x ++ y)%list)
  | _, _ => Raise (TypeError ("unsupported operand type(s) for +: '" +:+ type_name a
                               +:+ "' and '" +:+ type_name b +:+ "'"))
  end.

(** [sum(l)], which starts from the integer 0. *)
Definition py_sum (l : list pyval) : result pyval :=
  foldl (fun acc x => let? a := acc in py_add a x) (Ok (VInt 0)) l.

(** [v == s] for a string literal [s]. *)
Definition py_eq_str (v : pyval) (s : string) : bool :=
  match v with
  | VStr x => String.eqb x s
  | _ => false
  end.

(** ** Callables and what they return *)

(** The client handle of a resource, [instance._client]: its token-counting
    capability, which returns a value or raises. *)
Record client : Type := mk_client {
  count_tokens : pyval -> result pyval
}.

(** What a wrapped callable can hand back: a plain value, a [Stream] or
    [AsyncStream] over its events, a coroutine (awaiting it takes [elapsed]
    clock ticks and then returns or raises), or the generator made by the
    streaming adapter for a span. *)
Inductive retval : Type :=
| RVal (v : pyval)
| RStream (is_async : bool) (events : list pyval)
| RCoroutine (elapsed : Z) (r : result retval)
| RGenerator (is_async : bool) (span : nat) (response : retval) (c : client) (kwargs : dict).

(** One call of the wrapped callable: the time it takes and how it ends.
    For a call that raises, [is_Exception] is [isinstance(e, Exception)] of
    what it raises: true of the errors of the client library, false of an
    interrupt such as [KeyboardInterrupt], which an [except Exception]
    clause lets through. *)
Record outcome : Type := mk_outcome {
  elapsed : Z;
  returned : result retval;
  is_Exception : bool
}.

(** The wrapped callable, a black box from its arguments to an outcome. *)
Definition callable : Type := list pyval -> dict -> outcome.

(** ** The tracing and metrics backend *)

Inductive status_code : Type := StatusOK | StatusERROR.

Inductive instrument_kind : Type := Counter | Histogram.

Record instrument : Type := mk_instrument {
  instrument_kind_of : instrument_kind;
  instrument_name : string
}.

(** The operations received by the backend, and the entries into the wrapped
    callable, in the order in which they happen. *)
Inductive event : Type :=
| SpanStarted (span : nat) (name : pyval) (kind : string) (attributes : dict)
| AttributeSet (span : nat) (key : string) (value : pyval)
| StatusSet (span : nat) (s : status_code)
| SpanEnded (span : nat)
| InstrumentCreated (k : instrument_kind) (name unit description : string)
| CounterAdded (name : string) (amount : Z) (attributes : dict)
| HistogramRecorded (name : string) (value : Z) (attributes : dict)
| Warned (msg : string) (arg : string)
| Called (args : list pyval) (kwargs : dict).

(** The state a call runs in: the events so far, the reading of the clock
    (in ticks; [time.time()] reads it) and the number of spans started. *)
Record world : Type := mk_world {
  trace : list event;
  clock : Z;
  spans : nat
}.

(** ** Stateful computations that may raise *)

Definition M (A : Type) : Type := world -> result A * world.

Definition ret {A} (a : A) : M A := fun w => (Ok a, w).

Definition raise {A} (e : exn) : M A := fun w => (Raise e, w).

Definition bind {A B} (m : M A) (k : A -> M B) : M B :=
  fun w =>
    match m w with
    | (Ok a, w') => k a w'
    | (Raise e, w') => (Raise e, w')
    end.

Notation "'let*' x ':=' m 'in' k" := (bind m (fun x => k))
  (at level 10, x name, m at level 100, k at level 200) : py_scope.
Notation "m '>>' k" := (bind m (fun _ => k))
  (at level 100, k at level 200, right associativity) : py_scope.

Definition lift {A} (r : result A) : M A := fun w => (r, w).

(** [try: m  except Exception as ex: handler ex] *)
Definition try_except {A} (m : M A) (handler : exn -> M A) : M A :=
  fun w =>
    match m w with
    | (Ok a, w') => (Ok a, w')
    | (Raise e, w') => handler e w'
    end.

(** Run [m] and hand back how it ended instead of raising. *)
Definition attempt {A} (m : M A) : M (result A) :=
  fun w => let '(r, w') := m w in (Ok r, w').

Fixpoint for_each {A} (l : list A) (body : A -> M unit) : M unit :=
  match l with
  | [] => ret tt
  | x :: l' => body x >> for_each l' body
  end.

(** [list(enumerate(l))] *)
Definition enumerate {A} (l : list A) : list (nat * A) := zip (seq 0 (length l)) l.

Definition emit (e : event) : M unit :=
  fun w => (Ok tt, mk_world (trace w ++ [e]) (clock w) (spans w)).

(** [time.time()] *)
Definition time_time : M Z := fun w => (Ok (clock w), w).

Definition advance (ticks : Z) : M unit :=
  fun w => (Ok tt, mk_world (trace w) (clock w + ticks) (spans w)).

(** The call of [wrapped] on [args] and [kwargs]. *)
Definition call (wrapped : callable) (args : list pyval) (kwargs : dict) : M retval :=
  emit (Called args kwargs) >>
  advance (elapsed (wrapped args kwargs)) >>
  lift (returned (wrapped args kwargs)).

(** [await r] *)
Definition await (r : retval) : M retval :=
  match r with
  | RCoroutine ticks res => advance ticks >> lift res
  | RVal v => raise (TypeError ("object " +:+ type_name v +:+ " can't be used in 'await' expression"))
  | RStream false _ => raise (TypeError "object Stream can't be used in 'await' expression")
  | RStream true _ => raise (TypeError "object AsyncStream can't be used in 'await' expression")
  | RGenerator false _ _ _ _ => raise (TypeError "object generator can't be used in 'await' expression")
  | RGenerator true _ _ _ _ => raise (TypeError "object async_generator can't be used in 'await' expression")
  end.

(** [tracer.start_span(name, kind=..., attributes=...)] *)
Definition start_span (name : pyval) (kind : string) (attributes : dict) : M nat :=
  fun w => (Ok (spans w),
            mk_world (trace w ++ [SpanStarted (spans w) name kind attributes]) (clock w) (S (spans w))).

(** [span.set_attribute(key, value)] *)
Definition span_set_attribute (span : nat) (key : string) (value : pyval) : M unit :=
  emit (AttributeSet span key value).

(** [span.set_status(Status(code))] *)
Definition span_set_status (span : nat) (code : status_code) : M unit :=
  emit (StatusSet span code).

(** [span.end()] *)
Definition span_end (span : nat) : M unit := emit (SpanEnded span).

(** [meter.create_counter(...)] and [meter.create_histogram(...)] *)
Definition create_counter (name unit description : string) : M instrument :=
  emit (InstrumentCreated Counter name unit description) >> ret (mk_instrument Counter name).

Definition create_histogram (name unit description : string) : M instrument :=
  emit (InstrumentCreated Histogram name unit description) >> ret (mk_instrument Histogram name).

(** [counter.add(amount, attributes=...)] *)
Definition counter_add (c : instrument) (amount : Z) (attributes : dict) : M unit :=
  emit (CounterAdded (instrument_name c) amount attributes).

(** [histogram.record(value, attributes=...)] *)
Definition histogram_record (h : instrument) (value : Z) (attributes : dict) : M unit :=
  emit (HistogramRecorded (instrument_name h) value attributes).

(** [logger.warning(msg, arg)] *)
Definition logger_warning (msg arg : string) : M unit := emit (Warned msg arg).

(** ** The process configuration and the library functions used *)

(** What a call reads from its surroundings:
    - [suppress_instrumentation]: the value of
      [context_api.get_value(_SUPPRESS_INSTRUMENTATION_KEY)];
    - [TRACELOOP_METRICS_ENABLED]: the value of [os.getenv] for that name;
    - [should_send_prompts]: the send-prompts policy flag;
    - [is_recording]: whether the spans of the tracer record;
    - [writes]: the guard of [set_span_attribute];
    - [json_dumps] and [str]: the library functions [json.dumps] and [str]. *)
Record config : Type := mk_config {
  suppress_instrumentation : pyval;
  TRACELOOP_METRICS_ENABLED : option string;
  should_send_prompts : bool;
  is_recording : bool;
  writes : pyval -> bool;
  json_dumps : pyval -> result string;
  str : pyval -> string
}.

(** Modelled from the spec: the package [opentelemetry.semconv.ai] is not
    among the sources; the attribute keys are the emitted span attribute keys
    that the specification lists, the request types are the two kinds of
    call. *)
Module SpanAttributes.
Definition LLM_VENDOR := "llm.vendor".
Definition LLM_REQUEST_TYPE := "llm.request.type".
Definition LLM_REQUEST_MODEL := "llm.request.model".
Definition LLM_RESPONSE_MODEL := "llm.response.model".
Definition LLM_REQUEST_MAX_TOKENS := "llm.request.max_tokens".
Definition LLM_TEMPERATURE := "llm.temperature".
Definition LLM_TOP_P := "llm.top_p".
Definition LLM_FREQUENCY_PENALTY := "llm.frequency_penalty".
Definition LLM_PRESENCE_PENALTY := "llm.presence_penalty".
Definition LLM_IS_STREAMING := "llm.is_streaming".
Definition LLM_PROMPTS := "llm.prompts".
Definition LLM_COMPLETIONS := "llm.completions".
Definition LLM_USAGE_PROMPT_TOKENS := "llm.usage.prompt_tokens".
Definition LLM_USAGE_COMPLETION_TOKENS := "llm.usage.completion_tokens".
Definition LLM_USAGE_TOTAL_TOKENS := "llm.usage.total_tokens".
End SpanAttributes.

Module LLMRequestTypeValues.
Definition COMPLETION := "completion".
Definition CHAT := "chat".
End LLMRequestTypeValues.

Module SpanKind.
Definition INTERNAL := "INTERNAL".
Definition CLIENT := "CLIENT".
End SpanKind.

(** [c.lower()] on the letters A to Z. *)
Definition lower_ascii (c : ascii) : ascii :=
  let n := nat_of_ascii c in
  if Nat.leb 65 n && Nat.leb n 90 then ascii_of_nat (n + 32) else c.

Fixpoint lower (s : string) : string :=
  match s with
  | EmptyString => EmptyString
  | String c s' => String (lower_ascii c) (lower s')
  end.

(** Unpacking a tuple into four targets. *)
Definition unpack4 {A} (t : list A) : result (A * A * A * A) :=
  match t with
  | [a; b; c; d] => Ok (a, b, c, d)
  | _ =>
      if Nat.ltb (length t) 4
      then Raise (ValueError ("not enough values to unpack (expected 4, got " +:+ pretty (length t) +:+ ")"))
      else Raise (ValueError "too many values to unpack (expected 4)")
  end.

(** What [__dict__] gives for a returned object, after
    [if not isinstance(response, dict): response = response.__dict__].
    The [__dict__] of a stream holds none of the keys that are read here. *)
Definition as_dict (response : retval) : result dict :=
  match response with
  | RVal (VDict d) => Ok d
  | RVal (VObject _ d) => Ok d
  | RVal v => Raise (AttributeError ("'" +:+ type_name v +:+ "' object has no attribute '__dict__'"))
  | RStream _ _ => Ok ∅
  | RCoroutine _ _ => Raise (AttributeError "'coroutine' object has no attribute '__dict__'")
  | RGenerator _ _ _ _ _ => Raise (AttributeError "'generator' object has no attribute '__dict__'")
  end.

(** Truth value of what a callable returned. *)
Definition truthy (response : retval) : bool :=
  match response with
  | RVal v => py_bool v
  | _ => true
  end.

Fixpoint map_result {A B} (f : A -> result B) (l : list A) : result (list B) :=
  match l with
  | [] => Ok []
  | x :: l' =>
      let? y := f x in
      let? ys := map_result f l' in
      Ok (y :: ys)
  end.

(** ** opentelemetry/instrumentation/anthropic/__init__.py *)

Module anthropic.

(** A resource of the client library ([Completions], [Messages], ...): the
    [instance] whose method is wrapped. *)
Record resource : Type := mk_resource {
  _client : client
}.

Definition wrapped_method (package object method span_name : string) : dict :=
  {[ "package" := VStr package; "object" := VStr object;
     "method" := VStr method; "span_name" := VStr span_name ]}.

Definition WRAPPED_METHODS : list dict :=
  [ wrapped_method "anthropic.resources.completions" "Completions" "create" "anthropic.completion";
    wrapped_method "anthropic.resources.messages" "Messages" "create" "anthropic.completion";
    wrapped_method "anthropic.resources.messages" "Messages" "stream" "anthropic.completion" ].

Definition WRAPPED_AMETHODS : list dict :=
  [ wrapped_method "anthropic.resources.completions" "AsyncCompletions" "create" "anthropic.completion";
    wrapped_method "anthropic.resources.messages" "AsyncMessages" "create" "anthropic.completion";
    wrapped_method "anthropic.resources.messages" "AsyncMessages" "stream" "anthropic.completion" ].

Definition is_streaming_response (response : retval) : bool :=
  match response with
  | RStream _ _ => true
  | _ => false
  end.

(** Modelled from the spec: the module [streaming] is not among the sources.
    The streaming adapter, given the open span, the raw lazy response
    sequence, the client handle and the request, returns a replacement lazy
    sequence; calling it only makes that generator. *)
Definition _build_from_streaming_response (span : nat) (response : retval)
    (c : client) (kwargs : dict) : retval :=
  RGenerator false span response c kwargs.

(** Modelled from the spec: the asynchronous variant of the adapter. *)
Definition _abuild_from_streaming_response (span : nat) (response : retval)
    (c : client) (kwargs : dict) : retval :=
  RGenerator true span response c kwargs.

Section with_config.

Variable cfg : config.

(** The module [utils] is not among the sources. [set_span_attribute] writes
    the value on the span unless its guard, [writes cfg], rejects it. *)
Definition set_span_attribute (span : nat) (name : string) (value : pyval) : M unit :=
  if writes cfg value then span_set_attribute span name value else ret tt.

(** [span.is_recording()], for a span that has not ended. *)
Definition span_is_recording (span : nat) : bool := is_recording cfg.

Definition _dump_content (content : pyval) : result pyval :=
  match content with
  | VStr _ => Ok content
  | _ =>
      let? items := py_iter content in
      let? json_serializable :=
        foldl (fun acc item =>
                 let? json_serializable := acc in
                 let? type := py_get item "type" in
                 if py_eq_str type "text" then
                   let? text := py_get item "text" in
                   Ok (json_serializable ++ [VDict {[ "type" := VStr "text"; "text" := text ]}])%list
                 else if py_eq_str type "image" then
                   let? source := py_get item "source" in
                   let? source_type := py_get source "type" in
                   let? media_type := py_get source "media_type" in
                   let? data := py_get source "data" in
                   Ok (json_serializable ++
                       [VDict {[ "type" := VStr "image";
                                 "source" := VDict {[ "type" := source_type;
                                                       "media_type" := media_type;
                                                       "data" := VStr (str cfg data) ]} ]}])%list
                 else Ok json_serializable)
              (Ok []) items in
      let? s := json_dumps cfg (VList json_serializable) in
      Ok (VStr s)
  end.

Definition _set_input_attributes (span : nat) (kwargs : dict) : M unit :=
  set_span_attribute span SpanAttributes.LLM_REQUEST_MODEL (get kwargs "model") >>
  set_span_attribute span SpanAttributes.LLM_REQUEST_MAX_TOKENS (get kwargs "max_tokens_to_sample") >>
  set_span_attribute span SpanAttributes.LLM_TEMPERATURE (get kwargs "temperature") >>
  set_span_attribute span SpanAttributes.LLM_TOP_P (get kwargs "top_p") >>
  set_span_attribute span SpanAttributes.LLM_FREQUENCY_PENALTY (get kwargs "frequency_penalty") >>
  set_span_attribute span SpanAttributes.LLM_PRESENCE_PENALTY (get kwargs "presence_penalty") >>
  set_span_attribute span SpanAttributes.LLM_IS_STREAMING (get kwargs "stream") >>
  if should_send_prompts cfg then
    if negb (is_none (get kwargs "prompt")) then
      set_span_attribute span (SpanAttributes.LLM_PROMPTS +:+ ".0.user") (get kwargs "prompt")
    else if negb (is_none (get kwargs "messages")) then
      let* messages := lift (py_iter (get kwargs "messages")) in
      for_each (enumerate messages) (fun '(i, message) =>
        let* content := lift (py_get message "content") in
        let* dumped := lift (_dump_content content) in
        set_span_attribute span (SpanAttributes.LLM_PROMPTS +:+ "." +:+ pretty i +:+ ".user") dumped)
    else ret tt
  else ret tt.

Definition _set_span_completions (span : nat) (response : dict) : M unit :=
  let index := 0%nat in
  let prefix := SpanAttributes.LLM_COMPLETIONS +:+ "." +:+ pretty index in
  set_span_attribute span (prefix +:+ ".finish_reason") (get response "stop_reason") >>
  if py_bool (get response "completion") then
    set_span_attribute span (prefix +:+ ".content") (get response "completion")
  else if py_bool (get response "content") then
    let* contents := lift (py_iter (get response "content")) in
    for_each (enumerate contents) (fun '(i, content) =>
      let* text := lift (py_getattr content "text") in
      set_span_attribute span (SpanAttributes.LLM_COMPLETIONS +:+ "." +:+ pretty i +:+ ".content") text)
  else ret tt.

Definition _set_token_usage_a (span : nat) (anthropic : client) (request : dict)
    (response : retval) : M unit :=
  let* response := lift (as_dict response) in
  let* prompt_tokens :=
    lift (if py_bool (get request "prompt") then
            count_tokens anthropic (get request "prompt")
          else if py_bool (get request "messages") then
            let? messages := py_iter (get request "messages") in
            let? counts := map_result (fun m => let? content := py_get m "content" in
                                                count_tokens anthropic content) messages in
            py_sum counts
          else Ok (VInt 0)) in
  let* completion_tokens :=
    lift (if py_bool (get response "completion") then
            count_tokens anthropic (get response "completion")
          else if py_bool (get response "content") then
            let? first := py_index (get response "content") 0 in
            let? text := py_getattr first "text" in
            count_tokens anthropic text
          else Ok (VInt 0)) in
  let* total_tokens := lift (py_add prompt_tokens completion_tokens) in
  set_span_attribute span SpanAttributes.LLM_USAGE_PROMPT_TOKENS prompt_tokens >>
  set_span_attribute span SpanAttributes.LLM_USAGE_COMPLETION_TOKENS completion_tokens >>
  set_span_attribute span SpanAttributes.LLM_USAGE_TOTAL_TOKENS total_tokens.

Definition _set_token_usage (span : nat) (anthropic : client) (request : dict)
    (response : retval) (metric_attributes : dict)
    (token_counter choice_counter : option instrument) : M unit :=
  let* response := lift (as_dict response) in
  let* prompt_tokens :=
    lift (if py_bool (get request "prompt") then
            count_tokens anthropic (get request "prompt")
          else if py_bool (get request "messages") then
            let? messages := py_iter (get request "messages") in
            let? counts := map_result (fun m => let? content := py_get m "content" in
                                                count_tokens anthropic content) messages in
            py_sum counts
          else Ok (VInt 0)) in
  match token_counter, prompt_tokens with
  | Some counter, VInt n =>
      if Z.leb 0 n
      then counter_add counter n (<["llm.usage.token_type" := VStr "prompt"]> metric_attributes)
      else ret tt
  | _, _ => ret tt
  end >>
  let* completion_tokens :=
    lift (if py_bool (get response "completion") then
            count_tokens anthropic (get response "completion")
          else if py_bool (get response "content") then
            let? first := py_index (get response "content") 0 in
            let? text := py_getattr first "text" in
            count_tokens anthropic text
          else Ok (VInt 0)) in
  match token_counter, completion_tokens with
  | Some counter, VInt n =>
      if Z.leb 0 n
      then counter_add counter n (<["llm.usage.token_type" := VStr "completion"]> metric_attributes)
      else ret tt
  | _, _ => ret tt
  end >>
  let* total_tokens := lift (py_add prompt_tokens completion_tokens) in
  let choices :=
    match get response "content" with
    | VList l => Z.of_nat (length l)
    | _ => if py_bool (get response "completion") then 1 else 0
    end in
  match choice_counter with
  | Some counter =>
      if Z.ltb 0 choices
      then counter_add counter choices
             (<["llm.response.stop_reason" := get response "stop_reason"]> metric_attributes)
      else ret tt
  | None => ret tt
  end >>
  set_span_attribute span SpanAttributes.LLM_USAGE_PROMPT_TOKENS prompt_tokens >>
  set_span_attribute span SpanAttributes.LLM_USAGE_COMPLETION_TOKENS completion_tokens >>
  set_span_attribute span SpanAttributes.LLM_USAGE_TOTAL_TOKENS total_tokens.

Definition _set_response_attributes (span : nat) (response : retval) : M unit :=
  let* response := lift (as_dict response) in
  set_span_attribute span SpanAttributes.LLM_RESPONSE_MODEL (get response "model") >>
  (if py_bool (get response "usage") then
     let* prompt_tokens := lift (py_getattr (get response "usage") "input_tokens") in
     let* completion_tokens := lift (py_getattr (get response "usage") "output_tokens") in
     set_span_attribute span SpanAttributes.LLM_USAGE_PROMPT_TOKENS prompt_tokens >>
     set_span_attribute span SpanAttributes.LLM_USAGE_COMPLETION_TOKENS completion_tokens >>
     let* total_tokens := lift (py_add prompt_tokens completion_tokens) in
     set_span_attribute span SpanAttributes.LLM_USAGE_TOTAL_TOKENS total_tokens
   else ret tt) >>
  if should_send_prompts cfg then _set_span_completions span response else ret tt.

Definition _create_metrics : M (instrument * instrument * instrument * instrument) :=
  let* token_counter :=
    create_counter "llm.anthropic.completion.tokens" "token"
      "Number of tokens used in prompt and completions" in
  let* choice_counter :=
    create_counter "llm.anthropic.completion.choices" "choice"
      "Number of choices returned by chat completions call" in
  let* duration_histogram :=
    create_histogram "llm.anthropic.completion.duration" "s"
      "Duration of chat completion operation" in
  let* exception_counter :=
    create_counter "llm.anthropic.completion.exceptions" "time"
      "Number of exceptions occurred during chat completions" in
  ret (token_counter, choice_counter, duration_histogram, exception_counter).

Definition _get_shared_metric_attributes (response : retval) (exception : option exn)
    : result dict :=
  if truthy response then
    let? response := as_dict response in
    Ok {[ "llm.response.model" := get response "model" ]}
  else
    match exception with
    | Some e => if exn_bool e then Ok {[ "error.type" := VStr (exn_class e) ]} else Ok ∅
    | None => Ok ∅
    end.

Definition is_metrics_enabled : bool :=
  let value :=
    match TRACELOOP_METRICS_ENABLED cfg with
    | Some v => if String.eqb v "" then "true" else v
    | None => "true"
    end in
  String.eqb (lower value) "true".

(** The [try] statement around the wrapped call is written out: the call is
    attempted, [response] and [exception] are what its [except Exception]
    clause leaves in them ([exception] stays [None] when what is raised is
    not an instance of [Exception]), the [finally] block runs, and then the
    exception, if there was one, goes on to the caller. *)
Definition _wrap (to_wrap : dict) (wrapped : callable) (instance : resource)
    (args : list pyval) (kwargs : dict) : M retval :=
  if py_bool (suppress_instrumentation cfg) then call wrapped args kwargs
  else
    let* instruments :=
      if is_metrics_enabled then
        let* created := _create_metrics in
        let '(token_counter, choice_counter, duration_histogram, exception_counter) :=
          created in
        lift (unpack4 [Some token_counter; Some choice_counter;
                       Some duration_histogram; Some exception_counter])
      else lift (unpack4 [None; None; None]) in
    let '(token_counter, choice_counter, duration_histogram, exception_counter) :=
      instruments in
    let name := get to_wrap "span_name" in
    let* span :=
      start_span name SpanKind.CLIENT
        {[ SpanAttributes.LLM_VENDOR := VStr "Anthropic";
           SpanAttributes.LLM_REQUEST_TYPE := VStr LLMRequestTypeValues.COMPLETION ]} in
    try_except
      (if span_is_recording span then _set_input_attributes span kwargs else ret tt)
      (fun ex => logger_warning "Failed to set input attributes for anthropic span, error: %s"
                   (exn_str ex)) >>
    let* start_time := time_time in
    let* attempted := attempt (call wrapped args kwargs) in
    let response :=
      match attempted with
      | Ok r => r
      | Raise _ => RVal VNone
      end in
    let exception :=
      match attempted with
      | Ok _ => None
      | Raise e => if is_Exception (wrapped args kwargs) then Some e else None
      end in
    let* end_time := time_time in
    let* metric_attributes := lift (_get_shared_metric_attributes response exception) in
    match duration_histogram with
    | Some histogram =>
        if negb (Z.eqb end_time 0)
        then histogram_record histogram (end_time - start_time) metric_attributes
        else ret tt
    | None => ret tt
    end >>
    match exception, exception_counter with
    | Some e, Some counter =>
        if exn_bool e then counter_add counter 1 metric_attributes else ret tt
    | _, _ => ret tt
    end >>
    match attempted with
    | Raise e => raise e
    | Ok _ =>
        if is_streaming_response response then
          ret (_build_from_streaming_response span response (_client instance) kwargs)
        else
          (if truthy response then
             try_except
               (if span_is_recording span then
                  _set_response_attributes span response >>
                  _set_token_usage span (_client instance) kwargs response
                    metric_attributes token_counter choice_counter
                else ret tt)
               (fun ex => logger_warning
                            "Failed to set response attributes for anthropic span, error: %s"
                            (exn_str ex)) >>
             if span_is_recording span then span_set_status span StatusOK else ret tt
           else ret tt) >>
          span_end span >>
          ret response
    end.

(** The body of the coroutine that the asynchronous wrapper returns; it runs
    when the caller awaits the instrumented method. *)
Definition _awrap (to_wrap : dict) (wrapped : callable) (instance : resource)
    (args : list pyval) (kwargs : dict) : M retval :=
  if py_bool (suppress_instrumentation cfg) then call wrapped args kwargs
  else
    let name := get to_wrap "span_name" in
    let* span :=
      start_span name SpanKind.CLIENT
        {[ SpanAttributes.LLM_VENDOR := VStr "Anthropic";
           SpanAttributes.LLM_REQUEST_TYPE := VStr LLMRequestTypeValues.COMPLETION ]} in
    try_except
      (if span_is_recording span then _set_input_attributes span kwargs else ret tt)
      (fun ex => logger_warning "Failed to set input attributes for anthropic span, error: %s"
                   (exn_str ex)) >>
    let* awaitable := call wrapped args kwargs in
    let* response := await awaitable in
    if is_streaming_response response then
      ret (_abuild_from_streaming_response span response (_client instance) kwargs)
    else
      (if truthy response then
         try_except
           (if span_is_recording span then
              _set_response_attributes span response >>
              _set_token_usage_a span (_client instance) kwargs response
            else ret tt)
           (fun ex => logger_warning
                        "Failed to set response attributes for anthropic span, error: %s"
                        (exn_str ex)) >>
         if span_is_recording span then span_set_status span StatusOK else ret tt
       else ret tt) >>
      span_end span >>
      ret response.

End with_config.

(** *** AnthropicInstrumentor *)

(** What the wrappers installed on the methods of the client library are:
    functions of the wrapped callable, the instance and the arguments. *)
Definition wrapper : Type := callable -> resource -> list pyval -> dict -> M retval.

(** The patches in effect: the wrappers that [wrapt.wrap_function_wrapper]
    has installed, and the attributes that
    [opentelemetry.instrumentation.utils.unwrap] has been applied to. *)
Inductive patch : Type :=
| Wrapped (module : pyval) (name : string) (w : wrapper)
| Unwrapped (obj : string) (attr : pyval).

(** The two patching functions in the environment of the process: whether a
    request returns or raises (a module that cannot be imported makes
    [wrap_function_wrapper] raise [ModuleNotFoundError]). *)
Record patcher : Type := mk_patcher {
  wrap_function_wrapper_outcome : pyval -> string -> result unit;
  unwrap_outcome : string -> pyval -> result unit
}.

(** Computations over the patches in effect that may raise. *)
Definition P (A : Type) : Type := list patch -> result A * list patch.

Definition and_then {A B} (m : P A) (k : A -> P B) : P B :=
  fun patches =>
    match m patches with
    | (Ok a, patches') => k a patches'
    | (Raise e, patches') => (Raise e, patches')
    end.

(** [for x in l: body] *)
Fixpoint for_each_of {A} (l : list A) (body : A -> P unit) : P unit :=
  match l with
  | [] => fun patches => (Ok tt, patches)
  | x :: l' => and_then (body x) (fun _ => for_each_of l' body)
  end.

(** [try: m  except ModuleNotFoundError: pass], for an exception of that
    very class. *)
Definition except_ModuleNotFoundError_pass (m : P unit) : P unit :=
  fun patches =>
    match m patches with
    | (Ok a, patches') => (Ok a, patches')
    | (Raise e, patches') =>
        if String.eqb (exn_class e) "ModuleNotFoundError" then (Ok tt, patches')
        else (Raise e, patches')
    end.

Definition ModuleNotFoundError (msg : string) := mk_exn "ModuleNotFoundError" msg true.

Definition _instruments : list string := ["anthropic >= 0.3.11"].

Section AnthropicInstrumentor.

Variable cfg : config.
Variable lib : patcher.

(** A value inside an f-string: a string is inserted as it is, any other
    value through [str]. *)
Definition format (v : pyval) : string :=
  match v with
  | VStr s => s
  | _ => str cfg v
  end.

Definition wrap_function_wrapper (module : pyval) (name : string) (w : wrapper) : P unit :=
  fun patches =>
    match wrap_function_wrapper_outcome lib module name with
    | Ok _ => (Ok tt, patches ++ [Wrapped module name w])
    | Raise e => (Raise e, patches)
    end.

Definition unwrap (obj : string) (attr : pyval) : P unit :=
  fun patches =>
    match unwrap_outcome lib obj attr with
    | Ok _ => (Ok tt, patches ++ [Unwrapped obj attr])
    | Raise e => (Raise e, patches)
    end.

(** The two decorators give the wrapper for a table entry; the tracer and
    the meter that they pass on are the backend of the calls. *)
Definition _with_tracer_wrapper
    (func : dict -> callable -> resource -> list pyval -> dict -> M retval)
    (to_wrap : dict) : wrapper :=
  fun wrapped instance args kwargs => func to_wrap wrapped instance args kwargs.

Definition _with_chat_telemetry_wrapper
    (func : dict -> callable -> resource -> list pyval -> dict -> M retval)
    (to_wrap : dict) : wrapper :=
  fun wrapped instance args kwargs => func to_wrap wrapped instance args kwargs.

Definition instrumentation_dependencies : list string := _instruments.

Definition _instrument (kwargs : dict) : P unit :=
  and_then
    (for_each_of WRAPPED_METHODS (fun wrapped_method =>
       let wrap_package := get wrapped_method "package" in
       let wrap_object := get wrapped_method "object" in
       let wrap_method := get wrapped_method "method" in
       except_ModuleNotFoundError_pass
         (wrap_function_wrapper wrap_package
            (format wrap_object +:+ "." +:+ format wrap_method)
            (_with_chat_telemetry_wrapper (_wrap cfg) wrapped_method))))
    (fun _ =>
       for_each_of WRAPPED_AMETHODS (fun wrapped_method =>
         let wrap_package := get wrapped_method "package" in
         let wrap_object := get wrapped_method "object" in
         let wrap_method := get wrapped_method "method" in
         except_ModuleNotFoundError_pass
           (wrap_function_wrapper wrap_package
              (format wrap_object +:+ "." +:+ format wrap_method)
              (_with_tracer_wrapper (_awrap cfg) wrapped_method)))).

Definition _uninstrument (kwargs : dict) : P unit :=
  and_then
    (for_each_of WRAPPED_METHODS (fun wrapped_method =>
       let wrap_package := get wrapped_method "package" in
       let wrap_object := get wrapped_method "object" in
       unwrap (format wrap_package +:+ "." +:+ format wrap_object)
         (get wrapped_method "method")))
    (fun _ =>
       for_each_of WRAPPED_AMETHODS (fun wrapped_method =>
         let wrap_object := get wrapped_method "object" in
         unwrap ("anthropic.resources.completions." +:+ format wrap_object)
           (get wrapped_method "method"))).

End AnthropicInstrumentor.

End anthropic.

(** ** opentelemetry/instrumentation/langchain/custom_chat_wrapper.py *)

Module langchain.

(** [getattr] on what a callable returned. *)
Definition getattr (r : retval) (name : string) : result pyval :=
  match r with
  | RVal v => py_getattr v name
  | RStream false _ => Raise (AttributeError ("'Stream' object has no attribute '" +:+ name +:+ "'"))
  | RStream true _ => Raise (AttributeError ("'AsyncStream' object has no attribute '" +:+ name +:+ "'"))
  | RCoroutine _ _ => Raise (AttributeError ("'coroutine' object has no attribute '" +:+ name +:+ "'"))
  | RGenerator _ _ _ _ _ => Raise (AttributeError ("'generator' object has no attribute '" +:+ name +:+ "'"))
  end.

(** [with tracer.start_as_current_span(name) as span: body]. The context
    manager of the tracer ends the span when the block is left; when the
    block is left by an exception it first sets the error status on a
    recording span. *)
Definition with_span {A} (recording : bool) (name : pyval) (body : nat -> M A) : M A :=
  let* span := start_span name SpanKind.INTERNAL ∅ in
  let* r := attempt (body span) in
  match r with
  | Ok a => span_end span >> ret a
  | Raise e =>
      (if recording then span_set_status span StatusERROR else ret tt) >>
      span_end span >>
      raise e
  end.

Section with_config.

Variable cfg : config.

Definition _handle_request (span : nat) (args : list pyval) (kwargs : dict)
    (instance : pyval) : M unit :=
  let* model :=
    lift (if py_hasattr instance "model"
          then py_getattr instance "model"
          else py_getattr instance "model_name") in
  span_set_attribute span SpanAttributes.LLM_REQUEST_TYPE (VStr LLMRequestTypeValues.CHAT) >>
  span_set_attribute span SpanAttributes.LLM_REQUEST_MODEL model >>
  span_set_attribute span SpanAttributes.LLM_RESPONSE_MODEL model >>
  if should_send_prompts cfg then
    let* first := lift (py_index (VList args) 0) in
    let* batch := lift (py_index first 0) in
    let* prompts := lift (py_iter batch) in
    for_each (enumerate prompts) (fun '(idx, prompt) =>
      let* content := lift (py_getattr prompt "content") in
      match content with
      | VList _ =>
          let* dumped := lift (json_dumps cfg content) in
          span_set_attribute span (SpanAttributes.LLM_PROMPTS +:+ "." +:+ pretty idx +:+ ".user")
            (VStr dumped)
      | _ =>
          span_set_attribute span (SpanAttributes.LLM_PROMPTS +:+ "." +:+ pretty idx +:+ ".user")
            content
      end)
  else ret tt.

Definition _handle_response (span : nat) (return_value : retval) : M unit :=
  if should_send_prompts cfg then
    let* generations := lift (getattr return_value "generations") in
    let* generations := lift (py_iter generations) in
    for_each (enumerate generations) (fun '(idx, generation) =>
      let* first := lift (py_index generation 0) in
      let* text := lift (py_getattr first "text") in
      span_set_attribute span (SpanAttributes.LLM_COMPLETIONS +:+ "." +:+ pretty idx +:+ ".content")
        text)
  else ret tt.

Definition chat_wrapper (to_wrap : dict) (wrapped : callable) (instance : pyval)
    (args : list pyval) (kwargs : dict) : M retval :=
  if py_bool (suppress_instrumentation cfg) then call wrapped args kwargs
  else
    let name := VStr ("langchain.task." +:+ type_name instance) in
    with_span (is_recording cfg) name (fun span =>
      _handle_request span args kwargs instance >>
      let* return_value := call wrapped args kwargs in
      _handle_response span return_value >>
      ret return_value).

(** The body of the coroutine that the asynchronous wrapper returns. *)
Definition achat_wrapper (to_wrap : dict) (wrapped : callable) (instance : pyval)
    (args : list pyval) (kwargs : dict) : M retval :=
  if py_bool (suppress_instrumentation cfg) then call wrapped args kwargs
  else
    let name := VStr ("langchain.task." +:+ type_name instance) in
    with_span (is_recording cfg) name (fun span =>
      _handle_request span args kwargs instance >>
      let* awaitable := call wrapped args kwargs in
      let* return_value := await awaitable in
      _handle_response span return_value >>
      ret return_value).

End with_config.

End langchain.

(** ** Reading a trace *)

(** Whether [s] starts with [pre]. *)
Fixpoint starts_with (pre s : string) : bool :=
  match pre with
  | EmptyString => true
  | String a pre' =>
      match s with
      | EmptyString => false
      | String b s' => Ascii.eqb a b && starts_with pre' s'
      end
  end.

(** What an event does to the attributes of [span]: starting the span gives
    it the attributes it is started with, setting an attribute on it writes
    or replaces one value. *)
Definition record (span : nat) (attrs : dict) (e : event) : dict :=
  match e with
  | SpanStarted s _ _ attributes => if Nat.eqb s span then attributes else attrs
  | AttributeSet s key value => if Nat.eqb s span then <[key := value]> attrs else attrs
  | _ => attrs
  end.

(** The attributes of a span after the events of a trace. *)
Definition span_attributes (span : nat) (t : list event) : dict :=
  foldl (record span) ∅ t.

Definition is_span_started (e : event) : bool :=
  match e with SpanStarted _ _ _ _ => true | _ => false end.

Definition is_span_ended (span : nat) (e : event) : bool :=
  match e with SpanEnded s => Nat.eqb s span | _ => false end.

Definition is_instrument_created (e : event) : bool :=
  match e with InstrumentCreated _ _ _ _ => true | _ => false end.

Definition is_data_point (e : event) : bool :=
  match e with CounterAdded _ _ _ | HistogramRecorded _ _ _ => true | _ => false end.

(** A data point added to the counter [name]. *)
Definition is_added_to (name : string) (e : event) : bool :=
  match e with
  | CounterAdded n _ _ => String.eqb n name
  | _ => false
  end.

(** A data point recorded on the histogram [name]. *)
Definition is_recorded_on (name : string) (e : event) : bool :=
  match e with
  | HistogramRecorded n _ _ => String.eqb n name
  | _ => false
  end.

(** An attribute under [llm.completions] set on some span. *)
Definition is_completion_attribute (e : event) : bool :=
  match e with
  | AttributeSet _ key _ => starts_with "llm.completions." key
  | _ => false
  end.

Definition is_called (e : event) : bool :=
  match e with Called _ _ => true | _ => false end.

(** How many events of a trace satisfy [p]. *)
Definition count (p : event -> bool) (t : list event) : nat := length (List.filter p t).

(** A world in which nothing has happened yet, at clock reading [now]. *)
Definition fresh (now : Z) : world := mk_world [] now 0.

(** The world after the further events [out]. *)
Definition extend (w : world) (out : list event) : world :=
  mk_world (trace w ++ out) (clock w) (spans w).

(** [m] only adds events that satisfy [p], and leaves the clock and the
    number of spans as they are. *)
Definition emits (p : event -> bool) {A} (m : M A) : Prop :=
  forall w, exists out, (m w).2 = extend w out /\ forallb p out = true.

(** The keys written from a request and from a response. *)
Definition is_request_key (key : string) : bool :=
  existsb (String.eqb key)
    [ SpanAttributes.LLM_REQUEST_MODEL; SpanAttributes.LLM_REQUEST_MAX_TOKENS;
      SpanAttributes.LLM_TEMPERATURE; SpanAttributes.LLM_TOP_P;
      SpanAttributes.LLM_FREQUENCY_PENALTY; SpanAttributes.LLM_PRESENCE_PENALTY;
      SpanAttributes.LLM_IS_STREAMING ]
  || starts_with "llm.prompts." key.

Definition is_usage_key (key : string) : bool :=
  existsb (String.eqb key)
    [ SpanAttributes.LLM_USAGE_PROMPT_TOKENS; SpanAttributes.LLM_USAGE_COMPLETION_TOKENS;
      SpanAttributes.LLM_USAGE_TOTAL_TOKENS ].

Definition is_completions_key (key : string) : bool := starts_with "llm.completions." key.

Definition is_response_key (key : string) : bool :=
  String.eqb key SpanAttributes.LLM_RESPONSE_MODEL || is_usage_key key || is_completions_key key.

(** The events of recording a request on [span]: request attributes and
    warnings. *)
Definition request_event (span : nat) (e : event) : bool :=
  match e with
  | AttributeSet s key _ => Nat.eqb s span && is_request_key key
  | Warned _ _ => true
  | _ => false
  end.

(** The events of recording a response on [span]: response attributes,
    additions to counters and warnings. *)
Definition response_event (span : nat) (e : event) : bool :=
  match e with
  | AttributeSet s key _ => Nat.eqb s span && is_response_key key
  | CounterAdded _ _ _ => true
  | Warned _ _ => true
  | _ => false
  end.

(** The events of [_create_metrics]. *)
Definition metrics_created : list event :=
  [ InstrumentCreated Counter "llm.anthropic.completion.tokens" "token"
      "Number of tokens used in prompt and completions";
    InstrumentCreated Counter "llm.anthropic.completion.choices" "choice"
      "Number of choices returned by chat completions call";
    InstrumentCreated Histogram "llm.anthropic.completion.duration" "s"
      "Duration of chat completion operation";
    InstrumentCreated Counter "llm.anthropic.completion.exceptions" "time"
      "Number of exceptions occurred during chat completions" ].

(** The event of starting the span of an Anthropic call. *)
Definition completion_span_started (span : nat) (to_wrap : dict) : event :=
  SpanStarted span (get to_wrap "span_name") SpanKind.CLIENT
    {[ SpanAttributes.LLM_VENDOR := VStr "Anthropic";
       SpanAttributes.LLM_REQUEST_TYPE := VStr LLMRequestTypeValues.COMPLETION ]}.

(** The uninstrumented asynchronous method as its caller runs it:
    [await wrapped(...)]. *)
Definition call_and_await (wrapped : callable) (args : list pyval) (kwargs : dict) : M retval :=
  let* awaitable := call wrapped args kwargs in
  await awaitable.

(** What the caller of an instrumented method is to receive when the method
    alone ends with [r]: the same exception, the same value, or, for a
    streaming response, the replacement sequence [adapter] makes of it. *)
Definition passed_through (adapter : retval -> retval) (r : result retval) : result retval :=
  match r with
  | Ok response =>
      if anthropic.is_streaming_response response then Ok (adapter response) else Ok response
  | Raise e => Raise e
  end.

(** A returned value that [_get_shared_metric_attributes] can read: a false
    value such as [None], a [dict], an object, or a stream. *)
Definition readable (response : retval) : Prop :=
  truthy response = true -> exists d, as_dict response = Ok d.

(** The duration data point of a call that starts in [w] and takes [ticks];
    it is recorded unless the clock then reads zero. *)
Definition duration_recorded (w : world) (ticks : Z) (attrs : dict) : list event :=
  if Z.eqb (clock w + ticks) 0 then []
  else [HistogramRecorded "llm.anthropic.completion.duration" (clock w + ticks - clock w) attrs].

(** Whether the exception [e] that ends the call [o] is counted: the
    [except Exception] clause of [_wrap] catches it and its truth value is
    true. *)
Definition is_counted (o : outcome) (e : exn) : bool := is_Exception o && exn_bool e.

(** The attributes of the data points of a call that raises [e], and its
    exception data point. *)
Definition error_labels (o : outcome) (e : exn) : dict :=
  if is_counted o e then {[ "error.type" := VStr (exn_class e) ]} else ∅.

Definition exception_counted (o : outcome) (e : exn) : list event :=
  if is_counted o e
  then [CounterAdded "llm.anthropic.completion.exceptions" 1 (error_labels o e)]
  else [].

(** How awaiting the wrapped callable ends, and the time it takes. *)
Definition awaited (wrapped : callable) (args : list pyval) (kwargs : dict) : result retval :=
  (call_and_await wrapped args kwargs (fresh 0)).1.

Definition time_awaited (wrapped : callable) (args : list pyval) (kwargs : dict) : Z :=
  clock (call_and_await wrapped args kwargs (fresh 0)).2.

(** ** Sample calls *)

Module sample.

(** Two guards for [set_span_attribute]. Modelled from the spec: absent or
    falsy values are never written. *)
Definition written_unless_falsy (value : pyval) : bool := py_bool value.

(** A guard that rejects only [None] and the empty string, and so writes
    every integer. *)
Definition written_unless_none_or_empty (value : pyval) : bool :=
  match value with
  | VNone => false
  | VStr s => negb (String.eqb s "")
  | _ => true
  end.

(** A process with the given suppression flag and metrics setting, with
    prompts sent and spans recording. Its [json.dumps] rejects every value
    and its [str] gives the name of the type; the sample calls use neither. *)
Definition process (suppress : pyval) (metrics : option string) : config :=
  mk_config suppress metrics true true written_unless_none_or_empty
    (fun v => Raise (TypeError ("Object of type " +:+ type_name v +:+ " is not JSON serializable")))
    type_name.

Definition default_process : config := process VNone None.
Definition suppressed_process : config := process (VBool true) None.
Definition metrics_disabled_process : config := process VNone (Some "false").

(** A client that counts one token for each character of a text. *)
Definition a_client : client :=
  mk_client (fun v =>
    match v with
    | VStr s => Ok (VInt (Z.of_nat (String.length s)))
    | _ => Raise (TypeError "expected string or buffer")
    end).

Definition messages : anthropic.resource := anthropic.mk_resource a_client.

Definition create : dict :=
  anthropic.wrapped_method "anthropic.resources.messages" "Messages" "create"
    "anthropic.completion".

Definition request : dict :=
  {[ "model" := VStr "claude-3-opus-20240229";
     "max_tokens" := VInt 1024;
     "messages" := VList [VDict {[ "role" := VStr "user"; "content" := VStr "Tell me a joke" ]}] ]}.

Definition text_block (text : string) : pyval :=
  VObject "ContentBlock" {[ "type" := VStr "text"; "text" := VStr text ]}.

(** A message with two content blocks whose usage reports 17 input and 30
    output tokens. *)
Definition message : retval :=
  RVal (VObject "Message"
          {[ "model" := VStr "claude-3-opus-20240229";
             "content" := VList [text_block "Why?"; text_block "Because."];
             "stop_reason" := VStr "end_turn";
             "usage" := VObject "Usage" {[ "input_tokens" := VInt 17;
                                           "output_tokens" := VInt 30 ]} ]}).

Definition a_stream : retval :=
  RStream false [VObject "ContentBlockDeltaEvent" {[ "type" := VStr "content_block_delta" ]}].

Definition an_error : exn := mk_exn "APIConnectionError" "Connection error." true.

(** Synchronous callables that take 5 ticks. *)
Definition returns_message : callable := fun _ _ => mk_outcome 5 (Ok message) true.
Definition returns_stream : callable := fun _ _ => mk_outcome 5 (Ok a_stream) true.
Definition raises : callable := fun _ _ => mk_outcome 5 (Raise an_error) true.

(** An exception of a class that defines [__len__], here of length zero, and
    an interrupt. *)
Definition an_empty_batch : exn := mk_exn "EmptyBatch" "no items" false.
Definition raises_empty_batch : callable :=
  fun _ _ => mk_outcome 5 (Raise an_empty_batch) true.
Definition an_interrupt : exn := mk_exn "KeyboardInterrupt" "" true.
Definition interrupted : callable := fun _ _ => mk_outcome 5 (Raise an_interrupt) false.

(** Asynchronous callables: the call makes a coroutine, awaiting it takes 5
    ticks. *)
Definition async_returns_message : callable :=
  fun _ _ => mk_outcome 0 (Ok (RCoroutine 5 (Ok message))) true.
Definition async_raises : callable :=
  fun _ _ => mk_outcome 0 (Ok (RCoroutine 5 (Raise an_error))) true.

(** A chat model of the orchestration framework, its arguments and result. *)
Definition chat_model : pyval := VObject "ChatOpenAI" {[ "model_name" := VStr "gpt-4" ]}.

Definition chat_args : list pyval :=
  [VList [VList [VObject "HumanMessage" {[ "content" := VStr "hi" ]}]]].

Definition chat_result : retval :=
  RVal (VObject "LLMResult"
          {[ "generations" :=
               VList [VList [VObject "ChatGeneration" {[ "text" := VStr "hello" ]}]];
             "llm_output" := VDict {[ "model_name" := VStr "gpt-4-0613" ]} ]}).

Definition generate : callable := fun _ _ => mk_outcome 3 (Ok chat_result) true.

(** A process that does not send prompts. *)
Definition quiet_process : config :=
  mk_config VNone None false true written_unless_none_or_empty
    (fun v => Raise (TypeError ("Object of type " +:+ type_name v +:+ " is not JSON serializable")))
    type_name.

(** A process whose [json.dumps] is a stand-in that renders a list of
    content blocks by the types of its entries. *)
Definition block_types (v : pyval) : result string :=
  match v with
  | VList l =>
      Ok (String.concat ","
            ((fun item => match item with
                          | VDict d => match d !! "type" with Some (VStr t) => t | _ => "?" end
                          | _ => "?"
                          end) <$> l))
  | _ => Raise (TypeError ("Object of type " +:+ type_name v +:+ " is not JSON serializable"))
  end.

Definition dumping_process : config :=
  mk_config VNone None true true written_unless_none_or_empty block_types type_name.

(** A client whose token counting fails. *)
Definition offline_client : client := mk_client (fun _ => Raise an_error).

Definition offline_messages : anthropic.resource := anthropic.mk_resource offline_client.

(** A request with two messages, the second with a list of content blocks. *)
Definition conversation : dict :=
  {[ "model" := VStr "claude-3-opus-20240229";
     "messages" :=
       VList [ VDict {[ "role" := VStr "user"; "content" := VStr "Tell me a joke" ]};
               VDict {[ "role" := VStr "user";
                        "content" :=
                          VList [ VDict {[ "type" := VStr "text"; "text" := VStr "Why?" ]};
                                  VDict {[ "type" := VStr "tool_result";
                                           "tool_use_id" := VStr "t1" ]} ] ]} ] ]}.

(** A request with two messages of plain text. *)
Definition two_questions : dict :=
  {[ "model" := VStr "claude-3-opus-20240229";
     "messages" :=
       VList [ VDict {[ "role" := VStr "user"; "content" := VStr "Tell me a joke" ]};
               VDict {[ "role" := VStr "user"; "content" := VStr "Why?" ]} ] ]}.

(** Callables that return a plain string, and an asynchronous stream. *)
Definition returns_text : callable := fun _ _ => mk_outcome 5 (Ok (RVal (VStr "pong"))) true.

Definition async_returns_text : callable :=
  fun _ _ => mk_outcome 0 (Ok (RCoroutine 5 (Ok (RVal (VStr "pong"))))) true.

Definition an_async_stream : retval :=
  RStream true [VObject "ContentBlockDeltaEvent" {[ "type" := VStr "content_block_delta" ]}].

Definition async_returns_stream : callable :=
  fun _ _ => mk_outcome 0 (Ok (RCoroutine 5 (Ok an_async_stream))) true.

(** A message whose usage is a [dict], not an object. *)
Definition message_with_dict_usage : retval :=
  RVal (VObject "Message"
          {[ "model" := VStr "claude-3-opus-20240229";
             "content" := VList [text_block "Why?"];
             "usage" := VDict {[ "input_tokens" := VInt 17; "output_tokens" := VInt 30 ]} ]}).

Definition returns_dict_usage : callable :=
  fun _ _ => mk_outcome 5 (Ok message_with_dict_usage) true.

(** Three environments of the instrumentor: every method can be patched;
    the module of the messages API is missing; the class [Messages] has no
    [stream] method. *)
Definition every_method : anthropic.patcher :=
  anthropic.mk_patcher (fun _ _ => Ok tt) (fun _ _ => Ok tt).

Definition without_messages : anthropic.patcher :=
  anthropic.mk_patcher
    (fun module _ =>
       if py_eq_str module "anthropic.resources.messages"
       then Raise (anthropic.ModuleNotFoundError "No module named 'anthropic.resources.messages'")
       else Ok tt)
    (fun _ _ => Ok tt).

Definition without_stream : anthropic.patcher :=
  anthropic.mk_patcher
    (fun _ name =>
       if String.eqb name "Messages.stream"
       then Raise (AttributeError "type object 'Messages' has no attribute 'stream'")
       else Ok tt)
    (fun _ _ => Ok tt).

(** A chat result without generations, and asynchronous chat callables. *)
Definition chat_message : retval :=
  RVal (VObject "AIMessage" {[ "content" := VStr "hello" ]}).

Definition invoke : callable := fun _ _ => mk_outcome 3 (Ok chat_message) true.

Definition agenerate : callable :=
  fun _ _ => mk_outcome 0 (Ok (RCoroutine 3 (Ok chat_result))) true.

End sample.

(** ** The token usage of a call *)

(** The pieces of [_set_token_usage] and [_set_token_usage_a], named so that
    what these functions do can be stated: the two token counts, the data
    points they add and the attribute events they leave. *)
Definition prompt_tokens_of (c : client) (request : dict) : result pyval :=
  if py_bool (get request "prompt") then
    count_tokens c (get request "prompt")
  else if py_bool (get request "messages") then
    let? messages := py_iter (get request "messages") in
    let? counts := map_result (fun m => let? content := py_get m "content" in
                                        count_tokens c content) messages in
    py_sum counts
  else Ok (VInt 0).

Definition completion_tokens_of (c : client) (response : dict) : result pyval :=
  if py_bool (get response "completion") then
    count_tokens c (get response "completion")
  else if py_bool (get response "content") then
    let? first := py_index (get response "content") 0 in
    let? text := py_getattr first "text" in
    count_tokens c text
  else Ok (VInt 0).

Definition token_points (counter : option instrument) (tokens : pyval) (token_type : string)
    (metric_attributes : dict) : list event :=
  match counter, tokens with
  | Some counter, VInt n =>
      if Z.leb 0 n
      then [CounterAdded (instrument_name counter) n
              (<["llm.usage.token_type" := VStr token_type]> metric_attributes)]
      else []
  | _, _ => []
  end.

Definition choices_of (response : dict) : Z :=
  match get response "content" with
  | VList l => Z.of_nat (length l)
  | _ => if py_bool (get response "completion") then 1 else 0
  end.

Definition choice_points (counter : option instrument) (response : dict)
    (metric_attributes : dict) : list event :=
  match counter with
  | Some counter =>
      if Z.ltb 0 (choices_of response)
      then [CounterAdded (instrument_name counter) (choices_of response)
              (<["llm.response.stop_reason" := get response "stop_reason"]> metric_attributes)]
      else []
  | None => []
  end.

(** The event of [set_span_attribute], if its guard lets the value through. *)
Definition written (cfg : config) (span : nat) (key : string) (value : pyval) : list event :=
  if writes cfg value then [AttributeSet span key value] else [].

Definition usage_written (cfg : config) (span : nat) (prompt completion total : pyval)
    : list event :=
  written cfg span SpanAttributes.LLM_USAGE_PROMPT_TOKENS prompt ++
  written cfg span SpanAttributes.LLM_USAGE_COMPLETION_TOKENS completion ++
  written cfg span SpanAttributes.LLM_USAGE_TOTAL_TOKENS total.

(** The recorded usage is consistent: when a total is recorded, so are the
    two counts, all three are integers, and the total is their sum. *)
Definition usage_ok (attrs : dict) : Prop :=
  forall total, attrs !! SpanAttributes.LLM_USAGE_TOTAL_TOKENS = Some total ->
    exists p c,
      attrs !! SpanAttributes.LLM_USAGE_PROMPT_TOKENS = Some (VInt p)
      /\ attrs !! SpanAttributes.LLM_USAGE_COMPLETION_TOKENS = Some (VInt c)
      /\ total = VInt (p + c).

(** An attribute under [llm.completions] set on [span]. *)
Definition completions_event (span : nat) (e : event) : bool :=
  match e with
  | AttributeSet s key _ => Nat.eqb s span && is_completions_key key
  | _ => false
  end.

(** An event that leaves the usage attributes of [span] alone. *)
Definition keeps_usage (span : nat) (e : event) : bool :=
  match e with
  | SpanStarted s _ _ attributes =>
      negb (Nat.eqb s span)
      || forallb (fun key => match attributes !! key with None => true | Some _ => false end)
           [ SpanAttributes.LLM_USAGE_PROMPT_TOKENS; SpanAttributes.LLM_USAGE_COMPLETION_TOKENS;
             SpanAttributes.LLM_USAGE_TOTAL_TOKENS ]
  | AttributeSet s key _ => negb (Nat.eqb s span && is_usage_key key)
  | _ => true
  end.

(** Events that keep the recorded usage of [span] consistent: events that
    leave it alone, and the three usage attributes written together as
    integers that add up. *)
Inductive usage_steps (span : nat) : list event -> Prop :=
| usage_steps_nil : usage_steps span []
| usage_steps_keep e out :
    keeps_usage span e = true -> usage_steps span out -> usage_steps span (e :: out)
| usage_steps_write p c out :
    usage_steps span out ->
    usage_steps span
      (AttributeSet span SpanAttributes.LLM_USAGE_PROMPT_TOKENS (VInt p)
       :: AttributeSet span SpanAttributes.LLM_USAGE_COMPLETION_TOKENS (VInt c)
       :: AttributeSet span SpanAttributes.LLM_USAGE_TOTAL_TOKENS (VInt (p + c)) :: out).

(** The token-counting capability returns integers, as its signature says. *)
Definition counts_integers (c : client) : Prop :=
  forall text n, count_tokens c text = Ok n -> exists z, n = VInt z.

(** The fields of the usage sub-structure of a response, where it has one,
    are integers. *)
Definition integer_usage (response : retval) : Prop :=
  forall d name v,
    as_dict response = Ok d -> name ∈ ["input_tokens"; "output_tokens"] ->
    py_getattr (get d "usage") name = Ok v -> exists z, v = VInt z.

(** ** The chat wrapper *)

(** The model that [_handle_request] reads from the instance: its [model]
    field if it has one, its [model_name] field otherwise. *)
Definition request_model (instance : pyval) : result pyval :=
  if py_hasattr instance "model" then py_getattr instance "model"
  else py_getattr instance "model_name".

(** A prompt attribute set on [span]. *)
Definition prompt_event (span : nat) (e : event) : bool :=
  match e with
  | AttributeSet s key _ => Nat.eqb s span && starts_with "llm.prompts." key
  | _ => false
  end.

(** What follows the recording of a chat request: the call, completion
    attributes of [span], and the end of the span. *)
Definition after_request_event (span : nat) (e : event) : bool :=
  match e with
  | AttributeSet s key _ => Nat.eqb s span && starts_with "llm.completions." key
  | Called _ _ | StatusSet _ _ | SpanEnded _ => true
  | _ => false
  end.

(** An event that leaves the attribute [key] of [span] alone. *)
Definition keeps_key (span : nat) (key : string) (e : event) : bool :=
  match e with
  | SpanStarted s _ _ _ => negb (Nat.eqb s span)
  | AttributeSet s k _ => negb (Nat.eqb s span && String.eqb k key)
  | _ => true
  end.

(** The three attributes that [_handle_request] sets first. *)
Definition chat_request_recorded (span : nat) (model : pyval) : list event :=
  [ AttributeSet span SpanAttributes.LLM_REQUEST_TYPE (VStr LLMRequestTypeValues.CHAT);
    AttributeSet span SpanAttributes.LLM_REQUEST_MODEL model;
    AttributeSet span SpanAttributes.LLM_RESPONSE_MODEL model ].

(** ** What a call never does *)

(** [m] only adds events that satisfy [P] to the trace. *)
Definition adds (P : event -> Prop) {A} (m : M A) : Prop :=
  forall w, exists out, trace (m w).2 = trace w ++ out /\ Forall P out.

(** A prompt or completion attribute: content of the conversation. *)
Definition is_content_attribute (e : event) : bool :=
  match e with
  | AttributeSet _ key _ => starts_with "llm.prompts." key || starts_with "llm.completions." key
  | _ => false
  end.

Definition is_status_set (e : event) : bool :=
  match e with StatusSet _ _ => true | _ => false end.

Definition is_error_status (e : event) : bool :=
  match e with StatusSet _ StatusERROR => true | _ => false end.

(** An attribute of the response set on some span. *)
Definition is_response_attribute (e : event) : bool :=
  match e with AttributeSet _ key _ => is_response_key key | _ => false end.

(** The attributes that a data point is recorded with. *)
Definition labels (e : event) : dict :=
  match e with
  | CounterAdded _ _ attributes | HistogramRecorded _ _ attributes => attributes
  | _ => ∅
  end.

(** What the counters of a call may receive: the token counter a
    non-negative amount labelled as prompt or completion tokens, the choice
    counter a positive amount, the exception counter the amount 1. *)
Definition is_valid_data_point (e : event) : bool :=
  match e with
  | CounterAdded name amount attrs =>
      if String.eqb name "llm.anthropic.completion.tokens" then
        Z.leb 0 amount
        && (py_eq_str (get attrs "llm.usage.token_type") "prompt"
            || py_eq_str (get attrs "llm.usage.token_type") "completion")
      else if String.eqb name "llm.anthropic.completion.choices" then Z.ltb 0 amount
      else if String.eqb name "llm.anthropic.completion.exceptions" then Z.eqb amount 1
      else false
  | _ => true
  end.

(** A value that has a [__dict__] or is a [dict]. *)
Definition has_dict (v : pyval) : bool :=
  match v with
  | VDict _ | VObject _ _ => true
  | _ => false
  end.

(** The attribute [key] set on some span. *)
Definition is_attribute_set (key : string) (e : event) : bool :=
  match e with
  | AttributeSet _ k _ => String.eqb k key
  | _ => false
  end.

(** The start of a span of the Anthropic instrumentation. *)
Definition is_completion_span (e : event) : Prop :=
  exists span,
    e = SpanStarted span (VStr "anthropic.completion") SpanKind.CLIENT
          {[ SpanAttributes.LLM_VENDOR := VStr "Anthropic";
             SpanAttributes.LLM_REQUEST_TYPE := VStr LLMRequestTypeValues.COMPLETION ]}.

(** An event that leaves the three usage attributes of [span] alone. *)
Definition leaves_usage (span : nat) (e : event) : bool :=
  forallb (fun key => keeps_key span key e)
    [ SpanAttributes.LLM_USAGE_PROMPT_TOKENS; SpanAttributes.LLM_USAGE_COMPLETION_TOKENS;
      SpanAttributes.LLM_USAGE_TOTAL_TOKENS ].

(** The usage attributes hold the two counts [p] and [c] and their sum. *)
Definition usage_is (attrs : dict) (p c : Z) : Prop :=
  attrs !! SpanAttributes.LLM_USAGE_PROMPT_TOKENS = Some (VInt p)
  /\ attrs !! SpanAttributes.LLM_USAGE_COMPLETION_TOKENS = Some (VInt c)
  /\ attrs !! SpanAttributes.LLM_USAGE_TOTAL_TOKENS = Some (VInt (p + c)).

(** ** What the extractors record *)

(** The value that [_set_input_attributes] records for a message of the
    request: its dumped content. *)
Definition recorded_prompt (cfg : config) (message : pyval) : result pyval :=
  let? content := py_get message "content" in
  anthropic._dump_content cfg content.

(** A [dict], the only kind of value with a [get] method. *)
Definition is_dict (v : pyval) : bool :=
  match v with
  | VDict _ => true
  | _ => false
  end.

(** ** The patches of the instrumentor *)

(** The dotted path of the attribute that a patch is applied to. *)
Definition address (cfg : config) (p : anthropic.patch) : string :=
  match p with
  | anthropic.Wrapped module name _ => anthropic.format cfg module +:+ "." +:+ name
  | anthropic.Unwrapped obj attr => obj +:+ "." +:+ anthropic.format cfg attr
  end.

(** The requests that [_instrument] makes, in order: the module, the name
    and the wrapper of each method of the two tables. *)
Definition wrap_requests (cfg : config) : list (pyval * string * anthropic.wrapper) :=
  ((fun m => (get m "package",
              anthropic.format cfg (get m "object") +:+ "." +:+ anthropic.format cfg (get m "method"),
              anthropic._with_chat_telemetry_wrapper (anthropic._wrap cfg) m))
     <$> anthropic.WRAPPED_METHODS)
  ++ ((fun m => (get m "package",
                 anthropic.format cfg (get m "object") +:+ "." +:+ anthropic.format cfg (get m "method"),
                 anthropic._with_tracer_wrapper (anthropic._awrap cfg) m))
        <$> anthropic.WRAPPED_AMETHODS).

Definition is_ok {A} (r : result A) : bool :=
  match r with
  | Ok _ => true
  | Raise _ => false
  end.

(** The patches of the requests that the patching library accepts. *)
Definition installed (lib : anthropic.patcher)
    (requests : list (pyval * string * anthropic.wrapper)) : list anthropic.patch :=
  (fun '(module, name, w) => anthropic.Wrapped module name w)
    <$> List.filter (fun '(module, name, _) =>
                       is_ok (anthropic.wrap_function_wrapper_outcome lib module name))
          requests.

(** One request of [_instrument]: the body of its two loops. *)
Definition request_wrap (lib : anthropic.patcher) (rq : pyval * string * anthropic.wrapper)
    : anthropic.P unit :=
  let '(module, name, w) := rq in
  anthropic.except_ModuleNotFoundError_pass (anthropic.wrap_function_wrapper lib module name w).

(** ** What the chat wrapper records *)

(** The value that [_handle_request] records for a prompt: its content, as
    JSON when the content is a list. *)
Definition recorded_chat_prompt (cfg : config) (prompt : pyval) : result pyval :=
  let? content := py_getattr prompt "content" in
  match content with
  | VList _ =>
      let? dumped := json_dumps cfg content in
      Ok (VStr dumped)
  | _ => Ok content
  end.

(** The text that [_handle_response] records for a generation: that of its
    first candidate. *)
Definition first_text (generation : pyval) : result pyval :=
  let? first := py_index generation 0 in
  py_getattr first "text".

(** The events inside the span of a chat call: attributes set on the span
    and the call of the wrapped callable. *)
Definition inside_span (span : nat) (e : event) : bool :=
  match e with
  | AttributeSet s _ _ => Nat.eqb s span
  | Called _ _ => true
  | _ => false
  end.

(** How the context manager of the tracer leaves a span: with the error
    status first when the block raised and the span is recording. *)
Definition span_left {A} (recording : bool) (span : nat) (r : result A) : list event :=
  match r with
  | Ok _ => []
  | Raise _ => if recording then [StatusSet span StatusERROR] else []
  end
  ++ [SpanEnded span].

(** * Properties *)

Import anthropic.

(** ** Computations and the events they add *)

Lemma extend_nil w : extend w [] = w.
Proof. destruct w; unfold extend; simpl. by rewrite app_nil_r. Qed.

Lemma extend_extend w a b : extend (extend w a) b = extend w (a ++ b).
Proof. unfold extend; simpl. by rewrite app_assoc. Qed.

Lemma emits_ret p {A} (a : A) : emits p (ret a).
Proof. intros w. exists []. by rewrite extend_nil. Qed.

Lemma emits_raise p {A} e : emits p (@raise A e).
Proof. intros w. exists []. by rewrite extend_nil. Qed.

Lemma emits_lift p {A} (r : result A) : emits p (lift r).
Proof. intros w. exists []. by rewrite extend_nil. Qed.

Lemma emits_emit p e : p e = true -> emits p (emit e).
Proof. intros He w. exists [e]. split; [done | by simpl; rewrite He]. Qed.

Lemma emits_bind p {A B} (m : M A) (k : A -> M B) :
  emits p m -> (forall a, emits p (k a)) -> emits p (bind m k).
Proof.
  intros Hm Hk w. unfold bind.
  destruct (Hm w) as (out1 & Hw1 & Hp1).
  destruct (m w) as [[a | e] w1]; simpl in Hw1; subst w1.
  - destruct (Hk a (extend w out1)) as (out2 & Hw2 & Hp2).
    exists (out1 ++ out2). rewrite Hw2, extend_extend, forallb_app, Hp1, Hp2. done.
  - by exists out1.
Qed.

Lemma emits_bind_lift p {A B} (r : result A) (k : A -> M B) :
  (forall a, r = Ok a -> emits p (k a)) -> emits p (bind (lift r) k).
Proof.
  intros Hk w. unfold bind, lift. destruct r as [a | e].
  - by apply Hk.
  - exists []. by rewrite extend_nil.
Qed.

Lemma emits_try_except p {A} (m : M A) handler :
  emits p m -> (forall e, emits p (handler e)) -> emits p (try_except m handler).
Proof.
  intros Hm Hh w. unfold try_except.
  destruct (Hm w) as (out1 & Hw1 & Hp1).
  destruct (m w) as [[a | e] w1]; simpl in Hw1; subst w1.
  - by exists out1.
  - destruct (Hh e (extend w out1)) as (out2 & Hw2 & Hp2).
    exists (out1 ++ out2). rewrite Hw2, extend_extend, forallb_app, Hp1, Hp2. done.
Qed.

Lemma emits_for_each p {A} (l : list A) body :
  (forall x, emits p (body x)) -> emits p (for_each l body).
Proof.
  intros Hb. induction l as [| x l IH]; simpl.
  - apply emits_ret.
  - apply emits_bind; [apply Hb | intros _; apply IH].
Qed.

(** A block under [try ... except Exception as ex: logger.warning(...)]
    always completes, and adds the events of the block and perhaps a
    warning. *)
Lemma try_except_logged p (m : M unit) msg :
  emits p m -> (forall a, p (Warned msg a) = true) ->
  forall w, exists out,
    try_except m (fun ex => logger_warning msg (exn_str ex)) w = (Ok tt, extend w out)
    /\ forallb p out = true.
Proof.
  intros Hm Hp w. unfold try_except.
  destruct (Hm w) as (out1 & Hw1 & Hp1).
  destruct (m w) as [[[] | e] w1]; simpl in Hw1; subst w1.
  - by exists out1.
  - exists (out1 ++ [Warned msg (exn_str e)]).
    unfold logger_warning, emit. rewrite forallb_app, Hp1. simpl. rewrite Hp.
    split; [| done]. unfold extend; simpl. by rewrite app_assoc.
Qed.

Lemma run_bind {A B} (m : M A) (k : A -> M B) w a w' :
  m w = (Ok a, w') -> bind m k w = k a w'.
Proof. intros H. unfold bind. by rewrite H. Qed.

Lemma run_bind_raise {A B} (m : M A) (k : A -> M B) w e w' :
  m w = (Raise e, w') -> bind m k w = (Raise e, w').
Proof. intros H. unfold bind. by rewrite H. Qed.

Lemma run_call wrapped args kwargs w :
  call wrapped args kwargs w =
    (returned (wrapped args kwargs),
     mk_world (trace w ++ [Called args kwargs]) (clock w + elapsed (wrapped args kwargs)) (spans w)).
Proof. reflexivity. Qed.

Ltac emits_step :=
  match goal with
  | |- emits _ (bind (lift _) _) => apply emits_bind_lift; intros ? ?
  | |- emits _ (bind _ _) => apply emits_bind; [| intros ?]
  | |- emits _ (ret _) => apply emits_ret
  | |- emits _ (raise _) => apply emits_raise
  | |- emits _ (lift _) => apply emits_lift
  | |- emits _ (for_each _ _) => apply emits_for_each; intros [? ?]
  | |- emits _ (counter_add _ _ _) => apply emits_emit
  | |- emits _ (span_set_attribute _ _ _) => apply emits_emit
  | |- emits _ (if ?b then _ else _) => destruct b
  | |- emits _ (match ?x with _ => _ end) => destruct x
  end.

(** ** The extractors of the Anthropic instrumentation *)

Section extractors.

Variable cfg : config.

Lemma emits_set_span_attribute p span key value :
  p (AttributeSet span key value) = true -> emits p (set_span_attribute cfg span key value).
Proof.
  intros Hp. unfold set_span_attribute.
  destruct (writes cfg value); [by apply emits_emit | apply emits_ret].
Qed.

Lemma request_event_attribute span key value :
  is_request_key key = true -> request_event span (AttributeSet span key value) = true.
Proof. intros H. simpl. by rewrite Nat.eqb_refl, H. Qed.

Lemma response_event_attribute span key value :
  is_response_key key = true -> response_event span (AttributeSet span key value) = true.
Proof. intros H. simpl. by rewrite Nat.eqb_refl, H. Qed.

Ltac extractor_step :=
  first [ apply emits_set_span_attribute;
          first [ apply request_event_attribute | apply response_event_attribute ];
          reflexivity
        | emits_step ].

Lemma emits_set_input_attributes span kwargs :
  emits (request_event span) (_set_input_attributes cfg span kwargs).
Proof. unfold _set_input_attributes. repeat extractor_step. Qed.

Lemma emits_set_span_completions span response :
  emits (response_event span) (_set_span_completions cfg span response).
Proof. unfold _set_span_completions. repeat extractor_step. Qed.

Lemma emits_set_response_attributes span response :
  emits (response_event span) (_set_response_attributes cfg span response).
Proof.
  unfold _set_response_attributes.
  repeat first [ apply emits_set_span_completions | extractor_step ].
Qed.

Lemma emits_set_token_usage span anthropic request response attrs tc cc :
  emits (response_event span)
    (_set_token_usage cfg span anthropic request response attrs tc cc).
Proof. unfold _set_token_usage. repeat extractor_step; reflexivity. Qed.

Lemma emits_set_token_usage_a span anthropic request response :
  emits (response_event span) (_set_token_usage_a cfg span anthropic request response).
Proof. unfold _set_token_usage_a. repeat extractor_step. Qed.

Lemma run_create_metrics w :
  _create_metrics w =
    (Ok (mk_instrument Counter "llm.anthropic.completion.tokens",
         mk_instrument Counter "llm.anthropic.completion.choices",
         mk_instrument Histogram "llm.anthropic.completion.duration",
         mk_instrument Counter "llm.anthropic.completion.exceptions"),
     extend w metrics_created).
Proof.
  unfold _create_metrics, extend, metrics_created, bind, create_counter, create_histogram,
    emit, ret.
  simpl. by rewrite <- !app_assoc.
Qed.

(** Recording the request never fails the call. *)
Lemma run_input_attributes span kwargs w :
  exists out,
    try_except
      (if span_is_recording cfg span then _set_input_attributes cfg span kwargs else ret tt)
      (fun ex => logger_warning "Failed to set input attributes for anthropic span, error: %s"
                   (exn_str ex)) w = (Ok tt, extend w out)
    /\ forallb (request_event span) out = true.
Proof.
  apply try_except_logged; [| done].
  destruct (span_is_recording cfg span); [apply emits_set_input_attributes | apply emits_ret].
Qed.

(** Recording the response never fails the call. *)
Lemma run_response_attributes span c kwargs response attrs tc cc w :
  exists out,
    try_except
      (if span_is_recording cfg span then
         _set_response_attributes cfg span response >>
         _set_token_usage cfg span c kwargs response attrs tc cc
       else ret tt)
      (fun ex => logger_warning "Failed to set response attributes for anthropic span, error: %s"
                   (exn_str ex)) w = (Ok tt, extend w out)
    /\ forallb (response_event span) out = true.
Proof.
  apply try_except_logged; [| done].
  destruct (span_is_recording cfg span); [| apply emits_ret].
  apply emits_bind; [apply emits_set_response_attributes | intros _; apply emits_set_token_usage].
Qed.

Lemma run_response_attributes_a span c kwargs response w :
  exists out,
    try_except
      (if span_is_recording cfg span then
         _set_response_attributes cfg span response >>
         _set_token_usage_a cfg span c kwargs response
       else ret tt)
      (fun ex => logger_warning "Failed to set response attributes for anthropic span, error: %s"
                   (exn_str ex)) w = (Ok tt, extend w out)
    /\ forallb (response_event span) out = true.
Proof.
  apply try_except_logged; [| done].
  destruct (span_is_recording cfg span); [| apply emits_ret].
  apply emits_bind; [apply emits_set_response_attributes | intros _; apply emits_set_token_usage_a].
Qed.

End extractors.

Ltac finish_run :=
  unfold bind, histogram_record, counter_add, span_set_status, span_end, raise, emit, ret,
    extend, duration_recorded, completion_span_started;
  repeat (progress (simpl; rewrite <- ?app_assoc, ?app_nil_r)); reflexivity.

(** ** The paths through the interception wrappers *)

Section wrappers.

Variable cfg : config.
Variables (to_wrap : dict) (wrapped : callable) (instance : resource).
Variables (args : list pyval) (kwargs : dict).

Lemma wrap_suppressed w :
  py_bool (suppress_instrumentation cfg) = true ->
  _wrap cfg to_wrap wrapped instance args kwargs w = call wrapped args kwargs w.
Proof. intros Hs. unfold _wrap. by rewrite Hs. Qed.

Lemma wrap_metrics_disabled w :
  py_bool (suppress_instrumentation cfg) = false ->
  is_metrics_enabled cfg = false ->
  _wrap cfg to_wrap wrapped instance args kwargs w =
    (Raise (ValueError "not enough values to unpack (expected 4, got 3)"), w).
Proof. intros Hs Hm. unfold _wrap. by rewrite Hs, Hm. Qed.

(** The start of an instrumented call, up to the moment the wrapped callable is invoked *)
Ltac run_prelude Hs Hm w out Hrun Hout :=
  unfold _wrap; rewrite Hs, Hm;
  (erewrite run_bind; [| erewrite run_bind by apply run_create_metrics; reflexivity ]);
  cbv beta iota;
  erewrite run_bind by reflexivity;
  destruct (run_input_attributes cfg (spans w) kwargs
              (mk_world (trace (extend w metrics_created) ++
                 [completion_span_started (spans w) to_wrap]) (clock w) (S (spans w))))
    as (out & Hrun & Hout);
  exists out; split; [exact Hout |];
  erewrite run_bind by apply Hrun;
  erewrite run_bind by reflexivity.

Lemma wrap_raises w e :
  py_bool (suppress_instrumentation cfg) = false ->
  is_metrics_enabled cfg = true ->
  returned (wrapped args kwargs) = Raise e ->
  exists out, forallb (request_event (spans w)) out = true /\
    _wrap cfg to_wrap wrapped instance args kwargs w =
      (Raise e,
       mk_world (trace w ++ metrics_created ++ [completion_span_started (spans w) to_wrap] ++
                 out ++ [Called args kwargs] ++
                 duration_recorded w (elapsed (wrapped args kwargs))
                   (error_labels (wrapped args kwargs) e) ++
                 exception_counted (wrapped args kwargs) e)
          (clock w + elapsed (wrapped args kwargs)) (S (spans w))).
Proof.
  intros Hs Hm Hr. run_prelude Hs Hm w out Hrun Hout.
  erewrite run_bind; [| unfold attempt; rewrite run_call, Hr; reflexivity ].
  erewrite run_bind by reflexivity.
  unfold exception_counted, error_labels, is_counted.
  destruct (is_Exception (wrapped args kwargs)), (exn_bool e) eqn:Hbool;
    cbn [andb _get_shared_metric_attributes truthy py_bool]; rewrite ?Hbool;
    (erewrite run_bind by reflexivity);
    simpl clock; unfold duration_recorded;
    destruct (Z.eqb (clock w + elapsed (wrapped args kwargs)) 0); finish_run.
Qed.

Lemma wrap_streams w r :
  py_bool (suppress_instrumentation cfg) = false ->
  is_metrics_enabled cfg = true ->
  returned (wrapped args kwargs) = Ok r ->
  is_streaming_response r = true ->
  exists out, forallb (request_event (spans w)) out = true /\
    _wrap cfg to_wrap wrapped instance args kwargs w =
      (Ok (_build_from_streaming_response (spans w) r (_client instance) kwargs),
       mk_world (trace w ++ metrics_created ++ [completion_span_started (spans w) to_wrap] ++
                 out ++ [Called args kwargs] ++
                 duration_recorded w (elapsed (wrapped args kwargs))
                   {["llm.response.model" := VNone]})
          (clock w + elapsed (wrapped args kwargs)) (S (spans w))).
Proof.
  intros Hs Hm Hr Hstream. run_prelude Hs Hm w out Hrun Hout.
  erewrite run_bind; [| unfold attempt; rewrite run_call, Hr; reflexivity ].
  erewrite run_bind by reflexivity.
  destruct r as [v | a evs | t res | a s r' c k]; try discriminate Hstream.
  erewrite run_bind by reflexivity.
  simpl clock. unfold duration_recorded.
  destruct (Z.eqb (clock w + elapsed (wrapped args kwargs)) 0); finish_run.
Qed.

(** A call that returns a response which is not a stream. The events of
    recording the response have whatever property [Q] the block that records
    it gives them. *)
Lemma wrap_returns_with (Q : list event -> Prop) w r attrs :
  py_bool (suppress_instrumentation cfg) = false ->
  is_metrics_enabled cfg = true ->
  returned (wrapped args kwargs) = Ok r ->
  is_streaming_response r = false ->
  _get_shared_metric_attributes r None = Ok attrs ->
  Q [] ->
  (forall w1, exists out',
     try_except
       (if span_is_recording cfg (spans w) then
          _set_response_attributes cfg (spans w) r >>
          _set_token_usage cfg (spans w) (_client instance) kwargs r attrs
            (Some (mk_instrument Counter "llm.anthropic.completion.tokens"))
            (Some (mk_instrument Counter "llm.anthropic.completion.choices"))
        else ret tt)
       (fun ex => logger_warning
                    "Failed to set response attributes for anthropic span, error: %s"
                    (exn_str ex)) w1 = (Ok tt, extend w1 out')
     /\ Q out') ->
  exists out, forallb (request_event (spans w)) out = true /\
  exists out', Q out' /\
    _wrap cfg to_wrap wrapped instance args kwargs w =
      (Ok r,
       mk_world (trace w ++ metrics_created ++ [completion_span_started (spans w) to_wrap] ++
                 out ++ [Called args kwargs] ++
                 duration_recorded w (elapsed (wrapped args kwargs)) attrs ++
                 out' ++
                 (if truthy r && is_recording cfg then [StatusSet (spans w) StatusOK] else []) ++
                 [SpanEnded (spans w)])
          (clock w + elapsed (wrapped args kwargs)) (S (spans w))).
Proof.
  intros Hs Hm Hr Hstream Hattrs HQ Hblock. run_prelude Hs Hm w out Hrun Hout.
  erewrite run_bind; [| unfold attempt; rewrite run_call, Hr; reflexivity ].
  erewrite run_bind by reflexivity.
  erewrite run_bind; [| unfold lift; rewrite Hattrs; reflexivity ].
  rewrite Hstream.
  unfold extend in *. cbn [clock spans trace] in *. unfold duration_recorded.
  set (h := if Z.eqb (clock w + elapsed (wrapped args kwargs)) 0 then _ else _).
  set (w1 := mk_world (trace w ++ metrics_created ++
      [completion_span_started (spans w) to_wrap] ++ out ++ [Called args kwargs] ++ h)
      (clock w + elapsed (wrapped args kwargs)) (S (spans w))).
  erewrite run_bind with (w' := w1);
    [| subst w1 h; destruct (Z.eqb (clock w + elapsed (wrapped args kwargs)) 0); finish_run ].
  erewrite run_bind by reflexivity.
  destruct (truthy r) eqn:Htruthy.
  - destruct (Hblock w1) as (out' & Hrun' & Hout').
    exists out'. split; [exact Hout' |].
    erewrite run_bind with (a := tt)
      (w' := extend w1 (out' ++ if is_recording cfg then [StatusSet (spans w) StatusOK] else []));
      [| erewrite run_bind by apply Hrun'; unfold span_is_recording;
         destruct (is_recording cfg); subst w1; finish_run ].
    subst w1. rewrite andb_true_l. finish_run.
  - exists []. split; [exact HQ |]. finish_run.
Qed.

Lemma wrap_returns w r attrs :
  py_bool (suppress_instrumentation cfg) = false ->
  is_metrics_enabled cfg = true ->
  returned (wrapped args kwargs) = Ok r ->
  is_streaming_response r = false ->
  _get_shared_metric_attributes r None = Ok attrs ->
  exists out, forallb (request_event (spans w)) out = true /\
  exists out', forallb (response_event (spans w)) out' = true /\
    _wrap cfg to_wrap wrapped instance args kwargs w =
      (Ok r,
       mk_world (trace w ++ metrics_created ++ [completion_span_started (spans w) to_wrap] ++
                 out ++ [Called args kwargs] ++
                 duration_recorded w (elapsed (wrapped args kwargs)) attrs ++
                 out' ++
                 (if truthy r && is_recording cfg then [StatusSet (spans w) StatusOK] else []) ++
                 [SpanEnded (spans w)])
          (clock w + elapsed (wrapped args kwargs)) (S (spans w))).
Proof.
  intros Hs Hm Hr Hstream Hattrs.
  apply (wrap_returns_with (fun out' => forallb (response_event (spans w)) out' = true));
    try done.
  intros w1. apply run_response_attributes.
Qed.

(** A response that the shared metric attributes cannot be read from makes
    the [finally] block raise. *)
Lemma wrap_unreadable w r e :
  py_bool (suppress_instrumentation cfg) = false ->
  is_metrics_enabled cfg = true ->
  returned (wrapped args kwargs) = Ok r ->
  _get_shared_metric_attributes r None = Raise e ->
  exists out, forallb (request_event (spans w)) out = true /\
    _wrap cfg to_wrap wrapped instance args kwargs w =
      (Raise e,
       mk_world (trace w ++ metrics_created ++ [completion_span_started (spans w) to_wrap] ++
                 out ++ [Called args kwargs])
          (clock w + elapsed (wrapped args kwargs)) (S (spans w))).
Proof.
  intros Hs Hm Hr Hattrs. run_prelude Hs Hm w out Hrun Hout.
  erewrite run_bind; [| unfold attempt; rewrite run_call, Hr; reflexivity ].
  erewrite run_bind by reflexivity.
  erewrite run_bind_raise; [| unfold lift; rewrite Hattrs; reflexivity ].
  finish_run.
Qed.

Lemma bind_assoc {A B C} (m : M A) (f : A -> M B) (g : B -> M C) w :
  bind (bind m f) g w = bind m (fun a => bind (f a) g) w.
Proof. unfold bind. by destruct (m w) as [[a | e] w']. Qed.

Lemma run_call_and_await w :
  call_and_await wrapped args kwargs w =
    (awaited wrapped args kwargs,
     mk_world (trace w ++ [Called args kwargs]) (clock w + time_awaited wrapped args kwargs)
       (spans w)).
Proof.
  unfold awaited, time_awaited, call_and_await, bind. rewrite !run_call.
  destruct (returned (wrapped args kwargs)) as [[v | [] evs | t res | [] s r c k] | e];
    unfold await, bind, advance, lift, raise; simpl; f_equal; f_equal; lia.
Qed.

Lemma awrap_suppressed w :
  py_bool (suppress_instrumentation cfg) = true ->
  _awrap cfg to_wrap wrapped instance args kwargs w = call wrapped args kwargs w.
Proof. intros Hs. unfold _awrap. by rewrite Hs. Qed.

Ltac run_aprelude Hs w out Hrun Hout :=
  unfold _awrap; rewrite Hs;
  erewrite run_bind by reflexivity;
  destruct (run_input_attributes cfg (spans w) kwargs
              (mk_world (trace w ++ [completion_span_started (spans w) to_wrap])
                 (clock w) (S (spans w))))
    as (out & Hrun & Hout);
  exists out; split; [exact Hout |];
  erewrite run_bind by apply Hrun;
  rewrite <- (bind_assoc (call wrapped args kwargs) await);
  change (bind (call wrapped args kwargs) await) with (call_and_await wrapped args kwargs).

Lemma awrap_raises w e :
  py_bool (suppress_instrumentation cfg) = false ->
  awaited wrapped args kwargs = Raise e ->
  exists out, forallb (request_event (spans w)) out = true /\
    _awrap cfg to_wrap wrapped instance args kwargs w =
      (Raise e,
       mk_world (trace w ++ [completion_span_started (spans w) to_wrap] ++ out ++
                 [Called args kwargs])
          (clock w + time_awaited wrapped args kwargs) (S (spans w))).
Proof.
  intros Hs Hr. run_aprelude Hs w out Hrun Hout.
  erewrite run_bind_raise; [| rewrite run_call_and_await, Hr; reflexivity ].
  finish_run.
Qed.

Lemma awrap_streams w r :
  py_bool (suppress_instrumentation cfg) = false ->
  awaited wrapped args kwargs = Ok r ->
  is_streaming_response r = true ->
  exists out, forallb (request_event (spans w)) out = true /\
    _awrap cfg to_wrap wrapped instance args kwargs w =
      (Ok (_abuild_from_streaming_response (spans w) r (_client instance) kwargs),
       mk_world (trace w ++ [completion_span_started (spans w) to_wrap] ++ out ++
                 [Called args kwargs])
          (clock w + time_awaited wrapped args kwargs) (S (spans w))).
Proof.
  intros Hs Hr Hstream. run_aprelude Hs w out Hrun Hout.
  erewrite run_bind; [| rewrite run_call_and_await, Hr; reflexivity ].
  rewrite Hstream. finish_run.
Qed.

Lemma awrap_returns_with (Q : list event -> Prop) w r :
  py_bool (suppress_instrumentation cfg) = false ->
  awaited wrapped args kwargs = Ok r ->
  is_streaming_response r = false ->
  Q [] ->
  (forall w1, exists out',
     try_except
       (if span_is_recording cfg (spans w) then
          _set_response_attributes cfg (spans w) r >>
          _set_token_usage_a cfg (spans w) (_client instance) kwargs r
        else ret tt)
       (fun ex => logger_warning
                    "Failed to set response attributes for anthropic span, error: %s"
                    (exn_str ex)) w1 = (Ok tt, extend w1 out')
     /\ Q out') ->
  exists out, forallb (request_event (spans w)) out = true /\
  exists out', Q out' /\
    _awrap cfg to_wrap wrapped instance args kwargs w =
      (Ok r,
       mk_world (trace w ++ [completion_span_started (spans w) to_wrap] ++ out ++
                 [Called args kwargs] ++ out' ++
                 (if truthy r && is_recording cfg then [StatusSet (spans w) StatusOK] else []) ++
                 [SpanEnded (spans w)])
          (clock w + time_awaited wrapped args kwargs) (S (spans w))).
Proof.
  intros Hs Hr Hstream HQ Hblock. run_aprelude Hs w out Hrun Hout.
  erewrite run_bind; [| rewrite run_call_and_await, Hr; reflexivity ].
  rewrite Hstream. unfold extend in *. cbn [clock spans trace] in *.
  set (w1 := mk_world (trace w ++ [completion_span_started (spans w) to_wrap] ++ out ++
                       [Called args kwargs])
               (clock w + time_awaited wrapped args kwargs) (S (spans w))).
  destruct (truthy r) eqn:Htruthy.
  - destruct (Hblock w1) as (out' & Hrun' & Hout').
    exists out'. split; [exact Hout' |].
    erewrite run_bind with (a := tt)
      (w' := extend w1 (out' ++ if is_recording cfg then [StatusSet (spans w) StatusOK] else []));
      [| erewrite run_bind with (w := mk_world _ _ _);
         [| subst w1; rewrite <- Hrun'; f_equal; f_equal; finish_run ];
         unfold span_is_recording; destruct (is_recording cfg); subst w1; finish_run ].
    subst w1. rewrite andb_true_l. finish_run.
  - exists []. split; [exact HQ |]. finish_run.
Qed.

Lemma awrap_returns w r :
  py_bool (suppress_instrumentation cfg) = false ->
  awaited wrapped args kwargs = Ok r ->
  is_streaming_response r = false ->
  exists out, forallb (request_event (spans w)) out = true /\
  exists out', forallb (response_event (spans w)) out' = true /\
    _awrap cfg to_wrap wrapped instance args kwargs w =
      (Ok r,
       mk_world (trace w ++ [completion_span_started (spans w) to_wrap] ++ out ++
                 [Called args kwargs] ++ out' ++
                 (if truthy r && is_recording cfg then [StatusSet (spans w) StatusOK] else []) ++
                 [SpanEnded (spans w)])
          (clock w + time_awaited wrapped args kwargs) (S (spans w))).
Proof.
  intros Hs Hr Hstream.
  apply (awrap_returns_with (fun out' => forallb (response_event (spans w)) out' = true));
    try done.
  intros w1. apply run_response_attributes_a.
Qed.

End wrappers.

(** ** Counting events *)

Lemma count_app p a b : count p (a ++ b) = (count p a + count p b)%nat.
Proof. unfold count. by rewrite List.filter_app, length_app. Qed.

Lemma count_none p q out :
  (forall e, q e = true -> p e = false) -> forallb q out = true -> count p out = 0%nat.
Proof.
  intros Hpq. unfold count. induction out as [| e out IH]; simpl; [done |].
  intros [He Hout]%andb_prop. rewrite (Hpq e He). auto.
Qed.

Lemma count_duration_recorded p w ticks attrs :
  count p (duration_recorded w ticks attrs) =
    if Z.eqb (clock w + ticks) 0 then 0%nat
    else count p [HistogramRecorded "llm.anthropic.completion.duration" (clock w + ticks - clock w) attrs].
Proof. unfold duration_recorded. by destruct (Z.eqb _ _). Qed.




Lemma starts_with_cons a pre b s :
  starts_with (String a pre) (String b s) = true -> a = b /\ starts_with pre s = true.
Proof. simpl. intros [H1 H2]%andb_prop. by apply Ascii.eqb_eq in H1. Qed.

Ltac expose_prefix H :=
  repeat match type of H with
  | starts_with (String _ _) ?k = true =>
      destruct k; [discriminate H |]; apply starts_with_cons in H as [<- H]
  end.

Lemma request_key_not_response key :
  is_request_key key = true -> is_response_key key = false.
Proof.
  intros Hreq. destruct (is_response_key key) eqn:Hresp; [exfalso | done].
  unfold is_response_key, is_usage_key, is_completions_key, existsb in Hresp.
  repeat match type of Hresp with
  | (_ || _) = true => apply orb_prop in Hresp as [Hresp | Hresp]
  | String.eqb _ _ = true => apply String.eqb_eq in Hresp; subst key; by vm_compute in Hreq
  | false = true => discriminate Hresp
  end.
  expose_prefix Hresp. by cbn in Hreq.
Qed.

Lemma request_event_not_completion span e :
  request_event span e = true -> is_completion_attribute e = false.
Proof.
  destruct e; simpl; try done. intros [_ Hreq]%andb_prop.
  apply request_key_not_response in Hreq. unfold is_response_key in Hreq.
  by apply orb_false_elim in Hreq as [_ Hreq].
Qed.

Ltac count_trace :=
  cbn [trace snd fst];
  repeat rewrite count_app;
  repeat match goal with
  | H : forallb ?q ?out = true |- context [count ?p ?out] =>
      rewrite (count_none p q out)
        by (first [ exact H | by intros [] | apply request_event_not_completion ])
  end;
  rewrite ?count_duration_recorded.

Lemma forallb_elem_of {A} (p : A -> bool) l x : forallb p l = true -> x ∈ l -> p x = true.
Proof. intros H Hx. rewrite forallb_forall in H. apply H. by apply list_elem_of_In. Qed.

Ltac not_among H :=
  repeat (apply elem_of_cons in H as [H | H]; [discriminate H |]);
  by apply elem_of_nil in H.

Section raising.
Variable cfg : config.
Variables (to_wrap : dict) (wrapped awrapped : callable) (instance : resource).
Variables (args : list pyval) (kwargs : dict).

(** C3, as the code has it. When the wrapped callable raises (for the
    asynchronous wrapper: when awaiting it raises), the span that the wrapper
    started is not ended: the trace of the call holds one span start and no
    end of that span. The claim asks for exactly one end on this path too. *)
Theorem span_left_open_when_wrapped_raises now e e' :
  py_bool (suppress_instrumentation cfg) = false ->
  is_metrics_enabled cfg = true ->
  returned (wrapped args kwargs) = Raise e ->
  awaited awrapped args kwargs = Raise e' ->
  let sync := _wrap cfg to_wrap wrapped instance args kwargs (fresh now) in
  let async := _awrap cfg to_wrap awrapped instance args kwargs (fresh now) in
  (count is_span_started (trace sync.2) = 1%nat /\ count (is_span_ended 0) (trace sync.2) = 0%nat)
  /\ (count is_span_started (trace async.2) = 1%nat /\ count (is_span_ended 0) (trace async.2) = 0%nat).
Proof.
  intros Hs Hm Hr Ha sync async.
  destruct (wrap_raises cfg to_wrap wrapped instance args kwargs (fresh now) e Hs Hm Hr)
    as (out & Hout & Hrun).
  destruct (awrap_raises cfg to_wrap awrapped instance args kwargs (fresh now) e' Hs Ha)
    as (out' & Hout' & Hrun').
  subst sync async. rewrite Hrun, Hrun'.
  repeat split; count_trace; unfold exception_counted; try destruct (is_counted _ _);
    try destruct (Z.eqb _ _); reflexivity.
Qed.
End raising.

Section exception_metric.
Variable cfg : config.
Variables (to_wrap : dict) (wrapped : callable) (instance : resource).
Variables (args : list pyval) (kwargs : dict).

(** C6, amended. For every synchronous call that is not suppressed, with
    metrics enabled, in which the wrapped callable raises: the same exception
    goes to the caller and no attribute under [llm.completions] is set; when
    the exception is an instance of [Exception] and its truth value is true,
    exactly one data point is added to the exception counter, and for any
    other exception none is; every data point of that counter carries
    [error.type] equal to the name of the class of the exception. *)
Theorem exception_counted_once now e :
  py_bool (suppress_instrumentation cfg) = false ->
  is_metrics_enabled cfg = true ->
  returned (wrapped args kwargs) = Raise e ->
  let run := _wrap cfg to_wrap wrapped instance args kwargs (fresh now) in
  run.1 = Raise e
  /\ count (is_added_to "llm.anthropic.completion.exceptions") (trace run.2) =
       (if is_Exception (wrapped args kwargs) && exn_bool e then 1%nat else 0%nat)
  /\ (forall amount attrs,
        CounterAdded "llm.anthropic.completion.exceptions" amount attrs ∈ trace run.2 ->
        attrs !! "error.type" = Some (VStr (exn_class e)))
  /\ count is_completion_attribute (trace run.2) = 0%nat.
Proof.
  intros Hs Hm Hr run.
  destruct (wrap_raises cfg to_wrap wrapped instance args kwargs (fresh now) e Hs Hm Hr)
    as (out & Hout & Hrun).
  subst run. rewrite Hrun. split; [done |]. split; [| split].
  - count_trace. unfold exception_counted, is_counted.
    by destruct (is_Exception (wrapped args kwargs) && exn_bool e), (Z.eqb _ _).
  - intros amount attrs. cbn [trace snd fresh]. rewrite !elem_of_app.
    intros [H | [H | [H | [H | [H | [H | H]]]]]].
    + by apply elem_of_nil in H.
    + unfold metrics_created in H. not_among H.
    + not_among H.
    + by apply (forallb_elem_of _ _ _ Hout) in H.
    + not_among H.
    + unfold duration_recorded in H. destruct (Z.eqb _ _); not_among H.
    + unfold exception_counted, error_labels in H.
      destruct (is_counted (wrapped args kwargs) e); [| by apply elem_of_nil in H].
      apply list_elem_of_singleton in H. injection H as _ ->. apply lookup_singleton_eq.
  - count_trace. unfold exception_counted.
    by destruct (is_counted (wrapped args kwargs) e), (Z.eqb _ _).
Qed.
End exception_metric.

Section passthrough.
Variable cfg : config.
Variables (to_wrap : dict) (wrapped awrapped : callable) (instance : resource).
Variables (args : list pyval) (kwargs : dict).

Lemma shared_metric_attributes_readable r :
  readable r -> exists attrs, _get_shared_metric_attributes r None = Ok attrs.
Proof.
  intros Hr. unfold _get_shared_metric_attributes.
  destruct (truthy r) eqn:Htruthy; [| by eexists].
  destruct (Hr Htruthy) as [d ->]. by eexists.
Qed.

(** C1, amended. With the suppression flag set, or with metrics enabled, and
    a wrapped callable that returns a false value, a [dict], an object or a
    stream: the synchronous wrapper raises the exception the wrapped callable
    raises and returns the value it returns, except that for a streaming
    response of a call that is not suppressed it returns the replacement
    sequence the streaming adapter makes of that response. When the
    suppression flag is not set the asynchronous wrapper does the same with
    what awaiting the wrapped callable gives. *)
Theorem returns_what_wrapped_returns_but_for_streams w :
  py_bool (suppress_instrumentation cfg) = true \/ is_metrics_enabled cfg = true ->
  (forall r, returned (wrapped args kwargs) = Ok r -> readable r) ->
  (_wrap cfg to_wrap wrapped instance args kwargs w).1 =
    (if py_bool (suppress_instrumentation cfg) then (call wrapped args kwargs w).1
     else passed_through
            (fun r => _build_from_streaming_response (spans w) r (_client instance) kwargs)
            (call wrapped args kwargs w).1)
  /\ (py_bool (suppress_instrumentation cfg) = false ->
      (_awrap cfg to_wrap awrapped instance args kwargs w).1 =
        passed_through
          (fun r => _abuild_from_streaming_response (spans w) r (_client instance) kwargs)
          (call_and_await awrapped args kwargs w).1).
Proof.
  intros Hm Hread. split.
  - destruct (py_bool (suppress_instrumentation cfg)) eqn:Hs.
    { by rewrite wrap_suppressed. }
    destruct Hm as [Hm | Hm]; [done |].
    rewrite run_call. cbn [fst]. unfold passed_through.
    destruct (returned (wrapped args kwargs)) as [r | e] eqn:Hr.
    + destruct (is_streaming_response r) eqn:Hstream.
      * destruct (wrap_streams cfg to_wrap wrapped instance args kwargs w r Hs Hm Hr Hstream)
          as (out & _ & ->). done.
      * destruct (shared_metric_attributes_readable r (Hread r eq_refl)) as [attrs Hattrs].
        destruct (wrap_returns cfg to_wrap wrapped instance args kwargs w r attrs
                    Hs Hm Hr Hstream Hattrs) as (out & _ & out' & _ & ->). done.
    + destruct (wrap_raises cfg to_wrap wrapped instance args kwargs w e Hs Hm Hr)
        as (out & _ & ->). done.
  - intros Hs. rewrite run_call_and_await. cbn [fst]. unfold passed_through.
    destruct (awaited awrapped args kwargs) as [r | e] eqn:Hr.
    + destruct (is_streaming_response r) eqn:Hstream.
      * destruct (awrap_streams cfg to_wrap awrapped instance args kwargs w r Hs Hr Hstream)
          as (out & _ & ->). done.
      * destruct (awrap_returns cfg to_wrap awrapped instance args kwargs w r Hs Hr Hstream)
          as (out & _ & out' & _ & ->). done.
    + destruct (awrap_raises cfg to_wrap awrapped instance args kwargs w e Hs Hr)
        as (out & _ & ->). done.
Qed.
End passthrough.

(** C1 fails as stated: for a call that returns a stream the instrumented
    method returns a generator, not the stream. *)
Lemma stream_is_replaced :
  (_wrap sample.default_process sample.create sample.returns_stream sample.messages []
     sample.request (fresh 100)).1
  <> (call sample.returns_stream [] sample.request (fresh 100)).1.
Proof. vm_compute. discriminate. Qed.

Lemma returns_what_wrapped_returns_but_for_streams_witness :
  (py_bool (suppress_instrumentation sample.default_process) = true
   \/ is_metrics_enabled sample.default_process = true)
  /\ (forall r, returned (sample.returns_message [] sample.request) = Ok r -> readable r)
  /\ (_wrap sample.default_process sample.create sample.returns_message sample.messages []
        sample.request (fresh 100)).1 = Ok sample.message
  /\ (_awrap sample.default_process sample.create sample.async_returns_message sample.messages []
        sample.request (fresh 100)).1 = Ok sample.message.
Proof.
  assert (H1 : py_bool (suppress_instrumentation sample.default_process) = true
               \/ is_metrics_enabled sample.default_process = true) by (right; reflexivity).
  assert (H2 : forall r, returned (sample.returns_message [] sample.request) = Ok r -> readable r).
  { intros r [= <-] _. eexists. reflexivity. }
  split; [exact H1 |]. split; [exact H2 |].
  destruct (returns_what_wrapped_returns_but_for_streams sample.default_process sample.create
              sample.returns_message sample.async_returns_message sample.messages []
              sample.request (fresh 100) H1 H2) as [Hsync Hasync].
  split; [exact Hsync | exact (Hasync eq_refl)].
Defined.

Section flags.
Variable cfg : config.
Variables (to_wrap : dict) (wrapped : callable) (instance : resource).
Variables (args : list pyval) (kwargs : dict).

(** C2, as the code has it. With the metrics flag off and the call not
    suppressed, [_wrap] raises [ValueError] while unpacking three values into
    four targets and leaves the world as it was: no span is started and the
    wrapped callable is not invoked. The claim asks for a span and a call
    that completes. *)
Theorem metrics_disabled_fails_the_call w :
  py_bool (suppress_instrumentation cfg) = false ->
  is_metrics_enabled cfg = false ->
  _wrap cfg to_wrap wrapped instance args kwargs w =
    (Raise (ValueError "not enough values to unpack (expected 4, got 3)"), w).
Proof. intros Hs Hm. unfold _wrap. by rewrite Hs, Hm. Qed.

(** C7, as the code has it. Under the suppression flag the asynchronous
    wrapper returns the coroutine that the wrapped callable made, without
    awaiting it: the caller who awaits the instrumented method receives that
    coroutine, where awaiting the method itself gives [res]. *)
Theorem suppressed_awrap_returns_the_coroutine w ticks res :
  py_bool (suppress_instrumentation cfg) = true ->
  returned (wrapped args kwargs) = Ok (RCoroutine ticks res) ->
  (_awrap cfg to_wrap wrapped instance args kwargs w).1 = Ok (RCoroutine ticks res)
  /\ (call_and_await wrapped args kwargs w).1 = res.
Proof.
  intros Hs Hr. unfold _awrap. rewrite Hs. unfold call_and_await, bind.
  rewrite run_call, Hr. done.
Qed.

(** C8, as the code has it. No call through the asynchronous wrapper records
    a data point on the duration histogram, whatever the flags and however
    the wrapped callable ends. *)
Theorem awrap_records_no_duration now :
  count (is_recorded_on "llm.anthropic.completion.duration")
    (trace (_awrap cfg to_wrap wrapped instance args kwargs (fresh now)).2) = 0%nat.
Proof.
  destruct (py_bool (suppress_instrumentation cfg)) eqn:Hs.
  { rewrite awrap_suppressed, run_call by done. reflexivity. }
  destruct (awaited wrapped args kwargs) as [r | e] eqn:Hr.
  - destruct (is_streaming_response r) eqn:Hstream.
    + destruct (awrap_streams cfg to_wrap wrapped instance args kwargs (fresh now) r Hs Hr Hstream)
        as (out & Hout & ->). count_trace. reflexivity.
    + destruct (awrap_returns cfg to_wrap wrapped instance args kwargs (fresh now) r Hs Hr Hstream)
        as (out & Hout & out' & Hout' & ->). count_trace. destruct (_ && _); reflexivity.
  - destruct (awrap_raises cfg to_wrap wrapped instance args kwargs (fresh now) e Hs Hr)
      as (out & Hout & ->). count_trace. reflexivity.
Qed.

(** With metrics enabled the synchronous wrapper records the duration once,
    whether the wrapped callable returns or raises, and its value is the
    reading of the clock after the call less the reading before it. *)
Lemma wrap_records_one_duration now :
  py_bool (suppress_instrumentation cfg) = false ->
  is_metrics_enabled cfg = true ->
  (forall r, returned (wrapped args kwargs) = Ok r -> readable r) ->
  now + elapsed (wrapped args kwargs) <> 0 ->
  let t := trace (_wrap cfg to_wrap wrapped instance args kwargs (fresh now)).2 in
  count (is_recorded_on "llm.anthropic.completion.duration") t = 1%nat
  /\ forall name value attrs, HistogramRecorded name value attrs ∈ t ->
       value = (now + elapsed (wrapped args kwargs)) - now.
Proof.
  intros Hs Hm Hread Hnow t.
  assert (Hz : Z.eqb (clock (fresh now) + elapsed (wrapped args kwargs)) 0 = false)
    by (apply Z.eqb_neq; exact Hnow).
  assert (Hd : forall attrs name value attrs',
             HistogramRecorded name value attrs' ∈
               duration_recorded (fresh now) (elapsed (wrapped args kwargs)) attrs ->
             value = now + elapsed (wrapped args kwargs) - now).
  { intros attrs name value attrs'. unfold duration_recorded. rewrite Hz.
    intros H%list_elem_of_singleton. by injection H as _ -> _. }
  destruct (returned (wrapped args kwargs)) as [r | e] eqn:Hr.
  - destruct (is_streaming_response r) eqn:Hstream.
    + destruct (wrap_streams cfg to_wrap wrapped instance args kwargs (fresh now) r
                  Hs Hm Hr Hstream) as (out & Hout & Hrun).
      subst t. rewrite Hrun. split.
      * count_trace. rewrite Hz. reflexivity.
      * intros name value attrs. cbn [trace snd fresh]. rewrite !elem_of_app.
        intros [H | [H | [H | [H | [H | H]]]]];
          try (unfold metrics_created in H; not_among H); eauto.
        by apply (forallb_elem_of _ _ _ Hout) in H.
    + destruct (shared_metric_attributes_readable r (Hread r eq_refl)) as [attrs Hattrs].
      destruct (wrap_returns cfg to_wrap wrapped instance args kwargs (fresh now) r attrs
                  Hs Hm Hr Hstream Hattrs) as (out & Hout & out' & Hout' & Hrun).
      subst t. rewrite Hrun. split.
      * count_trace. rewrite Hz. destruct (_ && _); reflexivity.
      * intros name value attrs'. cbn [trace snd fresh]. rewrite !elem_of_app.
        intros [H | [H | [H | [H | [H | [H | [H | [H | H]]]]]]]];
          try (unfold metrics_created in H; not_among H); eauto.
        -- by apply (forallb_elem_of _ _ _ Hout) in H.
        -- by apply (forallb_elem_of _ _ _ Hout') in H.
        -- destruct (_ && _); not_among H.
  - destruct (wrap_raises cfg to_wrap wrapped instance args kwargs (fresh now) e Hs Hm Hr)
      as (out & Hout & Hrun).
    subst t. rewrite Hrun. split.
    + count_trace. rewrite Hz. unfold exception_counted.
      by destruct (is_counted (wrapped args kwargs) e).
    + intros name value attrs. cbn [trace snd fresh]. rewrite !elem_of_app.
      intros [H | [H | [H | [H | [H | [H | H]]]]]];
        try (unfold metrics_created in H; not_among H); eauto.
      * by apply (forallb_elem_of _ _ _ Hout) in H.
      * unfold exception_counted in H.
        destruct (is_counted (wrapped args kwargs) e); not_among H.
Qed.
End flags.

Lemma span_left_open_when_wrapped_raises_witness :
  let sync := _wrap sample.default_process sample.create sample.raises sample.messages []
                sample.request (fresh 100) in
  let async := _awrap sample.default_process sample.create sample.async_raises sample.messages []
                 sample.request (fresh 100) in
  sync.1 = Raise sample.an_error /\ async.1 = Raise sample.an_error
  /\ (count is_span_started (trace sync.2) = 1%nat /\ count (is_span_ended 0) (trace sync.2) = 0%nat)
  /\ (count is_span_started (trace async.2) = 1%nat /\ count (is_span_ended 0) (trace async.2) = 0%nat).
Proof.
  split; [reflexivity |]. split; [reflexivity |].
  apply (span_left_open_when_wrapped_raises sample.default_process sample.create sample.raises
           sample.async_raises sample.messages [] sample.request 100 sample.an_error
           sample.an_error); reflexivity.
Defined.

(** C6 fails as stated: under the suppression flag the wrapped callable
    raises and the exception reaches the caller, but no exception data point
    is recorded. *)
Lemma suppressed_call_counts_no_exception :
  let run := _wrap sample.suppressed_process sample.create sample.raises sample.messages []
               sample.request (fresh 100) in
  returned (sample.raises [] sample.request) = Raise sample.an_error
  /\ run.1 = Raise sample.an_error
  /\ count (is_added_to "llm.anthropic.completion.exceptions") (trace run.2) <> 1%nat.
Proof. vm_compute. repeat split; discriminate. Qed.

Lemma exception_counted_once_witness :
  let run (wrapped : callable) :=
    _wrap sample.default_process sample.create wrapped sample.messages []
      sample.request (fresh 100) in
  py_bool (suppress_instrumentation sample.default_process) = false
  /\ is_metrics_enabled sample.default_process = true
  /\ returned (sample.raises [] sample.request) = Raise sample.an_error
  /\ (run sample.raises).1 = Raise sample.an_error
  /\ count (is_added_to "llm.anthropic.completion.exceptions")
       (trace (run sample.raises).2) = 1%nat
  /\ CounterAdded "llm.anthropic.completion.exceptions" 1
       {[ "error.type" := VStr "APIConnectionError" ]} ∈ trace (run sample.raises).2
  /\ count is_completion_attribute (trace (run sample.raises).2) = 0%nat
  /\ ((run sample.raises_empty_batch).1 = Raise sample.an_empty_batch
      /\ count (is_added_to "llm.anthropic.completion.exceptions")
           (trace (run sample.raises_empty_batch).2) = 0%nat)
  /\ ((run sample.interrupted).1 = Raise sample.an_interrupt
      /\ count (is_added_to "llm.anthropic.completion.exceptions")
           (trace (run sample.interrupted).2) = 0%nat).
Proof.
  intros run. split; [reflexivity |]. split; [reflexivity |]. split; [reflexivity |].
  destruct (exception_counted_once sample.default_process sample.create sample.raises
              sample.messages [] sample.request 100 sample.an_error eq_refl eq_refl eq_refl)
    as (H1 & H2 & _ & H4).
  destruct (exception_counted_once sample.default_process sample.create
              sample.raises_empty_batch sample.messages [] sample.request 100
              sample.an_empty_batch eq_refl eq_refl eq_refl)
    as (H5 & H6 & _).
  destruct (exception_counted_once sample.default_process sample.create sample.interrupted
              sample.messages [] sample.request 100 sample.an_interrupt
              eq_refl eq_refl eq_refl)
    as (H7 & H8 & _).
  split; [exact H1 |]. split; [exact H2 |].
  split; [vm_compute; repeat first [ apply list_elem_of_here | apply list_elem_of_further ] |].
  split; [exact H4 |].
  split; [split; [exact H5 | exact H6] | split; [exact H7 | exact H8]].
Defined.

Lemma metrics_disabled_fails_the_call_witness :
  py_bool (suppress_instrumentation sample.metrics_disabled_process) = false
  /\ is_metrics_enabled sample.metrics_disabled_process = false
  /\ _wrap sample.metrics_disabled_process sample.create sample.returns_message sample.messages []
       sample.request (fresh 100) =
     (Raise (ValueError "not enough values to unpack (expected 4, got 3)"), fresh 100)
  /\ (call sample.returns_message [] sample.request (fresh 100)).1 = Ok sample.message.
Proof.
  split; [reflexivity |]. split; [reflexivity |]. split; [| reflexivity].
  apply (metrics_disabled_fails_the_call sample.metrics_disabled_process); reflexivity.
Defined.

Lemma suppressed_awrap_returns_the_coroutine_witness :
  py_bool (suppress_instrumentation sample.suppressed_process) = true
  /\ returned (sample.async_returns_message [] sample.request) =
       Ok (RCoroutine 5 (Ok sample.message))
  /\ (_awrap sample.suppressed_process sample.create sample.async_returns_message sample.messages
        [] sample.request (fresh 100)).1 = Ok (RCoroutine 5 (Ok sample.message))
  /\ (call_and_await sample.async_returns_message [] sample.request (fresh 100)).1 =
       Ok sample.message
  /\ Ok (RCoroutine 5 (Ok sample.message)) <> Ok sample.message.
Proof.
  split; [reflexivity |]. split; [reflexivity |].
  destruct (suppressed_awrap_returns_the_coroutine sample.suppressed_process sample.create
              sample.async_returns_message sample.messages [] sample.request (fresh 100)
              5 (Ok sample.message) eq_refl eq_refl) as [H1 H2].
  split; [exact H1 |]. split; [exact H2 |]. discriminate.
Defined.

(** ** Token usage *)

Section token_usage.
Variable cfg : config.

Lemma run_set_span_attribute span key value w :
  set_span_attribute cfg span key value w = (Ok tt, extend w (written cfg span key value)).
Proof.
  unfold set_span_attribute, written. destruct (writes cfg value); [done |].
  by rewrite extend_nil.
Qed.

Lemma run_usage_written span p c t w :
  (set_span_attribute cfg span SpanAttributes.LLM_USAGE_PROMPT_TOKENS p >>
   set_span_attribute cfg span SpanAttributes.LLM_USAGE_COMPLETION_TOKENS c >>
   set_span_attribute cfg span SpanAttributes.LLM_USAGE_TOTAL_TOKENS t) w =
  (Ok tt, extend w (usage_written cfg span p c t)).
Proof.
  erewrite run_bind by apply run_set_span_attribute.
  erewrite run_bind by apply run_set_span_attribute.
  rewrite run_set_span_attribute. unfold usage_written. by rewrite !extend_extend, <- ?app_assoc.
Qed.

Lemma run_token_points tc tokens token_type attrs w :
  match tc, tokens with
  | Some counter, VInt n =>
      if Z.leb 0 n
      then counter_add counter n (<["llm.usage.token_type" := VStr token_type]> attrs)
      else ret tt
  | _, _ => ret tt
  end w = (Ok tt, extend w (token_points tc tokens token_type attrs)).
Proof.
  unfold token_points.
  destruct tc as [counter |], tokens; try (by rewrite extend_nil).
  destruct (Z.leb 0 z); [done | by rewrite extend_nil].
Qed.

Lemma run_choice_points cc d attrs w :
  match cc with
  | Some counter =>
      if Z.ltb 0 (choices_of d)
      then counter_add counter (choices_of d)
             (<["llm.response.stop_reason" := get d "stop_reason"]> attrs)
      else ret tt
  | None => ret tt
  end w = (Ok tt, extend w (choice_points cc d attrs)).
Proof.
  unfold choice_points. destruct cc as [counter |]; [| by rewrite extend_nil].
  destruct (Z.ltb 0 _); [done | by rewrite extend_nil].
Qed.

(** What [_set_token_usage] does, in terms of its pieces. *)
Lemma run_set_token_usage span c request response d attrs tc cc w :
  as_dict response = Ok d ->
  _set_token_usage cfg span c request response attrs tc cc w =
    match prompt_tokens_of c request with
    | Raise e => (Raise e, w)
    | Ok p =>
        match completion_tokens_of c d with
        | Raise e => (Raise e, extend w (token_points tc p "prompt" attrs))
        | Ok n =>
            match py_add p n with
            | Raise e =>
                (Raise e, extend w (token_points tc p "prompt" attrs ++
                                    token_points tc n "completion" attrs))
            | Ok t =>
                (Ok tt, extend w (token_points tc p "prompt" attrs ++
                                  token_points tc n "completion" attrs ++
                                  choice_points cc d attrs ++
                                  usage_written cfg span p n t))
            end
        end
    end.
Proof.
  intros Hd. unfold _set_token_usage.
  erewrite run_bind by (unfold lift; rewrite Hd; reflexivity).
  fold (prompt_tokens_of c request). fold (completion_tokens_of c d). fold (choices_of d).
  destruct (prompt_tokens_of c request) as [p | e]; [| done].
  erewrite run_bind by reflexivity.
  erewrite run_bind by apply run_token_points.
  destruct (completion_tokens_of c d) as [n | e]; [| done].
  erewrite run_bind by reflexivity.
  erewrite run_bind by apply run_token_points.
  destruct (py_add p n) as [t | e]; [| by rewrite extend_extend].
  erewrite run_bind by reflexivity.
  erewrite run_bind by apply run_choice_points.
  rewrite run_usage_written. by rewrite !extend_extend, <- ?app_assoc.
Qed.

Lemma run_set_token_usage_a span c request response d w :
  as_dict response = Ok d ->
  _set_token_usage_a cfg span c request response w =
    match prompt_tokens_of c request with
    | Raise e => (Raise e, w)
    | Ok p =>
        match completion_tokens_of c d with
        | Raise e => (Raise e, w)
        | Ok n =>
            match py_add p n with
            | Raise e => (Raise e, w)
            | Ok t => (Ok tt, extend w (usage_written cfg span p n t))
            end
        end
    end.
Proof.
  intros Hd. unfold _set_token_usage_a.
  erewrite run_bind by (unfold lift; rewrite Hd; reflexivity).
  fold (prompt_tokens_of c request). fold (completion_tokens_of c d).
  destruct (prompt_tokens_of c request) as [p | e]; [| done].
  erewrite run_bind by reflexivity.
  destruct (completion_tokens_of c d) as [n | e]; [| done].
  erewrite run_bind by reflexivity.
  destruct (py_add p n) as [t | e]; [| done].
  erewrite run_bind by reflexivity.
  apply run_usage_written.
Qed.


Lemma span_attributes_extend span w out :
  span_attributes span (trace (extend w out)) =
    foldl (record span) (span_attributes span (trace w)) out.
Proof. unfold span_attributes, extend. simpl. apply foldl_app. Qed.

Lemma record_token_points span attrs tc tokens token_type metric_attributes :
  foldl (record span) attrs (token_points tc tokens token_type metric_attributes) = attrs.
Proof.
  unfold token_points. destruct tc, tokens; try done. by destruct (Z.leb 0 z).
Qed.

Lemma record_choice_points span attrs cc d metric_attributes :
  foldl (record span) attrs (choice_points cc d metric_attributes) = attrs.
Proof. unfold choice_points. destruct cc; [| done]. by destruct (Z.ltb 0 _). Qed.

Lemma completion_tokens_of_content c d first rest :
  py_bool (get d "completion") = false ->
  completion_tokens_of c (<["content" := VList (first :: rest)]> d) =
    let? text := py_getattr first "text" in count_tokens c text.
Proof.
  intros Hc. unfold completion_tokens_of, get in *.
  rewrite lookup_insert_ne by done. rewrite Hc. by rewrite lookup_insert_eq.
Qed.

Lemma completion_tokens_recorded span attrs p n t :
  writes cfg n = true ->
  foldl (record span) attrs (usage_written cfg span p n t)
    !! SpanAttributes.LLM_USAGE_COMPLETION_TOKENS = Some n.
Proof.
  intros Hn. unfold usage_written, written. rewrite Hn.
  destruct (writes cfg p), (writes cfg t); simpl; rewrite ?Nat.eqb_refl;
    by rewrite ?(lookup_insert_ne _ SpanAttributes.LLM_USAGE_TOTAL_TOKENS) by done;
       rewrite lookup_insert_eq.
Qed.

(** C9. When a response carries a non-empty content list and no free-text
    completion, the token usage computed through the token-counting
    capability takes its completion count from the text of the first content
    item only: two responses that differ only in the items after the first
    give the same outcome and the same span attributes, in both variants, and
    the recorded [llm.usage.completion_tokens] is the count of the text of
    the first item. *)
Theorem completion_tokens_count_the_first_item span c request r r' d first rest rest'
    attrs tc cc w :
  as_dict r = Ok (<["content" := VList (first :: rest)]> d) ->
  as_dict r' = Ok (<["content" := VList (first :: rest')]> d) ->
  py_bool (get d "completion") = false ->
  let sync x := _set_token_usage cfg span c request x attrs tc cc w in
  let async x := _set_token_usage_a cfg span c request x w in
  (sync r).1 = (sync r').1
  /\ span_attributes span (trace (sync r).2) = span_attributes span (trace (sync r').2)
  /\ async r = async r'
  /\ forall text n,
       py_getattr first "text" = Ok text -> count_tokens c text = Ok n -> writes cfg n = true ->
       ((sync r).1 = Ok tt ->
        span_attributes span (trace (sync r).2) !! SpanAttributes.LLM_USAGE_COMPLETION_TOKENS
          = Some n)
       /\ ((async r).1 = Ok tt ->
           span_attributes span (trace (async r).2) !! SpanAttributes.LLM_USAGE_COMPLETION_TOKENS
             = Some n).
Proof.
  intros Hr Hr' Hc sync async. subst sync async. cbv beta.
  rewrite (run_set_token_usage _ _ _ r _ _ _ _ _ Hr), (run_set_token_usage _ _ _ r' _ _ _ _ _ Hr').
  rewrite (run_set_token_usage_a _ _ _ r _ _ Hr), (run_set_token_usage_a _ _ _ r' _ _ Hr').
  rewrite !completion_tokens_of_content by done.
  destruct (prompt_tokens_of c request) as [p | e];
    [| by repeat split; intros; try discriminate ].
  destruct (py_getattr first "text") as [text | e];
    [| by repeat split; intros; try discriminate ].
  simpl rbind.
  destruct (count_tokens c text) as [n | e] eqn:Hcount;
    [| by repeat split; intros; try discriminate ].
  destruct (py_add p n) as [t | e];
    [| by repeat split; intros; try discriminate ].
  cbn [fst snd]. split; [done |]. split; [| split; [done |]].
  - rewrite !span_attributes_extend, !foldl_app.
    by rewrite !record_token_points, !record_choice_points.
  - intros text' n' [= <-] Hn' Hn. rewrite Hcount in Hn'. injection Hn' as <-.
    split; intros _.
    + rewrite span_attributes_extend, !foldl_app. by apply completion_tokens_recorded.
    + rewrite span_attributes_extend. by apply completion_tokens_recorded.
Qed.

End token_usage.

Lemma completion_tokens_count_the_first_item_witness :
  let d : dict :=
    {[ "model" := VStr "claude-3-opus-20240229"; "stop_reason" := VStr "end_turn" ]} in
  let one := RVal (VObject "Message" (<["content" := VList [sample.text_block "Why?"]]> d)) in
  let two := RVal (VObject "Message"
                     (<["content" := VList [sample.text_block "Why?";
                                            sample.text_block "Because."]]> d)) in
  let sync x := _set_token_usage sample.default_process 0 sample.a_client sample.request x ∅
                  None None (fresh 100) in
  py_bool (get d "completion") = false
  /\ span_attributes 0 (trace (sync one).2) = span_attributes 0 (trace (sync two).2)
  /\ span_attributes 0 (trace (sync two).2) !! SpanAttributes.LLM_USAGE_COMPLETION_TOKENS
       = Some (VInt 4).
Proof.
  intros d one two sync.
  destruct (completion_tokens_count_the_first_item sample.default_process 0 sample.a_client
              sample.request two one d (sample.text_block "Why?")
              [sample.text_block "Because."] [] ∅ None None (fresh 100)
              eq_refl eq_refl eq_refl) as (_ & H2 & _ & H4).
  split; [reflexivity |]. split; [symmetry; exact H2 |].
  apply (H4 (VStr "Why?") (VInt 4) eq_refl eq_refl eq_refl). reflexivity.
Defined.

(** ** Consistency of the recorded usage *)

Lemma usage_steps_app span a b :
  usage_steps span a -> usage_steps span b -> usage_steps span (a ++ b).
Proof. intros Ha Hb. induction Ha; simpl; [done | by constructor | by constructor]. Qed.

Lemma usage_steps_keeps span out :
  forallb (keeps_usage span) out = true -> usage_steps span out.
Proof.
  induction out as [| e out IH]; simpl; [constructor |].
  intros [He Hout]%andb_prop. constructor; auto.
Qed.

Lemma is_usage_key_false key :
  is_usage_key key = false ->
  key <> SpanAttributes.LLM_USAGE_PROMPT_TOKENS
  /\ key <> SpanAttributes.LLM_USAGE_COMPLETION_TOKENS
  /\ key <> SpanAttributes.LLM_USAGE_TOTAL_TOKENS.
Proof.
  unfold is_usage_key, existsb. rewrite !orb_false_iff. intros (H1 & H2 & H3 & _).
  by apply String.eqb_neq in H1, H2, H3.
Qed.

Lemma usage_ok_keep span attrs e :
  keeps_usage span e = true -> usage_ok attrs -> usage_ok (record span attrs e).
Proof.
  intros He Hok. destruct e as [s name kind attributes | s key value | | | | | | |];
    try exact Hok; unfold record, keeps_usage in *.
  - destruct (Nat.eqb s span); [| exact Hok]. simpl in He.
    rewrite !andb_true_iff in He. destruct He as (_ & _ & Htotal & _).
    intros total Ht. by rewrite Ht in Htotal.
  - destruct (Nat.eqb s span); [| exact Hok]. simpl in He.
    apply negb_true_iff, is_usage_key_false in He as (H1 & H2 & H3).
    intros total. rewrite !lookup_insert_ne by done. apply Hok.
Qed.

Lemma usage_ok_steps span out attrs :
  usage_steps span out -> usage_ok attrs -> usage_ok (foldl (record span) attrs out).
Proof.
  intros Hout. revert attrs. induction Hout as [| e out He _ IH | p c out _ IH]; intros attrs Hok.
  - done.
  - simpl. apply IH. by apply usage_ok_keep.
  - simpl. rewrite Nat.eqb_refl. apply IH. intros total.
    rewrite lookup_insert_eq. intros [= <-]. exists p, c.
    rewrite !(lookup_insert_ne _ SpanAttributes.LLM_USAGE_TOTAL_TOKENS) by done.
    rewrite lookup_insert_ne by done. by rewrite !lookup_insert_eq.
Qed.

Lemma py_sum_integers l :
  Forall (fun v => exists z, v = VInt z) l -> exists z, py_sum l = Ok (VInt z).
Proof.
  unfold py_sum. generalize 0. induction l as [| v l IH]; intros acc Hl; simpl.
  - by eexists.
  - apply Forall_cons in Hl as [[z ->] Hl]. simpl. by apply IH.
Qed.

Lemma map_result_Forall {A B} (f : A -> result B) (P : B -> Prop) l l' :
  (forall x y, f x = Ok y -> P y) -> map_result f l = Ok l' -> Forall P l'.
Proof.
  intros Hf. revert l'. induction l as [| x l IH]; simpl; intros l'.
  - intros [= <-]. constructor.
  - destruct (f x) as [y | e] eqn:Hx; simpl; [| done].
    destruct (map_result f l) as [ys | e]; simpl; [| done].
    intros [= <-]. constructor; eauto.
Qed.

Section integers.
Variable c : client.
Hypothesis Hcount : counts_integers c.

Lemma prompt_tokens_integer request p :
  prompt_tokens_of c request = Ok p -> exists z, p = VInt z.
Proof.
  unfold prompt_tokens_of.
  destruct (py_bool (get request "prompt")); [apply Hcount |].
  destruct (py_bool (get request "messages")); [| intros [= <-]; by eexists].
  destruct (py_iter _) as [messages | e]; simpl; [| done].
  destruct (map_result _ messages) as [counts | e] eqn:Hcounts; simpl; [| done].
  destruct (py_sum_integers counts) as [z Hz].
  - eapply map_result_Forall; [| exact Hcounts].
    intros m n. simpl. destruct (py_get m "content"); simpl; [apply Hcount | done].
  - rewrite Hz. intros [= <-]. by eexists.
Qed.

Lemma completion_tokens_integer d n :
  completion_tokens_of c d = Ok n -> exists z, n = VInt z.
Proof.
  unfold completion_tokens_of.
  destruct (py_bool (get d "completion")); [apply Hcount |].
  destruct (py_bool (get d "content")); [| intros [= <-]; by eexists].
  destruct (py_index _ 0) as [first | e]; simpl; [| done].
  destruct (py_getattr first "text") as [text | e]; simpl; [apply Hcount | done].
Qed.

End integers.

Lemma completions_key_not_usage key : is_completions_key key = true -> is_usage_key key = false.
Proof.
  intros H. unfold is_completions_key in H. expose_prefix H. reflexivity.
Qed.

Lemma completions_event_keeps_usage span e :
  completions_event span e = true -> keeps_usage span e = true.
Proof.
  destruct e; simpl; try done. intros [_ H]%andb_prop.
  by rewrite (completions_key_not_usage _ H), andb_false_r.
Qed.

Lemma request_event_keeps_usage span e :
  request_event span e = true -> keeps_usage span e = true.
Proof.
  destruct e; simpl; try done. intros [_ H]%andb_prop.
  apply request_key_not_response in H. unfold is_response_key in H.
  rewrite !orb_false_iff in H. destruct H as [[_ H] _]. by rewrite H, andb_false_r.
Qed.

Lemma forallb_impl {A} (p q : A -> bool) l :
  (forall x, p x = true -> q x = true) -> forallb p l = true -> forallb q l = true.
Proof. rewrite !forallb_forall. auto. Qed.

Section usage.
Variable cfg : config.
Hypothesis Hwrites : forall z, writes cfg (VInt z) = true.

Lemma emits_set_span_completions_only span d :
  emits (completions_event span) (_set_span_completions cfg span d).
Proof.
  assert (Hattr : forall key value, is_completions_key key = true ->
            emits (completions_event span) (set_span_attribute cfg span key value)).
  { intros key value Hkey. apply emits_set_span_attribute. simpl. by rewrite Nat.eqb_refl, Hkey. }
  unfold _set_span_completions.
  repeat first [ apply Hattr; reflexivity | emits_step ].
Qed.

Lemma usage_written_integers span p n :
  usage_steps span (usage_written cfg span (VInt p) (VInt n) (VInt (p + n))).
Proof.
  unfold usage_written, written. rewrite !Hwrites. apply usage_steps_write. constructor.
Qed.

Lemma usage_steps_written span key value :
  is_usage_key key = false -> usage_steps span (written cfg span key value).
Proof.
  intros Hkey. unfold written. destruct (writes cfg value); [| constructor].
  constructor; [| constructor]. simpl. by rewrite Hkey, andb_false_r.
Qed.

Lemma usage_steps_token_points span tc tokens token_type attrs :
  usage_steps span (token_points tc tokens token_type attrs).
Proof.
  unfold token_points. destruct tc, tokens; try constructor.
  destruct (Z.leb 0 z); repeat constructor.
Qed.

Lemma usage_steps_choice_points span cc d attrs :
  usage_steps span (choice_points cc d attrs).
Proof.
  unfold choice_points. destruct cc; [| constructor]. destruct (Z.ltb 0 _); repeat constructor.
Qed.

(** [_set_response_attributes] keeps the recorded usage consistent. *)
Lemma set_response_attributes_usage span response w :
  integer_usage response ->
  exists out, (_set_response_attributes cfg span response w).2 = extend w out
              /\ usage_steps span out.
Proof.
  intros Hint. unfold _set_response_attributes.
  destruct (as_dict response) as [d | e] eqn:Hd.
  2: { exists []. rewrite extend_nil. split; [done | constructor]. }
  erewrite run_bind by reflexivity.
  erewrite run_bind by apply run_set_span_attribute.
  set (w1 := extend w _).
  assert (Hcompletions : forall w2 out2, w2 = extend w1 out2 -> usage_steps span out2 ->
            exists out, ((if should_send_prompts cfg then _set_span_completions cfg span d
                          else ret tt) w2).2 = extend w out /\ usage_steps span out).
  { intros w2 out2 -> Hout2.
    assert (He : emits (completions_event span)
                   (if should_send_prompts cfg then _set_span_completions cfg span d else ret tt))
      by (destruct (should_send_prompts cfg);
          [apply emits_set_span_completions_only | apply emits_ret]).
    destruct (He (extend w1 out2)) as (out3 & -> & Hout3).
    eexists. subst w1. rewrite !extend_extend. split; [reflexivity |].
    repeat apply usage_steps_app; [by apply usage_steps_written | done |].
    apply usage_steps_keeps. eapply forallb_impl; [apply completions_event_keeps_usage | done]. }
  assert (Hstop : forall (e : exn) out2, usage_steps span out2 ->
            exists out, (@Raise unit e, extend w1 out2).2 = extend w out /\ usage_steps span out).
  { intros e out2 Hout2. eexists. subst w1. simpl. rewrite extend_extend. split; [reflexivity |].
    apply usage_steps_app; [by apply usage_steps_written | done]. }
  destruct (py_bool (get d "usage")).
  2: { erewrite run_bind by reflexivity. apply (Hcompletions w1 []); [by rewrite extend_nil |].
       constructor. }
  destruct (py_getattr (get d "usage") "input_tokens") as [p | e] eqn:Hp.
  2: { erewrite run_bind_raise by (erewrite run_bind_raise by reflexivity; reflexivity).
       rewrite <- (extend_nil w1). apply Hstop. constructor. }
  destruct (py_getattr (get d "usage") "output_tokens") as [n | e] eqn:Hn.
  2: { erewrite run_bind_raise
         by (erewrite run_bind by reflexivity; erewrite run_bind_raise by reflexivity; reflexivity).
       rewrite <- (extend_nil w1). apply Hstop. constructor. }
  destruct (Hint d "input_tokens" p Hd) as [a ->]; [set_solver | done |].
  destruct (Hint d "output_tokens" n Hd) as [b ->]; [set_solver | done |].
  erewrite run_bind with (a := tt)
    (w' := extend w1 (usage_written cfg span (VInt a) (VInt b) (VInt (a + b)))).
  - apply (Hcompletions _ _ eq_refl). apply usage_written_integers.
  - erewrite run_bind by reflexivity. erewrite run_bind by reflexivity.
    erewrite run_bind by apply run_set_span_attribute.
    erewrite run_bind by apply run_set_span_attribute.
    erewrite run_bind by reflexivity.
    rewrite run_set_span_attribute. unfold usage_written. by rewrite !extend_extend, <- ?app_assoc.
Qed.

(** So do [_set_token_usage] and [_set_token_usage_a]. *)
Lemma set_token_usage_usage span c request response attrs tc cc w :
  counts_integers c ->
  exists out, (_set_token_usage cfg span c request response attrs tc cc w).2 = extend w out
              /\ usage_steps span out.
Proof.
  intros Hc. destruct (as_dict response) as [d | e] eqn:Hd.
  2: { exists []. unfold _set_token_usage. erewrite run_bind_raise by (unfold lift; by rewrite Hd).
       rewrite extend_nil. split; [done | constructor]. }
  rewrite (run_set_token_usage cfg span c request response d attrs tc cc w Hd).
  destruct (prompt_tokens_of c request) as [p | e] eqn:Hp.
  2: { exists []. rewrite extend_nil. split; [done | constructor]. }
  destruct (completion_tokens_of c d) as [n | e] eqn:Hn.
  2: { eexists. split; [reflexivity | apply usage_steps_token_points]. }
  destruct (prompt_tokens_integer c Hc request p Hp) as [a ->].
  destruct (completion_tokens_integer c Hc d n Hn) as [b ->].
  simpl py_add. eexists. split; [reflexivity |].
  apply usage_steps_app; [apply usage_steps_token_points |].
  apply usage_steps_app; [apply usage_steps_token_points |].
  apply usage_steps_app; [apply usage_steps_choice_points | by apply usage_written_integers].
Qed.

Lemma set_token_usage_a_usage span c request response w :
  counts_integers c ->
  exists out, (_set_token_usage_a cfg span c request response w).2 = extend w out
              /\ usage_steps span out.
Proof.
  intros Hc. destruct (as_dict response) as [d | e] eqn:Hd.
  2: { exists []. unfold _set_token_usage_a. erewrite run_bind_raise by (unfold lift; by rewrite Hd).
       rewrite extend_nil. split; [done | constructor]. }
  rewrite (run_set_token_usage_a cfg span c request response d w Hd).
  destruct (prompt_tokens_of c request) as [p | e] eqn:Hp.
  2: { exists []. rewrite extend_nil. split; [done | constructor]. }
  destruct (completion_tokens_of c d) as [n | e] eqn:Hn.
  2: { exists []. rewrite extend_nil. split; [done | constructor]. }
  destruct (prompt_tokens_integer c Hc request p Hp) as [a ->].
  destruct (completion_tokens_integer c Hc d n Hn) as [b ->].
  simpl py_add. eexists. split; [reflexivity | apply usage_written_integers].
Qed.

End usage.

Section usage_of_a_call.
Variable cfg : config.
Hypothesis Hwrites : forall z, writes cfg (VInt z) = true.
Variables (to_wrap : dict) (instance : resource).
Variables (args : list pyval) (kwargs : dict).
Hypothesis Hcount : counts_integers (_client instance).

Lemma logged_usage span (m : M unit) msg :
  (forall w, exists out, (m w).2 = extend w out /\ usage_steps span out) ->
  forall w, exists out,
    try_except m (fun ex => logger_warning msg (exn_str ex)) w = (Ok tt, extend w out)
    /\ usage_steps span out.
Proof.
  intros Hm w. unfold try_except. destruct (Hm w) as (out & Hw & Hout).
  destruct (m w) as [[[] | e] w1]; simpl in Hw; subst w1.
  - by exists out.
  - exists (out ++ [Warned msg (exn_str e)]). split.
    + unfold logger_warning, emit, extend. simpl. by rewrite app_assoc.
    + apply usage_steps_app; [done | by repeat constructor].
Qed.

Lemma bind_usage span {A B} (m : M A) (k : A -> M B) :
  (forall w, exists out, (m w).2 = extend w out /\ usage_steps span out) ->
  (forall a w, exists out, (k a w).2 = extend w out /\ usage_steps span out) ->
  forall w, exists out, (bind m k w).2 = extend w out /\ usage_steps span out.
Proof.
  intros Hm Hk w. unfold bind. destruct (Hm w) as (out & Hw & Hout).
  destruct (m w) as [[a | e] w1]; simpl in Hw; subst w1.
  - destruct (Hk a (extend w out)) as (out' & Hw' & Hout').
    exists (out ++ out'). rewrite Hw', extend_extend. split; [done | by apply usage_steps_app].
  - by exists out.
Qed.

Lemma run_response_usage span r attrs tc cc w1 :
  integer_usage r ->
  exists out',
    try_except
      (if span_is_recording cfg span then
         _set_response_attributes cfg span r >>
         _set_token_usage cfg span (_client instance) kwargs r attrs tc cc
       else ret tt)
      (fun ex => logger_warning "Failed to set response attributes for anthropic span, error: %s"
                   (exn_str ex)) w1 = (Ok tt, extend w1 out')
    /\ usage_steps span out'.
Proof.
  intros Hint. apply logged_usage. intros w.
  destruct (span_is_recording cfg span).
  - apply bind_usage.
    + intros w'. by apply set_response_attributes_usage.
    + intros _ w'. by apply set_token_usage_usage.
  - exists []. rewrite extend_nil. split; [done | constructor].
Qed.

Lemma run_response_usage_a span r w1 :
  integer_usage r ->
  exists out',
    try_except
      (if span_is_recording cfg span then
         _set_response_attributes cfg span r >>
         _set_token_usage_a cfg span (_client instance) kwargs r
       else ret tt)
      (fun ex => logger_warning "Failed to set response attributes for anthropic span, error: %s"
                   (exn_str ex)) w1 = (Ok tt, extend w1 out')
    /\ usage_steps span out'.
Proof.
  intros Hint. apply logged_usage. intros w.
  destruct (span_is_recording cfg span).
  - apply bind_usage.
    + intros w'. by apply set_response_attributes_usage.
    + intros _ w'. by apply set_token_usage_a_usage.
  - exists []. rewrite extend_nil. split; [done | constructor].
Qed.

Lemma usage_steps_request span out :
  forallb (request_event span) out = true -> usage_steps span out.
Proof.
  intros H. apply usage_steps_keeps. eapply forallb_impl; [apply request_event_keeps_usage | done].
Qed.

Lemma usage_steps_duration span w ticks attrs :
  usage_steps span (duration_recorded w ticks attrs).
Proof. unfold duration_recorded. destruct (Z.eqb _ _); repeat constructor. Qed.

Ltac usage_steps_trace :=
  repeat first
    [ apply usage_steps_app
    | apply usage_steps_request; assumption
    | apply usage_steps_duration
    | assumption
    | apply usage_steps_keeps; reflexivity
    | match goal with |- usage_steps _ (if ?b then _ else _) => destruct b end ].

(** C5. For every call that succeeds with a response that is not a stream,
    through the synchronous or the asynchronous wrapper, the attributes of
    the span of the call are consistent: when [llm.usage.total_tokens] is
    recorded, so are [llm.usage.prompt_tokens] and
    [llm.usage.completion_tokens], and the total is their sum. This holds for
    a guard of [set_span_attribute] that writes every integer, a
    token-counting capability that returns integers and a usage
    sub-structure whose two fields are integers. *)
Theorem total_tokens_is_the_sum (wrapped awrapped : callable) now r r' :
  returned (wrapped args kwargs) = Ok r ->
  is_streaming_response r = false ->
  integer_usage r ->
  awaited awrapped args kwargs = Ok r' ->
  is_streaming_response r' = false ->
  integer_usage r' ->
  usage_ok (span_attributes 0
              (trace (_wrap cfg to_wrap wrapped instance args kwargs (fresh now)).2))
  /\ usage_ok (span_attributes 0
                 (trace (_awrap cfg to_wrap awrapped instance args kwargs (fresh now)).2)).
Proof.
  intros Hr Hstream Hint Hr' Hstream' Hint'.
  assert (Hempty : usage_ok ∅) by (intros total; by rewrite lookup_empty).
  split.
  - destruct (py_bool (suppress_instrumentation cfg)) eqn:Hs.
    { rewrite wrap_suppressed by done. apply Hempty. }
    destruct (is_metrics_enabled cfg) eqn:Hm.
    2: { rewrite wrap_metrics_disabled by done. apply Hempty. }
    destruct (_get_shared_metric_attributes r None) as [attrs | e] eqn:Hattrs.
    + destruct (wrap_returns_with cfg to_wrap wrapped instance args kwargs (usage_steps 0)
                  (fresh now) r attrs Hs Hm Hr Hstream Hattrs) as (out & Hout & out' & Hout' & ->).
      { constructor. }
      { intros w1. by apply run_response_usage. }
      cbn [snd trace fresh]. apply usage_ok_steps; [| exact Hempty]. usage_steps_trace.
    + destruct (wrap_unreadable cfg to_wrap wrapped instance args kwargs (fresh now) r e
                  Hs Hm Hr Hattrs) as (out & Hout & ->).
      cbn [snd trace fresh]. apply usage_ok_steps; [| exact Hempty]. usage_steps_trace.
  - destruct (py_bool (suppress_instrumentation cfg)) eqn:Hs.
    { rewrite awrap_suppressed by done. apply Hempty. }
    destruct (awrap_returns_with cfg to_wrap awrapped instance args kwargs (usage_steps 0)
                (fresh now) r' Hs Hr' Hstream') as (out & Hout & out' & Hout' & ->).
    { constructor. }
    { intros w1. by apply run_response_usage_a. }
    cbn [snd trace fresh]. apply usage_ok_steps; [| exact Hempty]. usage_steps_trace.
Qed.

End usage_of_a_call.

Lemma total_tokens_is_the_sum_witness :
  let sync := _wrap sample.default_process sample.create sample.returns_message sample.messages
                [] sample.request (fresh 100) in
  let async := _awrap sample.default_process sample.create sample.async_returns_message
                 sample.messages [] sample.request (fresh 100) in
  (forall z, writes sample.default_process (VInt z) = true)
  /\ counts_integers (_client sample.messages)
  /\ integer_usage sample.message
  /\ usage_ok (span_attributes 0 (trace sync.2))
  /\ usage_ok (span_attributes 0 (trace async.2))
  /\ span_attributes 0 (trace sync.2) !! SpanAttributes.LLM_USAGE_TOTAL_TOKENS = Some (VInt 18)
  /\ span_attributes 0 (trace async.2) !! SpanAttributes.LLM_USAGE_TOTAL_TOKENS = Some (VInt 18).
Proof.
  intros sync async.
  assert (H1 : forall z, writes sample.default_process (VInt z) = true) by reflexivity.
  assert (H2 : counts_integers (_client sample.messages)).
  { intros text n. destruct text; try discriminate. intros [= <-]. by eexists. }
  assert (H3 : integer_usage sample.message).
  { intros d name v [= <-] Hname. apply elem_of_cons in Hname as [-> | Hname].
    - intros [= <-]. by eexists.
    - apply list_elem_of_singleton in Hname as ->. intros [= <-]. by eexists. }
  split; [exact H1 |]. split; [exact H2 |]. split; [exact H3 |].
  destruct (total_tokens_is_the_sum sample.default_process H1 sample.create sample.messages []
              sample.request H2 sample.returns_message sample.async_returns_message 100
              sample.message sample.message eq_refl eq_refl H3 eq_refl eq_refl H3)
    as [Hsync Hasync].
  split; [exact Hsync |]. split; [exact Hasync |]. split; reflexivity.
Defined.

(** ** The chat wrapper of the orchestration framework *)

Lemma lookup_keeps_key span key l attrs :
  forallb (keeps_key span key) l = true ->
  foldl (record span) attrs l !! key = attrs !! key.
Proof.
  revert attrs. induction l as [| e l IH]; intros attrs; simpl; [done |].
  intros [He Hl]%andb_prop. rewrite IH by done.
  destruct e as [s name kind attributes | s k value | | | | | | |]; simpl in *; try done.
  - by destruct (Nat.eqb s span).
  - destruct (Nat.eqb s span); [| done]. simpl in He.
    apply negb_true_iff, String.eqb_neq in He. by rewrite lookup_insert_ne.
Qed.

Section chat.
Variable cfg : config.
Variables (to_wrap : dict) (wrapped : callable) (instance : pyval).
Variables (args : list pyval) (kwargs : dict).

Lemma run_handle_request span w model :
  request_model instance = Ok model ->
  exists res out,
    langchain._handle_request cfg span args kwargs instance w =
      (res, extend w (chat_request_recorded span model ++ out))
    /\ forallb (prompt_event span) out = true.
Proof.
  intros Hmodel. unfold langchain._handle_request.
  erewrite run_bind by (unfold lift; fold (request_model instance); rewrite Hmodel; reflexivity).
  erewrite run_bind by reflexivity.
  erewrite run_bind by reflexivity.
  erewrite run_bind by reflexivity.
  match goal with |- context [ ?m ?w0 = _ ] =>
    assert (He : emits (prompt_event span) m) end.
  { assert (Hkey : forall (idx : nat) value,
              prompt_event span
                (AttributeSet span (SpanAttributes.LLM_PROMPTS +:+ "." +:+ pretty idx +:+ ".user")
                   value) = true)
      by (intros; simpl; by rewrite Nat.eqb_refl).
    repeat first [ apply emits_emit; apply Hkey | emits_step ]. }
  match goal with |- context [ ?m ?w0 = _ ] => destruct (He w0) as (out & Hw & Hout);
    destruct (m w0) as [res w1] end.
  simpl in Hw. subst w1. exists res, out. split; [| done].
  unfold extend, chat_request_recorded. simpl. by rewrite <- ?app_assoc.
Qed.

Lemma run_handle_response span rv w :
  exists res out,
    langchain._handle_response cfg span rv w = (res, extend w out)
    /\ forallb (after_request_event span) out = true.
Proof.
  assert (He : emits (after_request_event span) (langchain._handle_response cfg span rv)).
  { assert (Hkey : forall (idx : nat) value,
              after_request_event span
                (AttributeSet span
                   (SpanAttributes.LLM_COMPLETIONS +:+ "." +:+ pretty idx +:+ ".content") value)
              = true)
      by (intros; simpl; by rewrite Nat.eqb_refl).
    unfold langchain._handle_response.
    repeat first [ apply emits_emit; apply Hkey | emits_step ]. }
  destruct (He w) as (out & Hw & Hout).
  destruct (langchain._handle_response cfg span rv w) as [res w1].
  simpl in Hw. subst w1. by exists res, out.
Qed.

(** The trace of a chat call that is not suppressed: the span starts, the
    request is recorded, and only then may the wrapped callable be called. *)
Lemma chat_wrapper_trace w model :
  py_bool (suppress_instrumentation cfg) = false ->
  request_model instance = Ok model ->
  exists out after,
    forallb (prompt_event (spans w)) out = true
    /\ forallb (after_request_event (spans w)) after = true
    /\ trace (langchain.chat_wrapper cfg to_wrap wrapped instance args kwargs w).2 =
         trace w ++
         (SpanStarted (spans w) (VStr ("langchain.task." +:+ type_name instance))
            SpanKind.INTERNAL ∅
          :: chat_request_recorded (spans w) model ++ out) ++ after.
Proof.
  intros Hs Hmodel. unfold langchain.chat_wrapper, langchain.with_span. rewrite Hs.
  erewrite run_bind by reflexivity.
  set (w1 := mk_world _ _ _).
  destruct (run_handle_request (spans w) w1 model Hmodel) as (res & out & Hrun & Hout).
  exists out.
  unfold bind at 1, attempt. cbv beta.
  destruct res as [[] | e].
  - erewrite (run_bind (langchain._handle_request _ _ _ _ _)) by exact Hrun.
    destruct (returned (wrapped args kwargs)) as [rv | e] eqn:Hr.
    + erewrite run_bind by (rewrite run_call, Hr; reflexivity).
      set (w2 := mk_world _ _ _).
      destruct (run_handle_response (spans w) rv w2) as (res' & out' & Hrun' & Hout').
      destruct res' as [[] | e].
      * erewrite run_bind by exact Hrun'.
        exists ([Called args kwargs] ++ out' ++ [SpanEnded (spans w)]).
        split; [done |]. split.
        { simpl. by rewrite forallb_app, Hout'. }
        subst w1 w2. finish_run.
      * erewrite run_bind_raise by exact Hrun'.
        exists ([Called args kwargs] ++ out' ++
                (if is_recording cfg then [StatusSet (spans w) StatusERROR] else []) ++
                [SpanEnded (spans w)]).
        split; [done |]. split.
        { simpl. rewrite forallb_app, Hout'. by destruct (is_recording cfg). }
        subst w1 w2. destruct (is_recording cfg); finish_run.
    + erewrite run_bind_raise by (rewrite run_call, Hr; reflexivity).
      exists ([Called args kwargs] ++
              (if is_recording cfg then [StatusSet (spans w) StatusERROR] else []) ++
              [SpanEnded (spans w)]).
      split; [done |]. split; [by destruct (is_recording cfg) |].
      subst w1. destruct (is_recording cfg); finish_run.
  - erewrite (run_bind_raise (langchain._handle_request _ _ _ _ _)) by exact Hrun.
    exists ((if is_recording cfg then [StatusSet (spans w) StatusERROR] else []) ++
            [SpanEnded (spans w)]).
    split; [done |]. split; [by destruct (is_recording cfg) |].
    subst w1. destruct (is_recording cfg); finish_run.
Qed.


Lemma chat_wrapper_without_model w e :
  py_bool (suppress_instrumentation cfg) = false ->
  request_model instance = Raise e ->
  langchain.chat_wrapper cfg to_wrap wrapped instance args kwargs w =
    (Raise e,
     mk_world (trace w ++
               SpanStarted (spans w) (VStr ("langchain.task." +:+ type_name instance))
                 SpanKind.INTERNAL ∅
               :: (if is_recording cfg then [StatusSet (spans w) StatusERROR] else []) ++
                  [SpanEnded (spans w)])
       (clock w) (S (spans w))).
Proof.
  intros Hs Hmodel. unfold langchain.chat_wrapper, langchain.with_span. rewrite Hs.
  erewrite run_bind by reflexivity.
  unfold bind at 1, attempt. cbv beta.
  erewrite run_bind_raise.
  2: { unfold langchain._handle_request.
       erewrite run_bind_raise; [reflexivity |].
       unfold lift. fold (request_model instance). rewrite Hmodel. reflexivity. }
  destruct (is_recording cfg); finish_run.
Qed.

Lemma prompt_event_not_response_model span e :
  prompt_event span e = true -> keeps_key span SpanAttributes.LLM_RESPONSE_MODEL e = true.
Proof.
  destruct e as [| s key value | | | | | | |]; try done.
  unfold prompt_event, after_request_event, keeps_key.
  intros [_ H]%andb_prop. expose_prefix H. unfold SpanAttributes.LLM_RESPONSE_MODEL.
  match goal with
  | |- context [String.eqb ?a ?b] => rewrite (proj2 (String.eqb_neq a b)) by (intros Heq; discriminate Heq)
  end.
  by rewrite andb_false_r.
Qed.

Lemma after_request_event_not_response_model span e :
  after_request_event span e = true ->
  keeps_key span SpanAttributes.LLM_RESPONSE_MODEL e = true.
Proof.
  destruct e as [| s key value | | | | | | |]; try done.
  unfold prompt_event, after_request_event, keeps_key.
  intros [_ H]%andb_prop. expose_prefix H. unfold SpanAttributes.LLM_RESPONSE_MODEL.
  match goal with
  | |- context [String.eqb ?a ?b] => rewrite (proj2 (String.eqb_neq a b)) by (intros Heq; discriminate Heq)
  end.
  by rewrite andb_false_r.
Qed.

(** C10. In a chat call that is not suppressed, when the instance has a
    [model] or [model_name] field the attribute [llm.response.model] is set
    to that value before any call of the wrapped callable, every later or
    earlier setting of that attribute in the call has the same span and the
    same value, and the span ends up with that value, whatever the response
    holds; when the instance has neither field the wrapper raises and the
    wrapped callable is never called. *)
Theorem response_model_is_the_request_model w :
  py_bool (suppress_instrumentation cfg) = false ->
  let span := spans w in
  let run := langchain.chat_wrapper cfg to_wrap wrapped instance args kwargs w in
  match request_model instance with
  | Raise e =>
      run.1 = Raise e
      /\ exists out, trace run.2 = trace w ++ out /\ count is_called out = 0%nat
  | Ok model =>
      exists before after,
        trace run.2 = trace w ++ before ++ after
        /\ AttributeSet span SpanAttributes.LLM_RESPONSE_MODEL model ∈ before
        /\ count is_called before = 0%nat
        /\ (forall s value,
              AttributeSet s SpanAttributes.LLM_RESPONSE_MODEL value ∈ before ++ after ->
              s = span /\ value = model)
        /\ span_attributes span (trace run.2) !! SpanAttributes.LLM_RESPONSE_MODEL = Some model
  end.
Proof.
  intros Hs span run. destruct (request_model instance) as [model | e] eqn:Hmodel.
  - destruct (chat_wrapper_trace w model Hs Hmodel) as (out & after & Hout & Hafter & Htrace).
    fold run in Htrace. fold span in Htrace, Hout, Hafter.
    eexists _, after. split; [exact Htrace |].
    assert (Hkeeps : forallb (keeps_key span SpanAttributes.LLM_RESPONSE_MODEL) (out ++ after)
                     = true).
    { rewrite forallb_app. apply andb_true_intro. split.
      - eapply forallb_impl; [apply prompt_event_not_response_model | done].
      - eapply forallb_impl; [apply after_request_event_not_response_model | done]. }
    split; [| split; [| split]].
    + unfold chat_request_recorded. set_solver.
    + change (count is_called (_ :: _ ++ out)) with (count is_called out).
      by apply (count_none _ (prompt_event span)); [intros [] |].
    + intros s value. unfold chat_request_recorded. simpl. rewrite !elem_of_cons.
      intros [H | [H | [H | [H | H]]]]; try done.
      * by injection H as -> ->.
      * apply elem_of_app in H as [H | H].
        -- apply (forallb_elem_of _ _ _ Hout) in H. simpl in H. by rewrite andb_false_r in H.
        -- apply (forallb_elem_of _ _ _ Hafter) in H. simpl in H. by rewrite andb_false_r in H.
    + rewrite Htrace. unfold span_attributes. rewrite foldl_app.
      rewrite <- app_comm_cons, <- app_assoc, app_comm_cons, foldl_app.
      rewrite lookup_keeps_key by done.
      unfold chat_request_recorded. simpl. rewrite Nat.eqb_refl. apply lookup_insert_eq.
  - subst run. rewrite (chat_wrapper_without_model w e Hs Hmodel). split; [done |].
    eexists. split; [reflexivity |]. by destruct (is_recording cfg).
Qed.

End chat.

Lemma response_model_is_the_request_model_witness :
  let run := langchain.chat_wrapper sample.default_process ∅ sample.generate sample.chat_model
               sample.chat_args ∅ (fresh 100) in
  py_bool (suppress_instrumentation sample.default_process) = false
  /\ request_model sample.chat_model = Ok (VStr "gpt-4")
  /\ run.1 = Ok sample.chat_result
  /\ count is_called (trace run.2) = 1%nat
  /\ span_attributes 0 (trace run.2) !! SpanAttributes.LLM_RESPONSE_MODEL = Some (VStr "gpt-4").
Proof.
  intros run. split; [reflexivity |]. split; [reflexivity |]. split; [reflexivity |].
  split; [reflexivity |].
  pose proof (response_model_is_the_request_model sample.default_process ∅ sample.generate
                sample.chat_model sample.chat_args ∅ (fresh 100) eq_refl) as H.
  cbv zeta in H. change (request_model sample.chat_model) with (@Ok pyval (VStr "gpt-4")) in H.
  destruct H as (before & after & _ & _ & _ & _ & H). exact H.
Defined.

(** ** The usage reported by the response *)

(** C4, as the code has it. A message whose usage reports 17 input and 30
    output tokens, for a request whose text counts 14 tokens and a first
    content item that counts 4: the usage figures are written first, then
    [_set_token_usage] writes the counted figures over them, and the span
    ends with 14, 4 and 18, not with 17 and 30. *)
Theorem token_counts_overwrite_the_usage :
  let run := _wrap sample.default_process sample.create sample.returns_message sample.messages
               [] sample.request (fresh 100) in
  let attrs := span_attributes 0 (trace run.2) in
  run.1 = Ok sample.message
  /\ (exists d, as_dict sample.message = Ok d
               /\ py_getattr (get d "usage") "input_tokens" = Ok (VInt 17)
               /\ py_getattr (get d "usage") "output_tokens" = Ok (VInt 30))
  /\ AttributeSet 0 SpanAttributes.LLM_USAGE_PROMPT_TOKENS (VInt 17) ∈ trace run.2
  /\ attrs !! SpanAttributes.LLM_USAGE_PROMPT_TOKENS = Some (VInt 14)
  /\ attrs !! SpanAttributes.LLM_USAGE_COMPLETION_TOKENS = Some (VInt 4)
  /\ attrs !! SpanAttributes.LLM_USAGE_TOTAL_TOKENS = Some (VInt 18).
Proof.
  split; [reflexivity |]. split; [eexists; repeat split; reflexivity |].
  split; [| repeat split; reflexivity].
  vm_compute. repeat first [ apply list_elem_of_here | apply list_elem_of_further ].
Qed.

(** ** What a call adds to the trace *)

Lemma adds_ret P {A} (a : A) : adds P (ret a).
Proof. intros w. exists []. by rewrite app_nil_r. Qed.

Lemma adds_raise P {A} e : adds P (@raise A e).
Proof. intros w. exists []. by rewrite app_nil_r. Qed.

Lemma adds_lift P {A} (r : result A) : adds P (lift r).
Proof. intros w. exists []. by rewrite app_nil_r. Qed.

Lemma adds_time_time P : adds P time_time.
Proof. intros w. exists []. by rewrite app_nil_r. Qed.

Lemma adds_advance P ticks : adds P (advance ticks).
Proof. intros w. exists []. simpl. by rewrite app_nil_r. Qed.

Lemma adds_emit (P : event -> Prop) e : P e -> adds P (emit e).
Proof. intros He w. exists [e]. split; [done | by constructor]. Qed.

Lemma adds_bind P {A B} (m : M A) (k : A -> M B) :
  adds P m -> (forall a, adds P (k a)) -> adds P (bind m k).
Proof.
  intros Hm Hk w. unfold bind.
  destruct (Hm w) as (out1 & Hw1 & Hp1).
  destruct (m w) as [[a | e] w1]; simpl in Hw1.
  - destruct (Hk a w1) as (out2 & Hw2 & Hp2).
    exists (out1 ++ out2). rewrite Hw2, Hw1, app_assoc. split; [done | by apply Forall_app].
  - by exists out1.
Qed.

(** As [adds_bind], for a continuation that needs to know what [m] returned. *)
Lemma adds_bind_with P {A B} (Q : A -> Prop) (m : M A) (k : A -> M B) :
  adds P m -> (forall w a w', m w = (Ok a, w') -> Q a) -> (forall a, Q a -> adds P (k a)) ->
  adds P (bind m k).
Proof.
  intros Hm HQ Hk w. unfold bind.
  destruct (Hm w) as (out1 & Hw1 & Hp1).
  destruct (m w) as [[a | e] w1] eqn:Hrun; simpl in Hw1.
  - destruct (Hk a (HQ _ _ _ Hrun) w1) as (out2 & Hw2 & Hp2).
    exists (out1 ++ out2). rewrite Hw2, Hw1, app_assoc. split; [done | by apply Forall_app].
  - by exists out1.
Qed.

Lemma adds_bind_lift P {A B} (r : result A) (k : A -> M B) :
  (forall a, r = Ok a -> adds P (k a)) -> adds P (bind (lift r) k).
Proof.
  intros Hk w. unfold bind, lift. destruct r as [a | e].
  - by apply Hk.
  - exists []. by rewrite app_nil_r.
Qed.

Lemma adds_try_except P {A} (m : M A) handler :
  adds P m -> (forall e, adds P (handler e)) -> adds P (try_except m handler).
Proof.
  intros Hm Hh w. unfold try_except.
  destruct (Hm w) as (out1 & Hw1 & Hp1).
  destruct (m w) as [[a | e] w1]; simpl in Hw1.
  - by exists out1.
  - destruct (Hh e w1) as (out2 & Hw2 & Hp2).
    exists (out1 ++ out2). rewrite Hw2, Hw1, app_assoc. split; [done | by apply Forall_app].
Qed.

Lemma adds_attempt P {A} (m : M A) : adds P m -> adds P (attempt m).
Proof.
  intros Hm w. unfold attempt. destruct (Hm w) as (out & Hw & Hp).
  destruct (m w) as [r w1]. by exists out.
Qed.

Lemma adds_for_each P {A} (l : list A) body :
  (forall x, adds P (body x)) -> adds P (for_each l body).
Proof.
  intros Hb. induction l as [| x l IH]; simpl.
  - apply adds_ret.
  - apply adds_bind; [apply Hb | intros _; apply IH].
Qed.

Lemma adds_call (P : event -> Prop) wrapped args kwargs :
  P (Called args kwargs) -> adds P (call wrapped args kwargs).
Proof. intros Hp w. rewrite run_call. exists [Called args kwargs]. split; [done | by constructor]. Qed.

Lemma adds_await P r : adds P (await r).
Proof.
  destruct r as [v | [] evs | t res | [] s r c k]; simpl;
    first [ apply adds_raise | apply adds_bind; [apply adds_advance | intros _; apply adds_lift] ].
Qed.

Lemma adds_start_span (P : event -> Prop) name kind attributes :
  (forall span, P (SpanStarted span name kind attributes)) ->
  adds P (start_span name kind attributes).
Proof. intros Hp w. eexists [_]. split; [done | by constructor]. Qed.

Lemma adds_set_span_attribute cfg (P : event -> Prop) span key value :
  P (AttributeSet span key value) -> adds P (set_span_attribute cfg span key value).
Proof.
  intros Hp. unfold set_span_attribute.
  destruct (writes cfg value); [by apply adds_emit | apply adds_ret].
Qed.

Lemma adds_impl (P Q : event -> Prop) {A} (m : M A) :
  (forall e, P e -> Q e) -> adds P m -> adds Q m.
Proof.
  intros HPQ Hm w. destruct (Hm w) as (out & Hw & HP). exists out. split; [done |].
  by eapply Forall_impl.
Qed.

(** What a computation adds to an empty trace is all it leaves there. *)
Lemma adds_fresh P {A} (m : M A) now e :
  adds P m -> e ∈ trace (m (fresh now)).2 -> P e.
Proof.
  intros Hm He. destruct (Hm (fresh now)) as (out & Hw & Hp).
  rewrite Hw in He. simpl in He. rewrite Forall_forall in Hp. by apply Hp.
Qed.

Lemma count_never p (P : event -> Prop) {A} (m : M A) now :
  (forall e, P e -> p e = false) -> adds P m -> count p (trace (m (fresh now)).2) = 0%nat.
Proof.
  intros HP Hm. destruct (Hm (fresh now)) as (out & -> & Hp). simpl. unfold count.
  induction Hp as [| e out He _ IH]; simpl; [done |]. by rewrite (HP e He).
Qed.

Ltac adds_step :=
  match goal with
  | |- adds _ (bind (lift _) _) => apply adds_bind_lift; intros ? ?
  | |- adds _ (bind _ _) => apply adds_bind; [| intros ?]
  | |- adds _ (ret _) => apply adds_ret
  | |- adds _ (raise _) => apply adds_raise
  | |- adds _ (lift _) => apply adds_lift
  | |- adds _ time_time => apply adds_time_time
  | |- adds _ (attempt _) => apply adds_attempt
  | |- adds _ (await _) => apply adds_await
  | |- adds _ (try_except _ _) => apply adds_try_except; [| intros ?]
  | |- adds _ (for_each _ _) => apply adds_for_each; intros [? ?]
  | |- adds _ (call _ _ _) => apply adds_call
  | |- adds _ (start_span _ _ _) => apply adds_start_span; intros ?
  | |- adds _ (set_span_attribute _ _ _ _) => apply adds_set_span_attribute
  | |- adds _ (logger_warning _ _) => apply adds_emit
  | |- adds _ (counter_add _ _ _) => apply adds_emit
  | |- adds _ (histogram_record _ _ _) => apply adds_emit
  | |- adds _ (span_set_attribute _ _ _) => apply adds_emit
  | |- adds _ (span_set_status _ _) => apply adds_emit
  | |- adds _ (span_end _) => apply adds_emit
  | |- adds _ (create_counter _ _ _) => apply adds_bind; [apply adds_emit | intros ?; apply adds_ret]
  | |- adds _ (create_histogram _ _ _) => apply adds_bind; [apply adds_emit | intros ?; apply adds_ret]
  | |- adds _ (if ?b then _ else _) => destruct b eqn:?
  | |- adds _ (match ?x with _ => _ end) => destruct x eqn:?
  end.

Ltac unfold_wrappers :=
  unfold _wrap, _awrap, _create_metrics, _set_input_attributes, _set_response_attributes,
    _set_token_usage, _set_token_usage_a, _set_span_completions, span_is_recording.

Section never.
Variable cfg : config.
Variables (to_wrap : dict) (wrapped awrapped : callable) (instance : resource).
Variables (args : list pyval) (kwargs : dict).

(** X1. Neither wrapper ever sets the error status on a span: however the
    call ends, no [StatusSet] event with the code [ERROR] is in its trace. *)
Theorem wrappers_never_set_error_status now :
  count is_error_status (trace (_wrap cfg to_wrap wrapped instance args kwargs (fresh now)).2)
    = 0%nat
  /\ count is_error_status (trace (_awrap cfg to_wrap awrapped instance args kwargs (fresh now)).2)
       = 0%nat.
Proof.
  split; apply (count_never _ (fun e => is_error_status e = false)); try done;
    unfold_wrappers; repeat first [ reflexivity | adds_step ].
Qed.

(** X2. The asynchronous wrapper produces no metrics at all: it creates no
    instrument and records no data point, on any path. *)
Theorem awrap_makes_no_metrics now :
  let t := trace (_awrap cfg to_wrap awrapped instance args kwargs (fresh now)).2 in
  count is_instrument_created t = 0%nat /\ count is_data_point t = 0%nat.
Proof.
  split;
    apply (count_never _ (fun e => is_instrument_created e = false /\ is_data_point e = false));
    try tauto; unfold_wrappers; repeat first [ done | adds_step ].
Qed.

(** X3. When prompts are not to be sent, no attribute under [llm.prompts]
    or [llm.completions] is set by either wrapper, whatever the request and
    the response hold and however the call ends. *)
Theorem content_is_recorded_only_when_prompts_are_sent now :
  should_send_prompts cfg = false ->
  count is_content_attribute
    (trace (_wrap cfg to_wrap wrapped instance args kwargs (fresh now)).2) = 0%nat
  /\ count is_content_attribute
       (trace (_awrap cfg to_wrap awrapped instance args kwargs (fresh now)).2) = 0%nat.
Proof.
  intros Hs.
  split; apply (count_never _ (fun e => is_content_attribute e = false)); try done;
    unfold_wrappers; rewrite Hs; repeat first [ reflexivity | adds_step ].
Qed.

Lemma adds_valid_data_points :
  adds (fun e => is_valid_data_point e = true)
    (_wrap cfg to_wrap wrapped instance args kwargs).
Proof.
  unfold _wrap. adds_step; [apply adds_call; reflexivity |].
  apply (adds_bind_with _
           (fun i => i = (Some (mk_instrument Counter "llm.anthropic.completion.tokens"),
                          Some (mk_instrument Counter "llm.anthropic.completion.choices"),
                          Some (mk_instrument Histogram "llm.anthropic.completion.duration"),
                          Some (mk_instrument Counter "llm.anthropic.completion.exceptions")))).
  - unfold _create_metrics. repeat first [ reflexivity | adds_step ].
  - intros w a w'. destruct (is_metrics_enabled cfg); [| discriminate].
    erewrite run_bind by apply run_create_metrics. by intros [= <- _].
  - intros a ->. cbv beta iota.
    unfold _set_input_attributes, _set_response_attributes,
      _set_token_usage, _set_span_completions, span_is_recording.
    repeat first [ reflexivity | adds_step ].
    all: simpl; unfold get; rewrite ?lookup_insert_eq; simpl; rewrite ?andb_true_r; try done.
Qed.

(** X4. Every data point that a call through the synchronous wrapper adds
    to a counter is well formed: the token counter receives non-negative
    amounts labelled as [prompt] or [completion] tokens, the choice counter
    positive amounts, the exception counter the amount 1; no other counter is
    added to. *)
Theorem counters_receive_valid_data_points now name amount attrs :
  CounterAdded name amount attrs ∈
    trace (_wrap cfg to_wrap wrapped instance args kwargs (fresh now)).2 ->
  (name = "llm.anthropic.completion.tokens" /\ 0 <= amount
   /\ (attrs !! "llm.usage.token_type" = Some (VStr "prompt")
       \/ attrs !! "llm.usage.token_type" = Some (VStr "completion")))
  \/ (name = "llm.anthropic.completion.choices" /\ 0 < amount)
  \/ (name = "llm.anthropic.completion.exceptions" /\ amount = 1).
Proof.
  intros H. apply (adds_fresh _ _ _ _ adds_valid_data_points) in H.
  unfold is_valid_data_point in H.
  destruct (String.eqb_spec name "llm.anthropic.completion.tokens") as [-> | _].
  { left. apply andb_prop in H as [Hn Ht]. split; [done |]. split; [lia |].
    unfold get, py_eq_str in Ht.
    destruct (attrs !! "llm.usage.token_type") as [[| | | | s | | |] |]; try discriminate Ht.
    apply orb_prop in Ht as [Ht | Ht]; apply String.eqb_eq in Ht as ->; auto. }
  destruct (String.eqb_spec name "llm.anthropic.completion.choices") as [-> | _].
  { right; left. split; [done | lia]. }
  destruct (String.eqb_spec name "llm.anthropic.completion.exceptions") as [-> | _]; [| done].
  right; right. split; [done | lia].
Qed.

End never.

(** ** The paths of a call, event by event *)

Lemma request_event_not_response_attribute span e :
  request_event span e = true -> is_response_attribute e = false.
Proof.
  destruct e; simpl; try done. intros [_ Hreq]%andb_prop. by apply request_key_not_response.
Qed.

Ltac count_events :=
  cbn [trace snd fst fresh];
  repeat rewrite count_app;
  repeat match goal with
  | H : forallb ?q ?out = true |- context [count ?p ?out] =>
      rewrite (count_none p q out)
        by (first [ exact H | by intros [] | apply request_event_not_completion
                  | apply request_event_not_response_attribute ])
  end;
  rewrite ?count_duration_recorded.

Ltac among := cbn [trace snd fst fresh]; rewrite ?elem_of_app, ?elem_of_cons; intuition.

Section paths.
Variable cfg : config.
Variables (to_wrap : dict) (wrapped awrapped : callable) (instance : resource).
Variables (args : list pyval) (kwargs : dict).

(** X5. The wrapped callable is entered exactly once, with the arguments of
    the caller: by the synchronous wrapper when the call is suppressed or
    metrics are enabled, by the asynchronous wrapper always. Whatever the
    request holds, recording it does not keep the call from being made. *)
Theorem wrapped_is_called_exactly_once now :
  let sync := trace (_wrap cfg to_wrap wrapped instance args kwargs (fresh now)).2 in
  let async := trace (_awrap cfg to_wrap awrapped instance args kwargs (fresh now)).2 in
  (py_bool (suppress_instrumentation cfg) = true \/ is_metrics_enabled cfg = true ->
   count is_called sync = 1%nat /\ Called args kwargs ∈ sync)
  /\ count is_called async = 1%nat
  /\ Called args kwargs ∈ async.
Proof.
  intros sync async. subst sync async. split; [intros Hm |].
  - destruct (py_bool (suppress_instrumentation cfg)) eqn:Hs.
    { rewrite wrap_suppressed, run_call by done. split; [done | among]. }
    destruct Hm as [Hm | Hm]; [done |].
    destruct (returned (wrapped args kwargs)) as [r | e] eqn:Hr.
    + destruct (_get_shared_metric_attributes r None) as [attrs | e] eqn:Hattrs.
      * destruct (is_streaming_response r) eqn:Hstream.
        -- destruct (wrap_streams cfg to_wrap wrapped instance args kwargs (fresh now) r
                       Hs Hm Hr Hstream) as (out & Hout & ->).
           split; [count_events; by destruct (Z.eqb _ _) | among].
        -- destruct (wrap_returns cfg to_wrap wrapped instance args kwargs (fresh now) r attrs
                       Hs Hm Hr Hstream Hattrs) as (out & Hout & out' & Hout' & ->).
           split; [count_events; by destruct (Z.eqb _ _), (_ && _)
                  | among].
      * destruct (wrap_unreadable cfg to_wrap wrapped instance args kwargs (fresh now) r e
                    Hs Hm Hr Hattrs) as (out & Hout & ->).
        split; [by count_events | among].
    + destruct (wrap_raises cfg to_wrap wrapped instance args kwargs (fresh now) e Hs Hm Hr)
        as (out & Hout & ->).
      split; [count_events; unfold exception_counted;
              by destruct (is_counted (wrapped args kwargs) e), (Z.eqb _ _) | among].
  - destruct (py_bool (suppress_instrumentation cfg)) eqn:Hs.
    { rewrite awrap_suppressed, run_call by done. split; [done | among]. }
    destruct (awaited awrapped args kwargs) as [r | e] eqn:Hr.
    + destruct (is_streaming_response r) eqn:Hstream.
      * destruct (awrap_streams cfg to_wrap awrapped instance args kwargs (fresh now) r
                    Hs Hr Hstream) as (out & Hout & ->).
        split; [by count_events | among].
      * destruct (awrap_returns cfg to_wrap awrapped instance args kwargs (fresh now) r
                    Hs Hr Hstream) as (out & Hout & out' & Hout' & ->).
        split; [count_events; by destruct (_ && _) | among].
    + destruct (awrap_raises cfg to_wrap awrapped instance args kwargs (fresh now) e Hs Hr)
        as (out & Hout & ->).
      split; [by count_events | among].
Qed.

Ltac run_wrap_prelude Hs Hm w out Hrun Hout :=
  unfold _wrap; rewrite Hs, Hm;
  (erewrite run_bind; [| erewrite run_bind by apply run_create_metrics; reflexivity ]);
  cbv beta iota;
  erewrite run_bind by reflexivity;
  destruct (run_input_attributes cfg (spans w) kwargs
              (mk_world (trace (extend w metrics_created) ++
                 [completion_span_started (spans w) to_wrap]) (clock w) (S (spans w))))
    as (out & Hrun & Hout);
  exists out; split; [exact Hout |];
  erewrite run_bind by apply Hrun;
  erewrite run_bind by reflexivity.

(** A call that returns a true value which is not a stream, with the run of
    the block that records the response. *)
Lemma wrap_returns_run w r attrs :
  py_bool (suppress_instrumentation cfg) = false ->
  is_metrics_enabled cfg = true ->
  returned (wrapped args kwargs) = Ok r ->
  is_streaming_response r = false ->
  _get_shared_metric_attributes r None = Ok attrs ->
  truthy r = true ->
  exists out, forallb (request_event (spans w)) out = true /\
  exists w1 out',
    try_except
      (if span_is_recording cfg (spans w) then
         _set_response_attributes cfg (spans w) r >>
         _set_token_usage cfg (spans w) (_client instance) kwargs r attrs
           (Some (mk_instrument Counter "llm.anthropic.completion.tokens"))
           (Some (mk_instrument Counter "llm.anthropic.completion.choices"))
       else ret tt)
      (fun ex => logger_warning
                   "Failed to set response attributes for anthropic span, error: %s"
                   (exn_str ex)) w1 = (Ok tt, extend w1 out')
    /\ _wrap cfg to_wrap wrapped instance args kwargs w =
      (Ok r,
       mk_world (trace w ++ metrics_created ++ [completion_span_started (spans w) to_wrap] ++
                 out ++ [Called args kwargs] ++
                 duration_recorded w (elapsed (wrapped args kwargs)) attrs ++
                 out' ++
                 (if is_recording cfg then [StatusSet (spans w) StatusOK] else []) ++
                 [SpanEnded (spans w)])
          (clock w + elapsed (wrapped args kwargs)) (S (spans w))).
Proof.
  intros Hs Hm Hr Hstream Hattrs Htruthy. run_wrap_prelude Hs Hm w out Hrun Hout.
  erewrite run_bind; [| unfold attempt; rewrite run_call, Hr; reflexivity ].
  erewrite run_bind by reflexivity.
  erewrite run_bind; [| unfold lift; rewrite Hattrs; reflexivity ].
  rewrite Hstream, Htruthy.
  unfold extend in *. cbn [clock spans trace] in *. unfold duration_recorded.
  set (h := if Z.eqb (clock w + elapsed (wrapped args kwargs)) 0 then _ else _).
  set (w1 := mk_world (trace w ++ metrics_created ++
      [completion_span_started (spans w) to_wrap] ++ out ++ [Called args kwargs] ++ h)
      (clock w + elapsed (wrapped args kwargs)) (S (spans w))).
  erewrite run_bind with (w' := w1);
    [| subst w1 h; destruct (Z.eqb (clock w + elapsed (wrapped args kwargs)) 0); finish_run ].
  erewrite run_bind by reflexivity.
  destruct (run_response_attributes cfg (spans w) (_client instance) kwargs r attrs
              (Some (mk_instrument Counter "llm.anthropic.completion.tokens"))
              (Some (mk_instrument Counter "llm.anthropic.completion.choices")) w1)
    as (out' & Hrun' & _).
  exists w1, out'. split; [exact Hrun' |].
  erewrite run_bind with (a := tt)
    (w' := extend w1 (out' ++ if is_recording cfg then [StatusSet (spans w) StatusOK] else []));
    [| erewrite run_bind by apply Hrun'; unfold span_is_recording;
       destruct (is_recording cfg); subst w1; finish_run ].
  subst w1. finish_run.
Qed.

Ltac run_awrap_prelude Hs w out Hrun Hout :=
  unfold _awrap; rewrite Hs;
  erewrite run_bind by reflexivity;
  destruct (run_input_attributes cfg (spans w) kwargs
              (mk_world (trace w ++ [completion_span_started (spans w) to_wrap])
                 (clock w) (S (spans w))))
    as (out & Hrun & Hout);
  exists out; split; [exact Hout |];
  erewrite run_bind by apply Hrun;
  rewrite <- (bind_assoc (call awrapped args kwargs) await);
  change (bind (call awrapped args kwargs) await) with (call_and_await awrapped args kwargs).

Lemma awrap_returns_run w r :
  py_bool (suppress_instrumentation cfg) = false ->
  awaited awrapped args kwargs = Ok r ->
  is_streaming_response r = false ->
  truthy r = true ->
  exists out, forallb (request_event (spans w)) out = true /\
  exists w1 out',
    try_except
      (if span_is_recording cfg (spans w) then
         _set_response_attributes cfg (spans w) r >>
         _set_token_usage_a cfg (spans w) (_client instance) kwargs r
       else ret tt)
      (fun ex => logger_warning
                   "Failed to set response attributes for anthropic span, error: %s"
                   (exn_str ex)) w1 = (Ok tt, extend w1 out')
    /\ _awrap cfg to_wrap awrapped instance args kwargs w =
      (Ok r,
       mk_world (trace w ++ [completion_span_started (spans w) to_wrap] ++ out ++
                 [Called args kwargs] ++ out' ++
                 (if is_recording cfg then [StatusSet (spans w) StatusOK] else []) ++
                 [SpanEnded (spans w)])
          (clock w + time_awaited awrapped args kwargs) (S (spans w))).
Proof.
  intros Hs Hr Hstream Htruthy. run_awrap_prelude Hs w out Hrun Hout.
  erewrite run_bind; [| rewrite run_call_and_await, Hr; reflexivity ].
  rewrite Hstream, Htruthy. unfold extend in *. cbn [clock spans trace] in *.
  set (w1 := mk_world (trace w ++ [completion_span_started (spans w) to_wrap] ++ out ++
                       [Called args kwargs])
               (clock w + time_awaited awrapped args kwargs) (S (spans w))).
  destruct (run_response_attributes_a cfg (spans w) (_client instance) kwargs r w1)
    as (out' & Hrun' & _).
  exists w1, out'. split; [exact Hrun' |].
  erewrite run_bind with (a := tt)
    (w' := extend w1 (out' ++ if is_recording cfg then [StatusSet (spans w) StatusOK] else []));
    [| erewrite run_bind with (w := mk_world _ _ _);
       [| subst w1; rewrite <- Hrun'; f_equal; f_equal; finish_run ];
       unfold span_is_recording; destruct (is_recording cfg); subst w1; finish_run ].
  subst w1. finish_run.
Qed.

(** X6. A call that is not suppressed and returns a value which is not a
    stream ends its span exactly once, as the last event of the call; the
    span is given the status OK just before, when the value is true and the
    span is recording, and no status otherwise. This holds also when
    recording the response fails. *)
Theorem span_ends_once_when_wrapped_returns now r r' :
  py_bool (suppress_instrumentation cfg) = false ->
  is_metrics_enabled cfg = true ->
  returned (wrapped args kwargs) = Ok r -> is_streaming_response r = false -> readable r ->
  awaited awrapped args kwargs = Ok r' -> is_streaming_response r' = false ->
  let ending (x : retval) :=
    (if truthy x && is_recording cfg then [StatusSet 0 StatusOK] else []) ++ [SpanEnded 0] in
  (exists t, trace (_wrap cfg to_wrap wrapped instance args kwargs (fresh now)).2 = t ++ ending r
             /\ count is_status_set t = 0%nat /\ count (is_span_ended 0) t = 0%nat)
  /\ (exists t, trace (_awrap cfg to_wrap awrapped instance args kwargs (fresh now)).2
                  = t ++ ending r'
                /\ count is_status_set t = 0%nat /\ count (is_span_ended 0) t = 0%nat).
Proof.
  intros Hs Hm Hr Hstream Hread Hr' Hstream' ending. subst ending. split.
  - destruct (shared_metric_attributes_readable r Hread) as [attrs Hattrs].
    destruct (wrap_returns cfg to_wrap wrapped instance args kwargs (fresh now) r attrs
                Hs Hm Hr Hstream Hattrs) as (out & Hout & out' & Hout' & ->).
    exists (metrics_created ++ [completion_span_started 0 to_wrap] ++ out ++
            [Called args kwargs] ++
            duration_recorded (fresh now) (elapsed (wrapped args kwargs)) attrs ++ out').
    cbn [trace snd fresh spans].
    split; [by rewrite ?app_nil_l, <- ?app_assoc |].
    split; count_events; by destruct (Z.eqb _ _).
  - destruct (awrap_returns cfg to_wrap awrapped instance args kwargs (fresh now) r'
                Hs Hr' Hstream') as (out & Hout & out' & Hout' & ->).
    exists ([completion_span_started 0 to_wrap] ++ out ++ [Called args kwargs] ++ out').
    cbn [trace snd fresh spans].
    split; [by rewrite ?app_nil_l, <- ?app_assoc |].
    split; by count_events.
Qed.

(** X7. When the wrapped callable gives a stream, the wrapper hands the
    span it started to the streaming adapter and returns the adapter's
    sequence: the wrapper itself sets no attribute of the response, sets no
    status and does not end the span. *)
Theorem stream_leaves_the_span_to_the_adapter now r r' :
  py_bool (suppress_instrumentation cfg) = false ->
  is_metrics_enabled cfg = true ->
  returned (wrapped args kwargs) = Ok r -> is_streaming_response r = true ->
  awaited awrapped args kwargs = Ok r' -> is_streaming_response r' = true ->
  let sync := _wrap cfg to_wrap wrapped instance args kwargs (fresh now) in
  let async := _awrap cfg to_wrap awrapped instance args kwargs (fresh now) in
  let untouched (t : list event) :=
    count is_span_started t = 1%nat /\ count (is_span_ended 0) t = 0%nat
    /\ count is_status_set t = 0%nat /\ count is_response_attribute t = 0%nat in
  sync.1 = Ok (_build_from_streaming_response 0 r (_client instance) kwargs)
  /\ untouched (trace sync.2)
  /\ async.1 = Ok (_abuild_from_streaming_response 0 r' (_client instance) kwargs)
  /\ untouched (trace async.2).
Proof.
  intros Hs Hm Hr Hstream Hr' Hstream' sync async untouched. subst sync async untouched.
  destruct (wrap_streams cfg to_wrap wrapped instance args kwargs (fresh now) r
              Hs Hm Hr Hstream) as (out & Hout & ->).
  destruct (awrap_streams cfg to_wrap awrapped instance args kwargs (fresh now) r'
              Hs Hr' Hstream') as (out' & Hout' & ->).
  split; [done |]. split; [| split; [done |]].
  - repeat split; count_events; by destruct (Z.eqb _ _).
  - repeat split; by count_events.
Qed.

(** X8. A true value without a [__dict__] that is not a [dict] (a string, a
    number, a list) cannot be read for the shared metric attributes: the
    synchronous wrapper then raises [AttributeError] from its [finally]
    block in place of returning the value, records no data point and leaves
    the span open, where the asynchronous wrapper, which reads no metric
    attributes, returns the value and ends the span. *)
Theorem value_without_dict_fails_the_sync_call now v :
  py_bool (suppress_instrumentation cfg) = false ->
  is_metrics_enabled cfg = true ->
  py_bool v = true -> has_dict v = false ->
  returned (wrapped args kwargs) = Ok (RVal v) ->
  awaited awrapped args kwargs = Ok (RVal v) ->
  let sync := _wrap cfg to_wrap wrapped instance args kwargs (fresh now) in
  let async := _awrap cfg to_wrap awrapped instance args kwargs (fresh now) in
  sync.1 = Raise (AttributeError ("'" +:+ type_name v +:+ "' object has no attribute '__dict__'"))
  /\ count is_data_point (trace sync.2) = 0%nat
  /\ count (is_span_ended 0) (trace sync.2) = 0%nat
  /\ async.1 = Ok (RVal v)
  /\ count (is_span_ended 0) (trace async.2) = 1%nat.
Proof.
  intros Hs Hm Hv Hd Hr Hr' sync async. subst sync async.
  assert (Hattrs : _get_shared_metric_attributes (RVal v) None =
            Raise (AttributeError ("'" +:+ type_name v +:+ "' object has no attribute '__dict__'"))).
  { unfold _get_shared_metric_attributes. simpl truthy. rewrite Hv. by destruct v. }
  destruct (wrap_unreadable cfg to_wrap wrapped instance args kwargs (fresh now) _ _
              Hs Hm Hr Hattrs) as (out & Hout & ->).
  destruct (awrap_returns cfg to_wrap awrapped instance args kwargs (fresh now) _
              Hs Hr' eq_refl) as (out1 & Hout1 & out' & Hout' & ->).
  split; [done |]. split; [by count_events |]. split; [by count_events |].
  split; [done |]. count_events. by destruct (_ && _).
Qed.

Lemma forall_emitted P {A} (m : M A) w out res :
  adds P m -> m w = (res, extend w out) -> Forall P out.
Proof.
  intros Ha Hrun. destruct (Ha w) as (out' & Hw & HP). rewrite Hrun in Hw. simpl in Hw.
  by apply app_inv_head in Hw as ->.
Qed.

Lemma forallb_Forall (q : event -> bool) (P : event -> Prop) l :
  (forall e, q e = true -> P e) -> forallb q l = true -> Forall P l.
Proof.
  intros HP Hq. apply Forall_forall. intros e He. apply HP. by eapply forallb_elem_of.
Qed.

(** X9. With metrics enabled, every data point of a synchronous call that
    returns a true value carries the label [llm.response.model] with the
    model of the response ([None] for a stream or a response without one).
    The data points of a call that raises carry the one label [error.type],
    with the name of the class of the exception, when the exception is an
    instance of [Exception] and its truth value is true; for any other
    exception they carry no label. *)
Theorem data_points_carry_the_model_or_the_error now :
  py_bool (suppress_instrumentation cfg) = false ->
  is_metrics_enabled cfg = true ->
  let t := trace (_wrap cfg to_wrap wrapped instance args kwargs (fresh now)).2 in
  match returned (wrapped args kwargs) with
  | Ok r =>
      forall d, truthy r = true -> as_dict r = Ok d ->
      forall e, e ∈ t -> is_data_point e = true ->
        labels e !! "llm.response.model" = Some (get d "model")
  | Raise ex =>
      forall e, e ∈ t -> is_data_point e = true ->
        labels e =
          if is_Exception (wrapped args kwargs) && exn_bool ex
          then {[ "error.type" := VStr (exn_class ex) ]}
          else ∅
  end.
Proof.
  intros Hs Hm t. subst t.
  destruct (returned (wrapped args kwargs)) as [r | ex] eqn:Hr.
  - intros d Htruthy Hd.
    set (P := fun e => is_data_point e = true ->
                       labels e !! "llm.response.model" = Some (get d "model")).
    assert (Hreq : forall span e, request_event span e = true -> P e) by (by intros span []).
    assert (Hattrs : _get_shared_metric_attributes r None =
                       Ok {[ "llm.response.model" := get d "model" ]}).
    { unfold _get_shared_metric_attributes. by rewrite Htruthy, Hd. }
    assert (Hduration : forall w ticks,
              Forall P (duration_recorded w ticks {[ "llm.response.model" := get d "model" ]})).
    { intros w ticks. unfold duration_recorded. by destruct (Z.eqb _ _); repeat constructor. }
    refine (proj1 (Forall_forall P _) _).
    destruct (is_streaming_response r) eqn:Hstream.
    + destruct (wrap_streams cfg to_wrap wrapped instance args kwargs (fresh now) r
                  Hs Hm Hr Hstream) as (out & Hout & ->).
      destruct r as [v | a evs | ticks res | a s r0 c k]; try discriminate Hstream.
      injection Hd as <-. cbn [trace snd fresh].
      repeat apply Forall_app_2;
        first [ by repeat constructor
              | apply Hduration
              | apply (forallb_Forall (request_event 0)); [apply Hreq | exact Hout] ].
    + destruct (wrap_returns_run (fresh now) r _ Hs Hm Hr Hstream Hattrs Htruthy)
        as (out & Hout & w1 & out' & Hblock & ->).
      cbn [trace snd fresh].
      repeat apply Forall_app_2;
        try first [ by repeat constructor
                  | by destruct (is_recording cfg); repeat constructor
                  | apply Hduration
                  | apply (forallb_Forall (request_event 0)); [apply Hreq | exact Hout] ].
      eapply forall_emitted; [| exact Hblock].
      unfold _set_response_attributes, _set_token_usage, _set_span_completions,
        span_is_recording.
      repeat first [ done | adds_step ].
      all: intros _; simpl; rewrite lookup_insert_ne by done; apply lookup_singleton_eq.
  - destruct (wrap_raises cfg to_wrap wrapped instance args kwargs (fresh now) ex Hs Hm Hr)
      as (out & Hout & ->).
    change (if is_Exception (wrapped args kwargs) && exn_bool ex
            then {[ "error.type" := VStr (exn_class ex) ]} else ∅)
      with (error_labels (wrapped args kwargs) ex).
    refine (proj1 (Forall_forall (fun e => is_data_point e = true -> _) _) _).
    cbn [trace snd fresh].
    repeat apply Forall_app_2;
      first [ by repeat constructor
            | by unfold duration_recorded; destruct (Z.eqb _ _); repeat constructor
            | by unfold exception_counted; destruct (is_counted _ _); repeat constructor
            | apply (forallb_Forall (request_event 0)); [by intros [] | exact Hout] ].
Qed.

End paths.

(** ** The usage that the response reports *)

Lemma leaves_usage_keeps span e key :
  key ∈ [ SpanAttributes.LLM_USAGE_PROMPT_TOKENS; SpanAttributes.LLM_USAGE_COMPLETION_TOKENS;
          SpanAttributes.LLM_USAGE_TOTAL_TOKENS ] ->
  leaves_usage span e = true -> keeps_key span key e = true.
Proof. intros Hkey H. unfold leaves_usage in H. by eapply forallb_elem_of in H. Qed.

Lemma usage_is_kept span attrs out p c :
  forallb (leaves_usage span) out = true ->
  usage_is attrs p c -> usage_is (foldl (record span) attrs out) p c.
Proof.
  intros Hout (H1 & H2 & H3). unfold usage_is.
  rewrite !lookup_keeps_key; [done | ..];
    (eapply forallb_impl; [| exact Hout]); intros e; apply leaves_usage_keeps; set_solver.
Qed.

Lemma completions_event_leaves_usage span e :
  completions_event span e = true -> leaves_usage span e = true.
Proof.
  destruct e as [| s key value | | | | | | |]; try done.
  unfold completions_event, leaves_usage, keeps_key, is_completions_key, forallb.
  intros [_ H]%andb_prop. expose_prefix H.
  unfold SpanAttributes.LLM_USAGE_PROMPT_TOKENS, SpanAttributes.LLM_USAGE_COMPLETION_TOKENS,
    SpanAttributes.LLM_USAGE_TOTAL_TOKENS.
  repeat match goal with
  | |- context [String.eqb ?a ?b] =>
      rewrite (proj2 (String.eqb_neq a b)) by (intros Heq; discriminate Heq)
  end.
  by rewrite !andb_false_r.
Qed.

Section reported_usage.
Variable cfg : config.
Hypothesis Hwrites : forall z, writes cfg (VInt z) = true.

Lemma usage_written_is span attrs p c :
  usage_is (foldl (record span) attrs (usage_written cfg span (VInt p) (VInt c) (VInt (p + c))))
    p c.
Proof.
  unfold usage_written, written. rewrite !Hwrites. simpl. rewrite Nat.eqb_refl.
  repeat split.
  - rewrite !lookup_insert_ne by done. apply lookup_insert_eq.
  - rewrite lookup_insert_ne by done. apply lookup_insert_eq.
  - apply lookup_insert_eq.
Qed.

(** What [_set_response_attributes] leaves for a response with a usage
    sub-structure: the model, the three usage attributes, and then what
    recording the completions adds. *)
Lemma run_set_response_attributes span r d p c w :
  as_dict r = Ok d ->
  py_getattr (get d "usage") "input_tokens" = Ok (VInt p) ->
  py_getattr (get d "usage") "output_tokens" = Ok (VInt c) ->
  exists res out,
    _set_response_attributes cfg span r w =
      (res, extend w (written cfg span SpanAttributes.LLM_RESPONSE_MODEL (get d "model") ++
                      usage_written cfg span (VInt p) (VInt c) (VInt (p + c)) ++ out))
    /\ forallb (completions_event span) out = true.
Proof.
  intros Hd Hp Hc. unfold _set_response_attributes.
  erewrite run_bind by (unfold lift; rewrite Hd; reflexivity).
  erewrite run_bind by apply run_set_span_attribute.
  assert (Husage : py_bool (get d "usage") = true) by (by destruct (get d "usage")).
  rewrite Husage.
  erewrite run_bind with (a := tt)
    (w' := extend w (written cfg span SpanAttributes.LLM_RESPONSE_MODEL (get d "model") ++
                     usage_written cfg span (VInt p) (VInt c) (VInt (p + c)))).
  2: { erewrite run_bind by (unfold lift; rewrite Hp; reflexivity).
       erewrite run_bind by (unfold lift; rewrite Hc; reflexivity).
       erewrite run_bind by apply run_set_span_attribute.
       erewrite run_bind by apply run_set_span_attribute.
       erewrite run_bind by reflexivity.
       rewrite run_set_span_attribute. unfold usage_written.
       by rewrite !extend_extend, <- ?app_assoc. }
  assert (He : emits (completions_event span)
                 (if should_send_prompts cfg then _set_span_completions cfg span d else ret tt))
    by (destruct (should_send_prompts cfg);
        [apply emits_set_span_completions_only | apply emits_ret]).
  match goal with |- context [ ?m ?w0 = _ ] => destruct (He w0) as (out & Hw & Hout);
    destruct (m w0) as [res w1] end.
  simpl in Hw. subst w1. exists res, out. split; [| done].
  by rewrite extend_extend, <- ?app_assoc.
Qed.

(** A block that records the response and then fails while counting tokens
    leaves the usage that the response reports. *)
Lemma reported_usage_is_kept span r d p c (m : M unit) w1 out' :
  as_dict r = Ok d ->
  py_getattr (get d "usage") "input_tokens" = Ok (VInt p) ->
  py_getattr (get d "usage") "output_tokens" = Ok (VInt c) ->
  (forall w, exists e out, m w = (Raise e, extend w out)
                           /\ forallb (leaves_usage span) out = true) ->
  try_except (_set_response_attributes cfg span r >> m)
    (fun ex => logger_warning "Failed to set response attributes for anthropic span, error: %s"
                 (exn_str ex)) w1 = (Ok tt, extend w1 out') ->
  forall attrs, usage_is (foldl (record span) attrs out') p c.
Proof.
  intros Hd Hp Hc Hm Hrun attrs.
  destruct (run_set_response_attributes span r d p c w1 Hd Hp Hc) as (res & out & Hres & Hout).
  assert (Hcomp : forallb (leaves_usage span) out = true)
    by (eapply forallb_impl; [apply completions_event_leaves_usage | done]).
  unfold try_except, bind in Hrun. rewrite Hres in Hrun.
  assert (Hout' : exists rest, out' =
            (written cfg span SpanAttributes.LLM_RESPONSE_MODEL (get d "model") ++
             usage_written cfg span (VInt p) (VInt c) (VInt (p + c))) ++ rest
            /\ forallb (leaves_usage span) rest = true).
  { destruct res as [[] | e].
    - destruct (Hm (extend w1
                  (written cfg span SpanAttributes.LLM_RESPONSE_MODEL (get d "model") ++
                   usage_written cfg span (VInt p) (VInt c) (VInt (p + c)) ++ out)))
        as (e & out2 & Hm2 & Hout2).
      rewrite Hm2 in Hrun. unfold logger_warning, emit in Hrun.
      injection Hrun as Hrun. rewrite <- !app_assoc in Hrun.
      apply app_inv_head in Hrun. subst out'.
      eexists (out ++ out2 ++ [_]). split; [by rewrite <- ?app_assoc |].
      by rewrite !forallb_app, Hcomp, Hout2.
    - unfold logger_warning, emit in Hrun.
      injection Hrun as Hrun. rewrite <- !app_assoc in Hrun.
      apply app_inv_head in Hrun. subst out'.
      eexists (out ++ [_]). split; [by rewrite <- ?app_assoc |].
      by rewrite !forallb_app, Hcomp. }
  destruct Hout' as (rest & -> & Hrest).
  rewrite !foldl_app. apply usage_is_kept; [done |]. apply usage_written_is.
Qed.

End reported_usage.

Section reported_usage_of_a_call.
Variable cfg : config.
Hypothesis Hwrites : forall z, writes cfg (VInt z) = true.
Variables (to_wrap : dict) (wrapped awrapped : callable) (instance : resource).
Variables (args : list pyval) (kwargs : dict).

Lemma token_points_leave_usage span tc tokens token_type attrs :
  forallb (leaves_usage span) (token_points tc tokens token_type attrs) = true.
Proof. unfold token_points. destruct tc, tokens; try done. by destruct (Z.leb 0 z). Qed.

Lemma usage_is_skip span pre rest p c :
  (forall attrs, usage_is (foldl (record span) attrs rest) p c) ->
  forall attrs, usage_is (foldl (record span) attrs (pre ++ rest)) p c.
Proof. intros H attrs. rewrite foldl_app. apply H. Qed.

Lemma usage_is_then span l ending p c :
  forallb (leaves_usage span) ending = true ->
  (forall attrs, usage_is (foldl (record span) attrs l) p c) ->
  forall attrs, usage_is (foldl (record span) attrs (l ++ ending)) p c.
Proof. intros He H attrs. rewrite foldl_app. by apply usage_is_kept. Qed.

(** X10. When the response carries a usage sub-structure and counting the
    tokens of the request or of the response raises, the call still returns
    the response and its span keeps the usage that the response reports:
    the input tokens, the output tokens and their sum. *)
Theorem reported_usage_stays_when_counting_fails now r d p c :
  py_bool (suppress_instrumentation cfg) = false ->
  is_metrics_enabled cfg = true ->
  is_recording cfg = true ->
  returned (wrapped args kwargs) = Ok r ->
  awaited awrapped args kwargs = Ok r ->
  is_streaming_response r = false ->
  as_dict r = Ok d ->
  py_getattr (get d "usage") "input_tokens" = Ok (VInt p) ->
  py_getattr (get d "usage") "output_tokens" = Ok (VInt c) ->
  (exists e, prompt_tokens_of (_client instance) kwargs = Raise e)
  \/ (exists e, completion_tokens_of (_client instance) d = Raise e) ->
  let sync := _wrap cfg to_wrap wrapped instance args kwargs (fresh now) in
  let async := _awrap cfg to_wrap awrapped instance args kwargs (fresh now) in
  sync.1 = Ok r /\ usage_is (span_attributes 0 (trace sync.2)) p c
  /\ async.1 = Ok r /\ usage_is (span_attributes 0 (trace async.2)) p c.
Proof.
  intros Hs Hm Hrec Hr Hr' Hstream Hd Hp Hc Hfail sync async. subst sync async.
  assert (Htruthy : truthy r = true).
  { destruct r as [[| | | | | | d0 | cls d0] | | |]; try done.
    injection Hd as ->. simpl. apply negb_true_iff, Nat.eqb_neq. intros Hsize.
    apply map_size_empty_inv in Hsize. subst d. unfold get in Hp. by rewrite lookup_empty in Hp. }
  assert (Hattrs : _get_shared_metric_attributes r None =
                     Ok {[ "llm.response.model" := get d "model" ]}).
  { unfold _get_shared_metric_attributes. by rewrite Htruthy, Hd. }
  assert (Hend : forallb (leaves_usage 0) ([StatusSet 0 StatusOK] ++ [SpanEnded 0]) = true)
    by done.
  destruct (wrap_returns_run cfg to_wrap wrapped instance args kwargs (fresh now) r _
              Hs Hm Hr Hstream Hattrs Htruthy) as (out & Hout & w1 & out' & Hblock & ->).
  destruct (awrap_returns_run cfg to_wrap awrapped instance args kwargs (fresh now) r
              Hs Hr' Hstream Htruthy) as (aout & Haout & w2 & aout' & Hablock & ->).
  unfold span_is_recording in Hblock, Hablock. rewrite Hrec in Hblock, Hablock.
  cbn [fst snd trace fresh spans]. rewrite Hrec. unfold span_attributes.
  split; [done |]. split; [| split; [done |]].
  - do 6 apply usage_is_skip. apply usage_is_then; [done |].
    intros attrs. eapply reported_usage_is_kept; [done | done | done | done | | exact Hblock].
    intros w. rewrite (run_set_token_usage _ _ _ _ _ _ _ _ _ _ Hd).
    destruct Hfail as [[e He] | [e He]].
    + rewrite He. exists e, []. by rewrite extend_nil.
    + destruct (prompt_tokens_of _ _) as [p0 | e0]; [| exists e0, []; by rewrite extend_nil].
      rewrite He. eexists _, _. split; [done |]. apply token_points_leave_usage.
  - do 4 apply usage_is_skip. apply usage_is_then; [done |].
    intros attrs. eapply reported_usage_is_kept; [done | done | done | done | | exact Hablock].
    intros w. rewrite (run_set_token_usage_a _ _ _ _ _ _ _ Hd).
    destruct Hfail as [[e He] | [e He]].
    + rewrite He. exists e, []. by rewrite extend_nil.
    + destruct (prompt_tokens_of _ _) as [p0 | e0]; [| exists e0, []; by rewrite extend_nil].
      rewrite He. exists e, []. by rewrite extend_nil.
Qed.

End reported_usage_of_a_call.

(** ** Attributes recorded by index *)

Lemma string_length_app a b :
  String.length (a +:+ b) = (String.length a + String.length b)%nat.
Proof. induction a as [| x a IH]; simpl; [done | by rewrite IH]. Qed.

Lemma string_app_inj_r s a b : a +:+ s = b +:+ s -> a = b.
Proof.
  revert b. induction a as [| x a IH]; intros [| y b] H; simpl in H.
  - done.
  - apply (f_equal String.length) in H. simpl in H. rewrite !string_length_app in H. simpl in H. lia.
  - apply (f_equal String.length) in H. simpl in H. rewrite !string_length_app in H. simpl in H. lia.
  - injection H as -> H. f_equal. by apply IH.
Qed.

(** The keys [prefix.i.suffix] of two indices differ. *)
Lemma indexed_key_inj (pre suf : string) (i j : nat) :
  pre +:+ "." +:+ pretty i +:+ suf = pre +:+ "." +:+ pretty j +:+ suf -> i = j.
Proof.
  intros H. apply String.app_inj in H. apply (String.app_inj ".") in H.
  apply string_app_inj_r in H. by apply pretty_nat_inj in H.
Qed.

Lemma lookup_kept span key l attrs :
  Forall (fun e => keeps_key span key e = true) l ->
  foldl (record span) attrs l !! key = attrs !! key.
Proof.
  intros H. apply lookup_keeps_key. apply forallb_forall. intros e He.
  rewrite Forall_forall in H. apply H. by apply list_elem_of_In.
Qed.

(** A loop over [enumerate(l)] from index [k] on whose body sets the
    attribute [key i] of [span] to [val x]: afterwards each of these
    attributes holds the value of its own item. *)
Lemma run_for_each_indexed {A} (body : nat * A -> M unit) (key : nat -> string)
    (val : A -> pyval) span (l : list A) :
  (forall i j, key i = key j -> i = j) ->
  (forall i x w, x ∈ l ->
     body (i, x) w = (Ok tt, extend w [AttributeSet span (key i) (val x)])) ->
  forall k w, exists out,
    for_each (zip (seq k (length l)) l) body w = (Ok tt, extend w out)
    /\ Forall (fun e => exists j v, (k <= j)%nat /\ e = AttributeSet span (key j) v) out
    /\ forall i x, l !! i = Some x ->
         forall attrs, foldl (record span) attrs out !! key (k + i)%nat = Some (val x).
Proof.
  intros Hinj. induction l as [| x l IH]; intros Hbody k w.
  - exists []. rewrite extend_nil. repeat split; [constructor | done].
  - destruct (IH (fun i y w' Hy => Hbody i y w' (list_elem_of_further _ _ _ Hy)) (S k)
                (extend w [AttributeSet span (key k) (val x)])) as (out & Hrun & Hout & Hget).
    exists (AttributeSet span (key k) (val x) :: out). split; [| split].
    + simpl. erewrite run_bind by (apply Hbody; apply list_elem_of_here).
      rewrite Hrun. by rewrite extend_extend.
    + constructor; [by exists k, (val x) |].
      eapply Forall_impl; [exact Hout |]. intros e (j & v & Hj & ->). exists j, v. split; [lia | done].
    + intros [| i] y Hy attrs.
      * injection Hy as <-. simpl. rewrite Nat.eqb_refl, Nat.add_0_r.
        rewrite lookup_kept; [apply lookup_insert_eq |].
        eapply Forall_impl; [exact Hout |]. intros e (j & v & Hj & ->). simpl.
        rewrite Nat.eqb_refl. simpl. apply negb_true_iff, String.eqb_neq.
        intros Hkey%Hinj. lia.
      * simpl. replace (k + S i)%nat with (S k + i)%nat by lia. by apply Hget.
Qed.

Section recorded.
Variable cfg : config.

(** X11. With prompts sent, a request without a [prompt] and with a list
    of messages has the dumped content of each message recorded under the
    index of that message: [llm.prompts.i.user] holds the content of message
    [i], for every [i], when the guard of [set_span_attribute] writes these
    values. *)
Theorem messages_are_recorded_by_index span kwargs messages w :
  should_send_prompts cfg = true ->
  is_none (get kwargs "prompt") = true ->
  get kwargs "messages" = VList messages ->
  (forall m, m ∈ messages ->
     exists v, recorded_prompt cfg m = Ok v /\ writes cfg v = true) ->
  let run := _set_input_attributes cfg span kwargs w in
  run.1 = Ok tt
  /\ forall i m v, messages !! i = Some m -> recorded_prompt cfg m = Ok v ->
       span_attributes span (trace run.2)
         !! (SpanAttributes.LLM_PROMPTS +:+ "." +:+ pretty i +:+ ".user") = Some v.
Proof.
  intros Hs Hprompt Hmessages Hall run. subst run. unfold _set_input_attributes.
  do 7 erewrite run_bind by apply run_set_span_attribute.
  rewrite Hs, Hprompt, Hmessages. cbn [negb is_none].
  erewrite run_bind by reflexivity. unfold enumerate.
  match goal with |- context [for_each _ ?b ?w0] =>
    destruct (run_for_each_indexed b
                (fun i => SpanAttributes.LLM_PROMPTS +:+ "." +:+ pretty i +:+ ".user")
                (fun m => match recorded_prompt cfg m with Ok v => v | Raise _ => VNone end)
                span messages
                (indexed_key_inj _ _)) with (k := 0%nat) (w := w0) as (out & -> & _ & Hget)
  end.
  - intros i m w' Hm. destruct (Hall m Hm) as (v & Hv & Hw). rewrite Hv.
    unfold recorded_prompt in Hv.
    destruct (py_get m "content") as [content |]; [| done]. simpl in Hv.
    erewrite run_bind by reflexivity. erewrite run_bind by (unfold lift; rewrite Hv; reflexivity).
    unfold set_span_attribute. by rewrite Hw.
  - split; [done |]. intros i m v Hm Hv. cbn [snd]. rewrite span_attributes_extend.
    rewrite (Hget i m Hm). by rewrite Hv.
Qed.

(** X12. With no free-text completion and a list of content items, each
    item's text is recorded under the index of that item:
    [llm.completions.i.content] holds the text of item [i], for every [i],
    when the guard of [set_span_attribute] writes these texts. *)
Theorem completions_are_recorded_by_index span response items w :
  py_bool (get response "completion") = false ->
  get response "content" = VList items ->
  (forall item, item ∈ items ->
     exists text, py_getattr item "text" = Ok text /\ writes cfg text = true) ->
  let run := _set_span_completions cfg span response w in
  run.1 = Ok tt
  /\ forall i item text, items !! i = Some item -> py_getattr item "text" = Ok text ->
       span_attributes span (trace run.2)
         !! (SpanAttributes.LLM_COMPLETIONS +:+ "." +:+ pretty i +:+ ".content") = Some text.
Proof.
  intros Hcompletion Hcontent Hall run. subst run. unfold _set_span_completions.
  erewrite run_bind by apply run_set_span_attribute.
  rewrite Hcompletion, Hcontent.
  destruct items as [| first items].
  { split; [done |]. by intros i item text Hitem. }
  cbn [py_bool length Nat.eqb negb].
  erewrite run_bind by reflexivity. unfold enumerate.
  match goal with |- context [for_each _ ?b ?w0] =>
    destruct (run_for_each_indexed b
                (fun i => SpanAttributes.LLM_COMPLETIONS +:+ "." +:+ pretty i +:+ ".content")
                (fun item => match py_getattr item "text" with Ok v => v | Raise _ => VNone end)
                span (first :: items)
                (indexed_key_inj _ _)) with (k := 0%nat) (w := w0) as (out & -> & _ & Hget)
  end.
  - intros i item w' Hitem. destruct (Hall item Hitem) as (text & Htext & Hw). rewrite Htext.
    erewrite run_bind by reflexivity.
    unfold set_span_attribute. by rewrite Hw.
  - split; [done |]. intros i item text Hitem Htext. cbn [snd]. rewrite span_attributes_extend.
    rewrite (Hget i item Hitem). by rewrite Htext.
Qed.

Lemma dump_content_raised {A} (f : result A -> pyval -> result A) e items :
  (forall item, f (Raise e) item = Raise e) -> foldl f (Raise e) items = Raise e.
Proof. intros Hf. induction items as [| item items IH]; simpl; [done | by rewrite Hf]. Qed.

(** X13. Content items whose type is neither [text] nor [image] leave no
    trace in the dumped content: dumping a list is the same with and without
    such an item. *)
Theorem dump_content_skips_other_types before d after :
  py_eq_str (get d "type") "text" = false ->
  py_eq_str (get d "type") "image" = false ->
  _dump_content cfg (VList (before ++ VDict d :: after)) =
    _dump_content cfg (VList (before ++ after)).
Proof.
  intros Htext Himage. unfold _dump_content. cbn [py_iter rbind].
  rewrite !foldl_app. cbn [foldl py_get rbind]. rewrite Htext, Himage.
  by destruct (foldl _ _ before).
Qed.

(** X14. A content list with an item that is not a [dict], and so has no
    [get] method (a string, a content block object), cannot be dumped:
    [_dump_content] raises [AttributeError] and [json.dumps] is not
    reached. *)
Theorem dump_content_needs_dicts items item :
  item ∈ items -> is_dict item = false ->
  exists msg, _dump_content cfg (VList items) = Raise (AttributeError msg).
Proof.
  intros Hitem Hdict. unfold _dump_content. cbn [py_iter rbind].
  match goal with |- context [foldl ?f _ _] => set (step := f) end.
  assert (Hraised : forall e l, foldl step (Raise e) l = Raise e)
    by (intros e l; by apply dump_content_raised).
  assert (Hstep : forall acc x, (exists js, acc = Ok js) \/ (exists msg, acc = Raise (AttributeError msg)) ->
            (exists js, step acc x = Ok js /\ is_dict x = true)
            \/ (exists msg, step acc x = Raise (AttributeError msg))).
  { intros acc x [[js ->] | [msg ->]]; [| right; by exists msg].
    subst step. cbv beta. cbn [rbind].
    destruct x; try (right; by eexists). cbn [py_get rbind].
    destruct (py_eq_str _ "text"); [left; by eexists |].
    destruct (py_eq_str _ "image"); [| left; by eexists].
    destruct (get d "source"); try (right; by eexists). cbn [py_get rbind].
    left. by eexists. }
  assert (Hloop : forall l acc,
            (exists js, acc = Ok js) \/ (exists msg, acc = Raise (AttributeError msg)) ->
            item ∈ l -> exists msg, foldl step acc l = Raise (AttributeError msg)).
  { induction l as [| x l IH]; intros acc Hacc Hin; [by apply elem_of_nil in Hin |].
    simpl. destruct (Hstep acc x Hacc) as [(js & Hx & Hd) | (msg & Hx)].
    - apply elem_of_cons in Hin as [-> | Hin]; [by rewrite Hd in Hdict |].
      rewrite Hx. apply IH; [left; by eexists | done].
    - rewrite Hx, Hraised. by exists msg. }
  destruct (Hloop items (Ok []) (or_introl (ex_intro _ [] eq_refl)) Hitem) as [msg ->].
  by exists msg.
Qed.

End recorded.

(** ** A usage that cannot be read *)

Lemma truthy_of_field r d key :
  as_dict r = Ok d -> is_streaming_response r = false -> py_bool (get d key) = true ->
  truthy r = true.
Proof.
  intros Hd Hstream Hkey.
  destruct r as [[| | | | | | d0 | cls d0] | | |]; try done.
  injection Hd as ->. simpl. apply negb_true_iff, Nat.eqb_neq. intros Hsize.
  apply map_size_empty_inv in Hsize. subst d. unfold get in Hkey. by rewrite lookup_empty in Hkey.
Qed.

Section unreadable_usage.
Variable cfg : config.
Variables (to_wrap : dict) (wrapped : callable) (instance : resource).
Variables (args : list pyval) (kwargs : dict).

(** X15. When the usage of a response is a true value without an
    [input_tokens] attribute (a usage given as a [dict], say), recording the
    response stops after the model: no completion and no usage attribute is
    set and no token or choice data point is added, a warning is logged, and
    the call returns the response with its span ended. *)
Theorem unreadable_usage_stops_the_recording now r d e :
  py_bool (suppress_instrumentation cfg) = false ->
  is_metrics_enabled cfg = true ->
  is_recording cfg = true ->
  returned (wrapped args kwargs) = Ok r ->
  is_streaming_response r = false ->
  as_dict r = Ok d ->
  py_bool (get d "usage") = true ->
  py_getattr (get d "usage") "input_tokens" = Raise e ->
  let run := _wrap cfg to_wrap wrapped instance args kwargs (fresh now) in
  run.1 = Ok r
  /\ Warned "Failed to set response attributes for anthropic span, error: %s" (exn_str e)
       ∈ trace run.2
  /\ count is_completion_attribute (trace run.2) = 0%nat
  /\ count (is_added_to "llm.anthropic.completion.tokens") (trace run.2) = 0%nat
  /\ count (is_added_to "llm.anthropic.completion.choices") (trace run.2) = 0%nat
  /\ count (is_span_ended 0) (trace run.2) = 1%nat.
Proof.
  intros Hs Hm Hrec Hr Hstream Hd Husage He run. subst run.
  pose proof (truthy_of_field r d "usage" Hd Hstream Husage) as Htruthy.
  assert (Hattrs : _get_shared_metric_attributes r None =
                     Ok {[ "llm.response.model" := get d "model" ]}).
  { unfold _get_shared_metric_attributes. by rewrite Htruthy, Hd. }
  destruct (wrap_returns_run cfg to_wrap wrapped instance args kwargs (fresh now) r _
              Hs Hm Hr Hstream Hattrs Htruthy) as (out & Hout & w1 & out' & Hblock & ->).
  assert (Hout' : out' = written cfg 0 SpanAttributes.LLM_RESPONSE_MODEL (get d "model") ++
            [Warned "Failed to set response attributes for anthropic span, error: %s"
               (exn_str e)]).
  { unfold span_is_recording in Hblock. rewrite Hrec in Hblock.
    unfold try_except, _set_response_attributes in Hblock.
    erewrite run_bind_raise in Hblock.
    2: { erewrite run_bind by (unfold lift; rewrite Hd; reflexivity).
         erewrite run_bind by apply run_set_span_attribute.
         rewrite Husage.
         erewrite run_bind_raise; [reflexivity |].
         erewrite run_bind_raise; [reflexivity |]. unfold lift. by rewrite He. }
    unfold logger_warning, emit, extend in Hblock. cbn [trace clock spans] in Hblock.
    injection Hblock as Hblock. rewrite <- app_assoc in Hblock.
    by apply app_inv_head in Hblock. }
  subst out'. cbn [fst snd]. split; [done |]. split; [among |].
  unfold written. repeat split; count_events;
    by destruct (Z.eqb _ _), (writes cfg _), (is_recording cfg).
Qed.

End unreadable_usage.

(** ** The instrumentor *)

Section instrumentor.
Variable cfg : config.
Variable lib : patcher.

Lemma for_each_of_app {A} (l1 l2 : list A) body patches :
  for_each_of (l1 ++ l2) body patches =
    and_then (for_each_of l1 body) (fun _ => for_each_of l2 body) patches.
Proof.
  revert patches. induction l1 as [| x l1 IH]; intros patches; simpl; [done |].
  unfold and_then. destruct (body x patches) as [[[] | e] patches']; [apply IH | done].
Qed.

Lemma for_each_of_fmap {A B} (f : A -> B) (l : list A) body patches :
  for_each_of (f <$> l) body patches = for_each_of l (fun x => body (f x)) patches.
Proof.
  revert patches. induction l as [| x l IH]; intros patches; simpl; [done |].
  unfold and_then. destruct (body (f x) patches) as [[[] | e] patches']; [apply IH | done].
Qed.

Lemma and_then_ext {A B} (m m' : P A) (k k' : A -> P B) patches :
  (forall p, m p = m' p) -> (forall a p, k a p = k' a p) ->
  and_then m k patches = and_then m' k' patches.
Proof. intros Hm Hk. unfold and_then. rewrite Hm. destruct (m' patches) as [[a | e] p]; auto. Qed.

(** [_instrument] makes the requests of the two tables one after the other. *)
Lemma instrument_as_requests kwargs patches :
  _instrument cfg lib kwargs patches = for_each_of (wrap_requests cfg) (request_wrap lib) patches.
Proof.
  unfold wrap_requests. rewrite for_each_of_app. unfold _instrument.
  apply and_then_ext; intros; by rewrite for_each_of_fmap.
Qed.

Lemma installed_app l1 l2 : installed lib (l1 ++ l2) = installed lib l1 ++ installed lib l2.
Proof. unfold installed. by rewrite List.filter_app, fmap_app. Qed.

Lemma run_requests requests patches :
  (forall module name w e, (module, name, w) ∈ requests ->
     wrap_function_wrapper_outcome lib module name = Raise e ->
     exn_class e = "ModuleNotFoundError") ->
  for_each_of requests (request_wrap lib) patches = (Ok tt, patches ++ installed lib requests).
Proof.
  revert patches. induction requests as [| [[module name] w] requests IH]; intros patches Hlib.
  - simpl. by rewrite app_nil_r.
  - simpl. unfold and_then, except_ModuleNotFoundError_pass, wrap_function_wrapper.
    change (installed lib ((module, name, w) :: requests)) with
      (installed lib ([(module, name, w)] ++ requests)).
    rewrite installed_app. unfold installed at 1. simpl.
    destruct (wrap_function_wrapper_outcome lib module name) as [[] | e] eqn:Hrq; simpl.
    + rewrite IH by (intros; eapply Hlib; [by apply list_elem_of_further | done]).
      by rewrite <- app_assoc.
    + rewrite (Hlib module name w e (list_elem_of_here _ _) Hrq). simpl.
      apply IH. intros; eapply Hlib; [by apply list_elem_of_further | done].
Qed.

(** X16. When every request that the patching library refuses is refused
    with [ModuleNotFoundError], [_instrument] returns, and the wrappers in
    effect afterwards are those of the requests that were accepted, in the
    order of the two tables: [_wrap] for the methods of [WRAPPED_METHODS],
    [_awrap] for those of [WRAPPED_AMETHODS], each with its table entry. A
    module that is missing keeps no other method from being wrapped. *)
Theorem instrument_skips_missing_modules kwargs patches :
  (forall module name e,
     wrap_function_wrapper_outcome lib module name = Raise e ->
     exn_class e = "ModuleNotFoundError") ->
  _instrument cfg lib kwargs patches =
    (Ok tt, patches ++ installed lib (wrap_requests cfg)).
Proof.
  intros Hlib. rewrite instrument_as_requests. apply run_requests. eauto.
Qed.

(** X17. An exception of another class stops [_instrument]: it goes to the
    caller, the requests after the failing one are not made, and the
    wrappers installed before stay in effect. *)
Theorem instrument_stops_at_another_exception kwargs patches before module name w after e :
  wrap_requests cfg = before ++ (module, name, w) :: after ->
  (forall module' name' w' e', (module', name', w') ∈ before ->
     wrap_function_wrapper_outcome lib module' name' = Raise e' ->
     exn_class e' = "ModuleNotFoundError") ->
  wrap_function_wrapper_outcome lib module name = Raise e ->
  exn_class e <> "ModuleNotFoundError" ->
  _instrument cfg lib kwargs patches = (Raise e, patches ++ installed lib before).
Proof.
  intros Hsplit Hbefore Hrq He. rewrite instrument_as_requests, Hsplit, for_each_of_app.
  unfold and_then at 1. rewrite run_requests by done. simpl.
  unfold and_then, except_ModuleNotFoundError_pass, wrap_function_wrapper. rewrite Hrq.
  apply String.eqb_neq in He. by rewrite He.
Qed.

(** X18. Where both patching functions accept every request, what
    [_uninstrument] unwraps is not what [_instrument] wrapped: the two
    methods of [AsyncMessages] are wrapped under
    [anthropic.resources.messages] and unwrapped under
    [anthropic.resources.completions], so that their wrappers stay in place;
    every other wrapped method is unwrapped at its own address. *)
Theorem uninstrument_misses_the_async_messages kwargs :
  (forall module name, wrap_function_wrapper_outcome lib module name = Ok tt) ->
  (forall obj attr, unwrap_outcome lib obj attr = Ok tt) ->
  let wrapped := address cfg <$> (_instrument cfg lib kwargs []).2 in
  let unwrapped := address cfg <$> (_uninstrument cfg lib kwargs []).2 in
  list_difference wrapped unwrapped =
    [ "anthropic.resources.messages.AsyncMessages.create";
      "anthropic.resources.messages.AsyncMessages.stream" ]
  /\ list_difference unwrapped wrapped =
       [ "anthropic.resources.completions.AsyncMessages.create";
         "anthropic.resources.completions.AsyncMessages.stream" ].
Proof.
  intros Hwrap Hunwrap wrapped unwrapped. subst wrapped unwrapped.
  unfold _instrument, _uninstrument, WRAPPED_METHODS, WRAPPED_AMETHODS.
  cbn [for_each_of].
  unfold and_then, except_ModuleNotFoundError_pass, wrap_function_wrapper, unwrap.
  rewrite ?Hwrap, ?Hunwrap. cbn [snd app fmap list_fmap address].
  split; vm_compute; reflexivity.
Qed.

End instrumentor.

(** ** The chat wrappers, path by path *)

(** The context manager of the tracer around a block: the span is started,
    the block runs, and the span is left. *)
Lemma run_with_span {A} recording name (body : nat -> M A) w :
  langchain.with_span recording name body w =
    let out := body (spans w)
                 (mk_world (trace w ++ [SpanStarted (spans w) name SpanKind.INTERNAL ∅])
                    (clock w) (S (spans w))) in
    (out.1, mk_world (trace out.2 ++ span_left recording (spans w) out.1) (clock out.2)
              (spans out.2)).
Proof.
  unfold langchain.with_span. erewrite run_bind by reflexivity.
  unfold bind at 1, attempt. cbv zeta.
  destruct (body (spans w) _) as [[a | e] w1]; [unfold span_left; finish_run |].
  destruct recording; unfold span_left; finish_run.
Qed.

Lemma count_cons p e l :
  count p (e :: l) = ((if p e then 1 else 0) + count p l)%nat.
Proof. unfold count. simpl. by destruct (p e). Qed.

Section chat_paths.
Variable cfg : config.
Variables (to_wrap : dict) (wrapped awrapped : callable) (instance : pyval).
Variables (args : list pyval) (kwargs : dict).

Lemma adds_handle_request span :
  adds (fun e => inside_span span e = true /\ is_called e = false)
    (langchain._handle_request cfg span args kwargs instance).
Proof.
  unfold langchain._handle_request.
  repeat first [ by simpl; rewrite Nat.eqb_refl | adds_step ].
Qed.

Lemma adds_handle_response span rv :
  adds (fun e => inside_span span e = true /\ is_called e = false)
    (langchain._handle_response cfg span rv).
Proof.
  unfold langchain._handle_response.
  repeat first [ by simpl; rewrite Nat.eqb_refl | adds_step ].
Qed.

Lemma adds_chat_body span :
  adds (fun e => inside_span span e = true)
    (langchain._handle_request cfg span args kwargs instance >>
     let* return_value := call wrapped args kwargs in
     langchain._handle_response cfg span return_value >>
     ret return_value).
Proof.
  adds_step; [eapply adds_impl; [| apply adds_handle_request]; by intros e [] |].
  adds_step; [by adds_step |]. adds_step; [| adds_step].
  eapply adds_impl; [| apply adds_handle_response]; by intros e [].
Qed.

Lemma adds_achat_body span :
  adds (fun e => inside_span span e = true)
    (langchain._handle_request cfg span args kwargs instance >>
     let* awaitable := call awrapped args kwargs in
     let* return_value := await awaitable in
     langchain._handle_response cfg span return_value >>
     ret return_value).
Proof.
  adds_step; [eapply adds_impl; [| apply adds_handle_request]; by intros e [] |].
  adds_step; [by adds_step |]. adds_step; [adds_step |]. adds_step; [| adds_step].
  eapply adds_impl; [| apply adds_handle_response]; by intros e [].
Qed.

(** X19. A chat call that is not suppressed, synchronous or asynchronous,
    starts one span, named after the class of the instance, and ends it as
    its last event on every path: when recording the request, the wrapped
    callable or recording the response raises, the exception goes on to the
    caller after the span has been given the error status (if it records)
    and has been ended. In between there are only attributes set on that
    span and the call. *)
Theorem chat_span_always_ends now :
  py_bool (suppress_instrumentation cfg) = false ->
  let shape (run : result retval * world) :=
    exists t,
      trace run.2 =
        SpanStarted 0 (VStr ("langchain.task." +:+ type_name instance)) SpanKind.INTERNAL ∅
        :: t ++ span_left (is_recording cfg) 0 run.1
      /\ forallb (inside_span 0) t = true in
  shape (langchain.chat_wrapper cfg to_wrap wrapped instance args kwargs (fresh now))
  /\ shape (langchain.achat_wrapper cfg to_wrap awrapped instance args kwargs (fresh now)).
Proof.
  intros Hs shape. subst shape. cbv beta.
  unfold langchain.chat_wrapper, langchain.achat_wrapper. rewrite Hs, !run_with_span.
  cbv zeta. cbn [fst snd trace fresh spans clock app].
  split.
  - match goal with |- context [ (?m ?w0).2 ] =>
      destruct (adds_chat_body 0 w0) as (out & Hw & Hout) end.
    exists out. rewrite Hw. split; [done |].
    apply forallb_forall. intros e He. rewrite Forall_forall in Hout. apply Hout.
    by apply list_elem_of_In.
  - match goal with |- context [ (?m ?w0).2 ] =>
      destruct (adds_achat_body 0 w0) as (out & Hw & Hout) end.
    exists out. rewrite Hw. split; [done |].
    apply forallb_forall. intros e He. rewrite Forall_forall in Hout. apply Hout.
    by apply list_elem_of_In.
Qed.

Lemma run_handle_request_without_prompts span w model :
  should_send_prompts cfg = false ->
  request_model instance = Ok model ->
  langchain._handle_request cfg span args kwargs instance w =
    (Ok tt, extend w (chat_request_recorded span model)).
Proof.
  intros Hp Hmodel. unfold langchain._handle_request.
  erewrite run_bind by (unfold lift; fold (request_model instance); rewrite Hmodel; reflexivity).
  rewrite Hp. finish_run.
Qed.

(** X20. When prompts are not to be sent, the chat wrapper looks neither at
    the arguments nor at what the wrapped callable returns: for every call
    it sets the request type and the two model attributes, makes the call,
    ends the span, and gives the caller the value or the exception of the
    wrapped callable. *)
Theorem chat_wrapper_without_prompts w model :
  py_bool (suppress_instrumentation cfg) = false ->
  should_send_prompts cfg = false ->
  request_model instance = Ok model ->
  langchain.chat_wrapper cfg to_wrap wrapped instance args kwargs w =
    (returned (wrapped args kwargs),
     mk_world
       (trace w ++
        [SpanStarted (spans w) (VStr ("langchain.task." +:+ type_name instance))
           SpanKind.INTERNAL ∅] ++
        chat_request_recorded (spans w) model ++ [Called args kwargs] ++
        span_left (is_recording cfg) (spans w) (returned (wrapped args kwargs)))
       (clock w + elapsed (wrapped args kwargs)) (S (spans w))).
Proof.
  intros Hs Hp Hmodel. unfold langchain.chat_wrapper. rewrite Hs, run_with_span. cbv zeta.
  erewrite run_bind by (by apply run_handle_request_without_prompts).
  destruct (returned (wrapped args kwargs)) as [rv | e] eqn:Hr.
  - erewrite run_bind by (rewrite run_call, Hr; reflexivity).
    unfold langchain._handle_response. rewrite Hp. unfold span_left, chat_request_recorded.
    finish_run.
  - erewrite run_bind_raise by (rewrite run_call, Hr; reflexivity).
    unfold span_left, chat_request_recorded. destruct (is_recording cfg); finish_run.
Qed.

(** X21. With prompts sent, a chat call without positional arguments (the
    messages given by keyword, say) fails while the request is recorded:
    the wrapper raises [IndexError] and the wrapped callable is never
    called. *)
Theorem chat_call_without_positional_arguments_fails w model :
  py_bool (suppress_instrumentation cfg) = false ->
  should_send_prompts cfg = true ->
  request_model instance = Ok model ->
  let run := langchain.chat_wrapper cfg to_wrap wrapped instance [] kwargs w in
  (exists e, run.1 = Raise e /\ exn_class e = "IndexError")
  /\ trace run.2 =
       trace w ++
       [SpanStarted (spans w) (VStr ("langchain.task." +:+ type_name instance))
          SpanKind.INTERNAL ∅] ++
       chat_request_recorded (spans w) model ++
       (if is_recording cfg then [StatusSet (spans w) StatusERROR] else []) ++
       [SpanEnded (spans w)]
  /\ clock run.2 = clock w.
Proof.
  intros Hs Hp Hmodel run. subst run.
  unfold langchain.chat_wrapper. rewrite Hs, run_with_span. cbv zeta.
  erewrite run_bind_raise.
  2: { unfold langchain._handle_request.
       erewrite run_bind
         by (unfold lift; fold (request_model instance); rewrite Hmodel; reflexivity).
       do 3 erewrite run_bind by reflexivity.
       rewrite Hp. erewrite run_bind_raise; reflexivity. }
  cbn [fst snd]. split; [by eexists |]. split; [| done].
  unfold span_left, chat_request_recorded. cbn [trace]. by rewrite <- ?app_assoc.
Qed.

(** X22. When recording the response raises, the caller of the chat wrapper
    receives that exception in place of the value that the wrapped callable
    returned, although the callable was called and returned. *)
Theorem chat_result_is_lost_when_recording_it_fails now rv e :
  py_bool (suppress_instrumentation cfg) = false ->
  (forall span w, (langchain._handle_request cfg span args kwargs instance w).1 = Ok tt) ->
  returned (wrapped args kwargs) = Ok rv ->
  (forall span w, (langchain._handle_response cfg span rv w).1 = Raise e) ->
  let run := langchain.chat_wrapper cfg to_wrap wrapped instance args kwargs (fresh now) in
  run.1 = Raise e /\ count is_called (trace run.2) = 1%nat.
Proof.
  intros Hs Hrequest Hr Hresponse run. subst run.
  unfold langchain.chat_wrapper. rewrite Hs, run_with_span. cbv zeta.
  cbn [fresh trace spans clock app].
  set (w0 := mk_world _ _ _).
  destruct (adds_handle_request 0 w0) as (out1 & Hw1 & Hout1).
  pose proof (Hrequest 0%nat w0) as H1.
  destruct (langchain._handle_request cfg 0 args kwargs instance w0) as [r1 w1] eqn:Hrun1.
  simpl in H1, Hw1. subst r1.
  erewrite run_bind by exact Hrun1.
  erewrite run_bind by (rewrite run_call, Hr; reflexivity).
  set (w2 := mk_world _ _ _).
  destruct (adds_handle_response 0 rv w2) as (out3 & Hw3 & Hout3).
  pose proof (Hresponse 0%nat w2) as H3.
  destruct (langchain._handle_response cfg 0 rv w2) as [r3 w3] eqn:Hrun3.
  simpl in H3, Hw3. subst r3.
  erewrite run_bind_raise by exact Hrun3.
  cbn [fst snd trace]. split; [done |].
  rewrite Hw3. subst w2. cbn [trace]. rewrite Hw1. subst w0. cbn [trace].
  assert (Hnone : forall out, Forall (fun e => inside_span 0 e = true /\ is_called e = false) out ->
                    count is_called out = 0%nat).
  { intros out Hout. unfold count. induction Hout as [| x out [_ Hx] _ IH]; simpl; [done |].
    by rewrite Hx. }
  rewrite !count_app, count_cons, (Hnone out1), (Hnone out3) by done.
  unfold span_left. by destruct (is_recording cfg).
Qed.

(** X23. Under the suppression flag the asynchronous chat wrapper returns
    the coroutine that the wrapped callable made, without awaiting it: the
    caller who awaits the instrumented method receives that coroutine,
    where awaiting the method itself gives [res]. *)
Theorem suppressed_achat_wrapper_returns_the_coroutine w ticks res :
  py_bool (suppress_instrumentation cfg) = true ->
  returned (awrapped args kwargs) = Ok (RCoroutine ticks res) ->
  (langchain.achat_wrapper cfg to_wrap awrapped instance args kwargs w).1
    = Ok (RCoroutine ticks res)
  /\ (call_and_await awrapped args kwargs w).1 = res.
Proof.
  intros Hs Hr. unfold langchain.achat_wrapper. rewrite Hs. unfold call_and_await, bind.
  rewrite run_call, Hr. done.
Qed.

End chat_paths.

Section chat_recorded.
Variable cfg : config.

(** X24. With prompts sent, [_handle_request] records the prompts of the
    first batch of the first positional argument, each under its index:
    [llm.prompts.i.user] holds the content of prompt [i], as JSON when the
    content is a list. The other batches and arguments are not looked at. *)
Theorem chat_prompts_are_recorded_by_index span prompts batches rest kwargs instance w model :
  should_send_prompts cfg = true ->
  request_model instance = Ok model ->
  (forall prompt, prompt ∈ prompts -> exists v, recorded_chat_prompt cfg prompt = Ok v) ->
  let args := VList (VList prompts :: batches) :: rest in
  let run := langchain._handle_request cfg span args kwargs instance w in
  run.1 = Ok tt
  /\ forall i prompt v, prompts !! i = Some prompt -> recorded_chat_prompt cfg prompt = Ok v ->
       span_attributes span (trace run.2)
         !! (SpanAttributes.LLM_PROMPTS +:+ "." +:+ pretty i +:+ ".user") = Some v.
Proof.
  intros Hp Hmodel Hall args run. subst args run. unfold langchain._handle_request.
  erewrite run_bind by (unfold lift; fold (request_model instance); rewrite Hmodel; reflexivity).
  do 3 erewrite run_bind by reflexivity.
  rewrite Hp. do 3 erewrite run_bind by reflexivity. unfold enumerate.
  match goal with |- context [for_each _ ?b ?w0] =>
    destruct (run_for_each_indexed b
                (fun i => SpanAttributes.LLM_PROMPTS +:+ "." +:+ pretty i +:+ ".user")
                (fun prompt => match recorded_chat_prompt cfg prompt with
                               | Ok v => v
                               | Raise _ => VNone
                               end)
                span prompts (indexed_key_inj _ _)) with (k := 0%nat) (w := w0)
      as (out & -> & _ & Hget)
  end.
  - intros i prompt w' Hprompt. destruct (Hall prompt Hprompt) as (v & Hv). rewrite Hv.
    unfold recorded_chat_prompt in Hv.
    destruct (py_getattr prompt "content") as [content |]; [| done]. simpl in Hv.
    erewrite run_bind by reflexivity.
    destruct content; try (by injection Hv as <-).
    destruct (json_dumps cfg _) as [dumped |] eqn:Hdumped; [| done].
    injection Hv as <-. erewrite run_bind by reflexivity.
    reflexivity.
  - split; [done |]. intros i prompt v Hprompt Hv. cbn [snd].
    rewrite span_attributes_extend. rewrite (Hget i prompt Hprompt). by rewrite Hv.
Qed.

(** X25. With prompts sent, [_handle_response] records for each generation
    of the result the text of its first candidate, under the index of the
    generation: [llm.completions.i.content] holds [generations[i][0].text]. *)
Theorem chat_completions_are_recorded_by_index span rv generations w :
  should_send_prompts cfg = true ->
  langchain.getattr rv "generations" = Ok (VList generations) ->
  (forall generation, generation ∈ generations -> exists text, first_text generation = Ok text) ->
  let run := langchain._handle_response cfg span rv w in
  run.1 = Ok tt
  /\ forall i generation text, generations !! i = Some generation ->
       first_text generation = Ok text ->
       span_attributes span (trace run.2)
         !! (SpanAttributes.LLM_COMPLETIONS +:+ "." +:+ pretty i +:+ ".content") = Some text.
Proof.
  intros Hp Hg Hall run. subst run. unfold langchain._handle_response.
  rewrite Hp. erewrite run_bind by (unfold lift; rewrite Hg; reflexivity).
  erewrite run_bind by reflexivity. unfold enumerate.
  match goal with |- context [for_each _ ?b ?w0] =>
    destruct (run_for_each_indexed b
                (fun i => SpanAttributes.LLM_COMPLETIONS +:+ "." +:+ pretty i +:+ ".content")
                (fun generation => match first_text generation with
                                   | Ok v => v
                                   | Raise _ => VNone
                                   end)
                span generations (indexed_key_inj _ _)) with (k := 0%nat) (w := w0)
      as (out & -> & _ & Hget)
  end.
  - intros i generation w' Hgeneration.
    destruct (Hall generation Hgeneration) as (text & Htext). rewrite Htext.
    unfold first_text in Htext.
    destruct (py_index generation 0) as [first |] eqn:Hfirst; [| done]. simpl in Htext.
    erewrite run_bind by reflexivity.
    erewrite run_bind by (unfold lift; rewrite Htext; reflexivity).
    reflexivity.
  - split; [done |]. intros i generation text Hgeneration Htext. cbn [snd].
    rewrite span_attributes_extend. rewrite (Hget i generation Hgeneration). by rewrite Htext.
Qed.

End chat_recorded.

(** ** The prompt tokens of a list of messages *)

Lemma py_sum_from acc counts :
  foldl (fun acc x => let? a := acc in py_add a x) (Ok (VInt acc)) (VInt <$> counts) =
    Ok (VInt (acc + foldr Z.add 0 counts)).
Proof.
  revert acc. induction counts as [| n counts IH]; intros acc; simpl.
  - by rewrite Z.add_0_r.
  - rewrite IH. do 2 f_equal. lia.
Qed.

Lemma py_sum_integers_is l counts :
  l = VInt <$> counts -> py_sum l = Ok (VInt (foldr Z.add 0 counts)).
Proof. intros ->. unfold py_sum. by rewrite py_sum_from. Qed.

Lemma map_result_counts (f : pyval -> result pyval) messages counts :
  Forall2 (fun m n => f m = Ok (VInt n)) messages counts ->
  map_result f messages = Ok (VInt <$> counts).
Proof.
  induction 1 as [| m n messages counts Hm _ IH]; simpl; [done |].
  by rewrite Hm, IH.
Qed.

Section prompt_tokens.
Variable cfg : config.
Hypothesis Hwrites : forall z, writes cfg (VInt z) = true.

(** X26. For a request without a [prompt] and with a non-empty list of
    messages, the prompt tokens are the sum of the token counts of the
    contents of the messages: when the content of message [i] counts
    [counts[i]] tokens and the completion counts [k], both variants of the
    token usage record the sum of the [counts] as [llm.usage.prompt_tokens]
    and that sum plus [k] as [llm.usage.total_tokens]. *)
Theorem prompt_tokens_are_summed_over_messages span c request response d messages counts k
    attrs tc cc w :
  as_dict response = Ok d ->
  py_bool (get request "prompt") = false ->
  get request "messages" = VList messages ->
  messages <> [] ->
  Forall2 (fun m n => exists content,
             py_get m "content" = Ok content /\ count_tokens c content = Ok (VInt n))
    messages counts ->
  completion_tokens_of c d = Ok (VInt k) ->
  let total := foldr Z.add 0 counts in
  let recorded (run : result unit * world) :=
    run.1 = Ok tt
    /\ span_attributes span (trace run.2) !! SpanAttributes.LLM_USAGE_PROMPT_TOKENS
         = Some (VInt total)
    /\ span_attributes span (trace run.2) !! SpanAttributes.LLM_USAGE_TOTAL_TOKENS
         = Some (VInt (total + k)) in
  recorded (_set_token_usage cfg span c request response attrs tc cc w)
  /\ recorded (_set_token_usage_a cfg span c request response w).
Proof.
  intros Hd Hprompt Hmessages Hne Hcounts Hk total recorded. subst recorded. cbv beta.
  assert (Hp : prompt_tokens_of c request = Ok (VInt total)).
  { unfold prompt_tokens_of. rewrite Hprompt, Hmessages.
    destruct messages as [| m messages]; [done |]. cbn [py_bool length Nat.eqb negb py_iter rbind].
    erewrite map_result_counts.
    2: { eapply Forall2_impl; [exact Hcounts |]. intros m' n (content & -> & Hn). exact Hn. }
    cbn [rbind]. by apply py_sum_integers_is. }
  rewrite (run_set_token_usage _ _ _ _ _ _ _ _ _ _ Hd), (run_set_token_usage_a _ _ _ _ _ _ _ Hd).
  rewrite Hp, Hk. cbn [py_add fst snd].
  assert (Husage : forall attrs0,
            usage_is (foldl (record span) attrs0
                        (usage_written cfg span (VInt total) (VInt k) (VInt (total + k))))
              total k) by (intros; by apply usage_written_is).
  split; (split; [done |]); rewrite span_attributes_extend, ?foldl_app;
    match goal with
    | |- context [foldl (record span) ?a (usage_written _ _ _ _ _)] =>
        destruct (Husage a) as (H1 & _ & H3)
    end;
    by split.
Qed.

End prompt_tokens.

(** ** The attributes and the name of the span of a call *)

Lemma adds_unwritten cfg (P : event -> Prop) span key value :
  writes cfg value = false -> adds P (set_span_attribute cfg span key value).
Proof. intros H. unfold set_span_attribute. rewrite H. apply adds_ret. Qed.

Section span_of_a_call.
Variable cfg : config.
Variables (to_wrap : dict) (wrapped awrapped : callable) (instance : resource).
Variables (args : list pyval) (kwargs : dict).

(** X27. The request attribute [llm.request.max_tokens] is read from
    [max_tokens_to_sample] only: for a request without that argument (a
    request of the Messages API, which gives [max_tokens]) no call sets the
    attribute, when the guard of [set_span_attribute] does not write
    [None]. *)
Theorem max_tokens_is_read_from_max_tokens_to_sample_only now :
  writes cfg VNone = false ->
  get kwargs "max_tokens_to_sample" = VNone ->
  count (is_attribute_set SpanAttributes.LLM_REQUEST_MAX_TOKENS)
    (trace (_wrap cfg to_wrap wrapped instance args kwargs (fresh now)).2) = 0%nat
  /\ count (is_attribute_set SpanAttributes.LLM_REQUEST_MAX_TOKENS)
       (trace (_awrap cfg to_wrap awrapped instance args kwargs (fresh now)).2) = 0%nat.
Proof.
  intros Hnone Hmax.
  split;
    apply (count_never _
             (fun e => is_attribute_set SpanAttributes.LLM_REQUEST_MAX_TOKENS e = false));
    try done; unfold_wrappers; rewrite Hmax;
    repeat first [ reflexivity | by apply adds_unwritten | adds_step ].
Qed.

Lemma adds_completion_span (m : M retval) :
  get to_wrap "span_name" = VStr "anthropic.completion" ->
  m = _wrap cfg to_wrap wrapped instance args kwargs
  \/ m = _awrap cfg to_wrap awrapped instance args kwargs ->
  adds (fun e => is_span_started e = true -> is_completion_span e) m.
Proof.
  intros Hname [-> | ->]; unfold_wrappers; rewrite Hname;
    repeat first [ done | by intros _; eexists | adds_step ].
Qed.

End span_of_a_call.

(** X28. Every wrapper that [_instrument] installs, for the methods of the
    Completions API and of the Messages API alike, starts its spans under
    the name [anthropic.completion], of kind [CLIENT], with [llm.vendor]
    set to [Anthropic] and [llm.request.type] to [completion]. *)
Theorem installed_wrappers_start_completion_spans cfg module name w wrapped instance args
    kwargs now e :
  (module, name, w) ∈ wrap_requests cfg ->
  e ∈ trace (w wrapped instance args kwargs (fresh now)).2 ->
  is_span_started e = true ->
  is_completion_span e.
Proof.
  intros Hw He. revert He.
  apply (adds_fresh (fun e => is_span_started e = true -> is_completion_span e)).
  unfold wrap_requests in Hw. apply elem_of_app in Hw as [Hw | Hw];
    apply list_elem_of_fmap in Hw as (m & [= -> -> ->] & Hm);
    unfold _with_chat_telemetry_wrapper, _with_tracer_wrapper;
    (apply (adds_completion_span cfg m wrapped wrapped instance args kwargs); [| by auto]);
    unfold WRAPPED_METHODS, WRAPPED_AMETHODS in Hm;
    repeat (apply elem_of_cons in Hm as [-> | Hm]; [reflexivity |]);
    by apply elem_of_nil in Hm.
Qed.

(** ** The properties at sample calls *)

Lemma content_is_recorded_only_when_prompts_are_sent_witness :
  should_send_prompts sample.quiet_process = false
  /\ count is_content_attribute
       (trace (_wrap sample.quiet_process sample.create sample.returns_message sample.messages
                 [] sample.request (fresh 100)).2) = 0%nat
  /\ count is_content_attribute
       (trace (_awrap sample.quiet_process sample.create sample.async_returns_message
                 sample.messages [] sample.request (fresh 100)).2) = 0%nat
  /\ count is_content_attribute
       (trace (_wrap sample.default_process sample.create sample.returns_message
                 sample.messages [] sample.request (fresh 100)).2) = 4%nat.
Proof.
  split; [reflexivity |].
  destruct (content_is_recorded_only_when_prompts_are_sent sample.quiet_process sample.create
              sample.returns_message sample.async_returns_message sample.messages []
              sample.request 100 eq_refl) as [H1 H2].
  split; [exact H1 |]. split; [exact H2 | reflexivity].
Defined.

Lemma counters_receive_valid_data_points_witness :
  let attrs : dict :=
    <["llm.usage.token_type" := VStr "prompt"]>
      {[ "llm.response.model" := VStr "claude-3-opus-20240229" ]} in
  CounterAdded "llm.anthropic.completion.tokens" 14 attrs ∈
    trace (_wrap sample.default_process sample.create sample.returns_message sample.messages
             [] sample.request (fresh 100)).2
  /\ ((0 <= 14
       /\ (attrs !! "llm.usage.token_type" = Some (VStr "prompt")
           \/ attrs !! "llm.usage.token_type" = Some (VStr "completion")))
      \/ 0 < 14 \/ 14 = 1).
Proof.
  intros attrs.
  assert (H : CounterAdded "llm.anthropic.completion.tokens" 14 attrs ∈
                trace (_wrap sample.default_process sample.create sample.returns_message
                         sample.messages [] sample.request (fresh 100)).2).
  { vm_compute. repeat first [ apply list_elem_of_here | apply list_elem_of_further ]. }
  split; [exact H |].
  destruct (counters_receive_valid_data_points sample.default_process sample.create
              sample.returns_message sample.messages [] sample.request 100 _ _ _ H)
    as [(_ & H1) | [(_ & H2) | (_ & H3)]]; auto.
Defined.

Lemma wrapped_is_called_exactly_once_witness :
  (py_bool (suppress_instrumentation sample.default_process) = true
   \/ is_metrics_enabled sample.default_process = true)
  /\ count is_called
       (trace (_wrap sample.default_process sample.create sample.returns_message sample.messages
                 [] sample.request (fresh 100)).2) = 1%nat
  /\ Called [] sample.request ∈
       trace (_awrap sample.default_process sample.create sample.async_raises sample.messages
                [] sample.request (fresh 100)).2.
Proof.
  assert (H : py_bool (suppress_instrumentation sample.default_process) = true
              \/ is_metrics_enabled sample.default_process = true) by (right; reflexivity).
  destruct (wrapped_is_called_exactly_once sample.default_process sample.create
              sample.returns_message sample.async_raises sample.messages [] sample.request 100)
    as (H1 & _ & H3).
  split; [exact H |]. split; [exact (proj1 (H1 H)) | exact H3].
Defined.

Lemma span_ends_once_when_wrapped_returns_witness :
  let ending (x : retval) :=
    (if truthy x && is_recording sample.default_process then [StatusSet 0 StatusOK] else [])
    ++ [SpanEnded 0] in
  readable sample.message
  /\ (exists t,
        trace (_wrap sample.default_process sample.create sample.returns_message
                 sample.messages [] sample.request (fresh 100)).2 = t ++ ending sample.message
        /\ count is_status_set t = 0%nat /\ count (is_span_ended 0) t = 0%nat)
  /\ (exists t,
        trace (_awrap sample.default_process sample.create sample.async_returns_message
                 sample.messages [] sample.request (fresh 100)).2 = t ++ ending sample.message
        /\ count is_status_set t = 0%nat /\ count (is_span_ended 0) t = 0%nat).
Proof.
  intros ending.
  assert (Hread : readable sample.message) by (intros _; eexists; reflexivity).
  split; [exact Hread |].
  exact (span_ends_once_when_wrapped_returns sample.default_process sample.create
           sample.returns_message sample.async_returns_message sample.messages []
           sample.request 100 sample.message sample.message
           eq_refl eq_refl eq_refl eq_refl Hread eq_refl eq_refl).
Defined.

Lemma stream_leaves_the_span_to_the_adapter_witness :
  let sync := _wrap sample.default_process sample.create sample.returns_stream sample.messages
                [] sample.request (fresh 100) in
  let async := _awrap sample.default_process sample.create sample.async_returns_stream
                 sample.messages [] sample.request (fresh 100) in
  sync.1 = Ok (_build_from_streaming_response 0 sample.a_stream sample.a_client sample.request)
  /\ count (is_span_ended 0) (trace sync.2) = 0%nat
  /\ async.1 =
       Ok (_abuild_from_streaming_response 0 sample.an_async_stream sample.a_client
             sample.request)
  /\ count (is_span_ended 0) (trace async.2) = 0%nat.
Proof.
  intros sync async.
  destruct (stream_leaves_the_span_to_the_adapter sample.default_process sample.create
              sample.returns_stream sample.async_returns_stream sample.messages []
              sample.request 100 sample.a_stream sample.an_async_stream
              eq_refl eq_refl eq_refl eq_refl eq_refl eq_refl)
    as (H1 & (_ & H2 & _) & H3 & (_ & H4 & _)).
  split; [exact H1 |]. split; [exact H2 |]. split; [exact H3 | exact H4].
Defined.

Lemma value_without_dict_fails_the_sync_call_witness :
  let sync := _wrap sample.default_process sample.create sample.returns_text sample.messages
                [] sample.request (fresh 100) in
  let async := _awrap sample.default_process sample.create sample.async_returns_text
                 sample.messages [] sample.request (fresh 100) in
  py_bool (VStr "pong") = true /\ has_dict (VStr "pong") = false
  /\ sync.1 = Raise (AttributeError "'str' object has no attribute '__dict__'")
  /\ count is_data_point (trace sync.2) = 0%nat
  /\ count (is_span_ended 0) (trace sync.2) = 0%nat
  /\ async.1 = Ok (RVal (VStr "pong"))
  /\ count (is_span_ended 0) (trace async.2) = 1%nat.
Proof.
  intros sync async. split; [reflexivity |]. split; [reflexivity |].
  exact (value_without_dict_fails_the_sync_call sample.default_process sample.create
           sample.returns_text sample.async_returns_text sample.messages [] sample.request
           100 (VStr "pong") eq_refl eq_refl eq_refl eq_refl eq_refl eq_refl).
Defined.

Lemma data_points_carry_the_model_or_the_error_witness :
  let run (wrapped : callable) :=
    trace (_wrap sample.default_process sample.create wrapped sample.messages []
             sample.request (fresh 100)).2 in
  let with_model := HistogramRecorded "llm.anthropic.completion.duration" 5
                    {[ "llm.response.model" := VStr "claude-3-opus-20240229" ]} in
  let counted := CounterAdded "llm.anthropic.completion.exceptions" 1
                   {[ "error.type" := VStr "APIConnectionError" ]} in
  let empty_batch := HistogramRecorded "llm.anthropic.completion.duration" 5 ∅ in
  let interrupt := HistogramRecorded "llm.anthropic.completion.duration" 5 ∅ in
  (with_model ∈ run sample.returns_message
   /\ labels with_model !! "llm.response.model" = Some (VStr "claude-3-opus-20240229"))
  /\ (counted ∈ run sample.raises
      /\ labels counted = {[ "error.type" := VStr "APIConnectionError" ]})
  /\ (empty_batch ∈ run sample.raises_empty_batch /\ labels empty_batch = ∅)
  /\ (interrupt ∈ run sample.interrupted /\ labels interrupt = ∅).
Proof.
  intros run with_model counted empty_batch interrupt.
  assert (H1 : with_model ∈ run sample.returns_message).
  { vm_compute. repeat first [ apply list_elem_of_here | apply list_elem_of_further ]. }
  assert (H2 : counted ∈ run sample.raises).
  { vm_compute. repeat first [ apply list_elem_of_here | apply list_elem_of_further ]. }
  assert (H3 : empty_batch ∈ run sample.raises_empty_batch).
  { vm_compute. repeat first [ apply list_elem_of_here | apply list_elem_of_further ]. }
  assert (H4 : interrupt ∈ run sample.interrupted).
  { vm_compute. repeat first [ apply list_elem_of_here | apply list_elem_of_further ]. }
  pose proof (data_points_carry_the_model_or_the_error sample.default_process sample.create
                sample.returns_message sample.messages [] sample.request 100
                eq_refl eq_refl) as Hmodel.
  pose proof (data_points_carry_the_model_or_the_error sample.default_process sample.create
                sample.raises sample.messages [] sample.request 100
                eq_refl eq_refl) as Hcounted.
  pose proof (data_points_carry_the_model_or_the_error sample.default_process sample.create
                sample.raises_empty_batch sample.messages [] sample.request 100
                eq_refl eq_refl) as Hempty.
  pose proof (data_points_carry_the_model_or_the_error sample.default_process sample.create
                sample.interrupted sample.messages [] sample.request 100
                eq_refl eq_refl) as Hinterrupt.
  cbv zeta in Hmodel, Hcounted, Hempty, Hinterrupt.
  change (returned (sample.returns_message [] sample.request))
    with (@Ok retval sample.message) in Hmodel.
  change (returned (sample.raises [] sample.request))
    with (@Raise retval sample.an_error) in Hcounted.
  change (returned (sample.raises_empty_batch [] sample.request))
    with (@Raise retval sample.an_empty_batch) in Hempty.
  change (returned (sample.interrupted [] sample.request))
    with (@Raise retval sample.an_interrupt) in Hinterrupt.
  split; [split; [exact H1 | exact (Hmodel _ eq_refl eq_refl with_model H1 eq_refl)] |].
  split; [split; [exact H2 | exact (Hcounted counted H2 eq_refl)] |].
  split; [split; [exact H3 | exact (Hempty empty_batch H3 eq_refl)] |].
  split; [exact H4 | exact (Hinterrupt interrupt H4 eq_refl)].
Defined.

Lemma reported_usage_stays_when_counting_fails_witness :
  let sync := _wrap sample.default_process sample.create sample.returns_message
                sample.offline_messages [] sample.request (fresh 100) in
  let async := _awrap sample.default_process sample.create sample.async_returns_message
                 sample.offline_messages [] sample.request (fresh 100) in
  (forall z, writes sample.default_process (VInt z) = true)
  /\ prompt_tokens_of sample.offline_client sample.request = Raise sample.an_error
  /\ sync.1 = Ok sample.message /\ usage_is (span_attributes 0 (trace sync.2)) 17 30
  /\ async.1 = Ok sample.message /\ usage_is (span_attributes 0 (trace async.2)) 17 30.
Proof.
  intros sync async.
  assert (Hwrites : forall z, writes sample.default_process (VInt z) = true) by reflexivity.
  split; [exact Hwrites |]. split; [reflexivity |].
  exact (reported_usage_stays_when_counting_fails sample.default_process Hwrites sample.create
           sample.returns_message sample.async_returns_message sample.offline_messages []
           sample.request 100 sample.message _ 17 30
           eq_refl eq_refl eq_refl eq_refl eq_refl eq_refl eq_refl eq_refl eq_refl
           (or_introl (ex_intro _ sample.an_error eq_refl))).
Defined.

Ltac each_member H :=
  repeat (apply elem_of_cons in H as [-> | H]; [eexists; repeat split; reflexivity |]);
  by apply elem_of_nil in H.

Lemma messages_are_recorded_by_index_witness :
  let run := _set_input_attributes sample.dumping_process 0 sample.conversation (fresh 100) in
  run.1 = Ok tt
  /\ span_attributes 0 (trace run.2) !! "llm.prompts.0.user" = Some (VStr "Tell me a joke")
  /\ span_attributes 0 (trace run.2) !! "llm.prompts.1.user" = Some (VStr "text").
Proof.
  intros run.
  destruct (messages_are_recorded_by_index sample.dumping_process 0 sample.conversation
              [ VDict {[ "role" := VStr "user"; "content" := VStr "Tell me a joke" ]};
                VDict {[ "role" := VStr "user";
                         "content" :=
                           VList [ VDict {[ "type" := VStr "text"; "text" := VStr "Why?" ]};
                                   VDict {[ "type" := VStr "tool_result";
                                            "tool_use_id" := VStr "t1" ]} ] ]} ]
              (fresh 100) eq_refl eq_refl eq_refl) as [H1 H2].
  { intros m Hm. each_member Hm. }
  split; [exact H1 |]. split.
  - exact (H2 0%nat _ (VStr "Tell me a joke") eq_refl eq_refl).
  - exact (H2 1%nat _ (VStr "text") eq_refl eq_refl).
Defined.

Lemma completions_are_recorded_by_index_witness :
  let response : dict :=
    {[ "model" := VStr "claude-3-opus-20240229";
       "content" := VList [sample.text_block "Why?"; sample.text_block "Because."];
       "stop_reason" := VStr "end_turn" ]} in
  let run := _set_span_completions sample.default_process 0 response (fresh 100) in
  run.1 = Ok tt
  /\ span_attributes 0 (trace run.2) !! "llm.completions.0.content" = Some (VStr "Why?")
  /\ span_attributes 0 (trace run.2) !! "llm.completions.1.content" = Some (VStr "Because.").
Proof.
  intros response run.
  destruct (completions_are_recorded_by_index sample.default_process 0 response
              [sample.text_block "Why?"; sample.text_block "Because."] (fresh 100)
              eq_refl eq_refl) as [H1 H2].
  { intros item Hitem. each_member Hitem. }
  split; [exact H1 |]. split.
  - exact (H2 0%nat _ (VStr "Why?") eq_refl eq_refl).
  - exact (H2 1%nat _ (VStr "Because.") eq_refl eq_refl).
Defined.

Lemma dump_content_skips_other_types_witness :
  let text : pyval := VDict {[ "type" := VStr "text"; "text" := VStr "Why?" ]} in
  let tool : dict := {[ "type" := VStr "tool_result"; "tool_use_id" := VStr "t1" ]} in
  _dump_content sample.dumping_process (VList ([text] ++ VDict tool :: [text])) =
    _dump_content sample.dumping_process (VList ([text] ++ [text]))
  /\ _dump_content sample.dumping_process (VList ([text] ++ [text])) = Ok (VStr "text,text").
Proof.
  intros text tool. split; [| reflexivity].
  apply (dump_content_skips_other_types sample.dumping_process [text] tool [text]);
    reflexivity.
Defined.

Lemma dump_content_needs_dicts_witness :
  sample.text_block "Why?" ∈ [sample.text_block "Why?"]
  /\ is_dict (sample.text_block "Why?") = false
  /\ exists msg,
       _dump_content sample.dumping_process (VList [sample.text_block "Why?"]) =
         Raise (AttributeError msg).
Proof.
  assert (H : sample.text_block "Why?" ∈ [sample.text_block "Why?"]) by apply list_elem_of_here.
  split; [exact H |]. split; [reflexivity |].
  exact (dump_content_needs_dicts sample.dumping_process _ _ H eq_refl).
Defined.

Lemma unreadable_usage_stops_the_recording_witness :
  let run := _wrap sample.default_process sample.create sample.returns_dict_usage
               sample.messages [] sample.request (fresh 100) in
  run.1 = Ok sample.message_with_dict_usage
  /\ Warned "Failed to set response attributes for anthropic span, error: %s"
       "'dict' object has no attribute 'input_tokens'" ∈ trace run.2
  /\ count is_completion_attribute (trace run.2) = 0%nat
  /\ count (is_added_to "llm.anthropic.completion.tokens") (trace run.2) = 0%nat
  /\ count (is_added_to "llm.anthropic.completion.choices") (trace run.2) = 0%nat
  /\ count (is_span_ended 0) (trace run.2) = 1%nat.
Proof.
  exact (unreadable_usage_stops_the_recording sample.default_process sample.create
           sample.returns_dict_usage sample.messages [] sample.request 100
           sample.message_with_dict_usage _
           (AttributeError "'dict' object has no attribute 'input_tokens'")
           eq_refl eq_refl eq_refl eq_refl eq_refl eq_refl eq_refl eq_refl).
Defined.

Lemma instrument_skips_missing_modules_witness :
  _instrument sample.default_process sample.without_messages ∅ [] =
    (Ok tt, [] ++ installed sample.without_messages (wrap_requests sample.default_process))
  /\ address sample.default_process
       <$> installed sample.without_messages (wrap_requests sample.default_process) =
     [ "anthropic.resources.completions.Completions.create";
       "anthropic.resources.completions.AsyncCompletions.create" ].
Proof.
  split; [| reflexivity].
  apply (instrument_skips_missing_modules sample.default_process sample.without_messages).
  intros module name e. unfold sample.without_messages. simpl.
  destruct (py_eq_str module _); [by intros [= <-] | discriminate].
Defined.

Lemma instrument_stops_at_another_exception_witness :
  let before :=
    [ (VStr "anthropic.resources.completions", "Completions.create",
       _with_chat_telemetry_wrapper (_wrap sample.default_process)
         (wrapped_method "anthropic.resources.completions" "Completions" "create"
            "anthropic.completion"));
      (VStr "anthropic.resources.messages", "Messages.create",
       _with_chat_telemetry_wrapper (_wrap sample.default_process)
         (wrapped_method "anthropic.resources.messages" "Messages" "create"
            "anthropic.completion")) ] in
  _instrument sample.default_process sample.without_stream ∅ [] =
    (Raise (AttributeError "type object 'Messages' has no attribute 'stream'"),
     [] ++ installed sample.without_stream before)
  /\ address sample.default_process <$> installed sample.without_stream before =
     [ "anthropic.resources.completions.Completions.create";
       "anthropic.resources.messages.Messages.create" ].
Proof.
  intros before. split; [| reflexivity].
  eapply (instrument_stops_at_another_exception sample.default_process sample.without_stream
            ∅ [] before).
  - reflexivity.
  - intros module' name' w' e' Hin. unfold before in Hin.
    repeat (apply elem_of_cons in Hin as [[= -> -> ->] | Hin]; [discriminate |]).
    by apply elem_of_nil in Hin.
  - reflexivity.
  - discriminate.
Defined.

Lemma uninstrument_misses_the_async_messages_witness :
  let wrapped :=
    address sample.default_process
      <$> (_instrument sample.default_process sample.every_method ∅ []).2 in
  let unwrapped :=
    address sample.default_process
      <$> (_uninstrument sample.default_process sample.every_method ∅ []).2 in
  list_difference wrapped unwrapped =
    [ "anthropic.resources.messages.AsyncMessages.create";
      "anthropic.resources.messages.AsyncMessages.stream" ]
  /\ list_difference unwrapped wrapped =
       [ "anthropic.resources.completions.AsyncMessages.create";
         "anthropic.resources.completions.AsyncMessages.stream" ].
Proof.
  apply (uninstrument_misses_the_async_messages sample.default_process sample.every_method);
    reflexivity.
Defined.

Lemma chat_span_always_ends_witness :
  let shape (run : result retval * world) :=
    exists t,
      trace run.2 =
        SpanStarted 0 (VStr ("langchain.task." +:+ type_name sample.chat_model))
          SpanKind.INTERNAL ∅
        :: t ++ span_left (is_recording sample.default_process) 0 run.1
      /\ forallb (inside_span 0) t = true in
  py_bool (suppress_instrumentation sample.default_process) = false
  /\ shape (langchain.chat_wrapper sample.default_process ∅ sample.invoke sample.chat_model
              sample.chat_args ∅ (fresh 100))
  /\ shape (langchain.achat_wrapper sample.default_process ∅ sample.agenerate sample.chat_model
              sample.chat_args ∅ (fresh 100)).
Proof.
  intros shape. split; [reflexivity |].
  exact (chat_span_always_ends sample.default_process ∅ sample.invoke sample.agenerate
           sample.chat_model sample.chat_args ∅ 100 eq_refl).
Defined.

Lemma chat_wrapper_without_prompts_witness :
  langchain.chat_wrapper sample.quiet_process ∅ sample.invoke sample.chat_model [] ∅
    (fresh 100) =
    (Ok sample.chat_message,
     mk_world
       ([] ++ [SpanStarted 0 (VStr "langchain.task.ChatOpenAI") SpanKind.INTERNAL ∅] ++
        chat_request_recorded 0 (VStr "gpt-4") ++ [Called [] ∅] ++ [SpanEnded 0])
       103 1).
Proof.
  apply (chat_wrapper_without_prompts sample.quiet_process ∅ sample.invoke sample.chat_model
           [] ∅ (fresh 100) (VStr "gpt-4")); reflexivity.
Defined.

Lemma chat_call_without_positional_arguments_fails_witness :
  let run := langchain.chat_wrapper sample.default_process ∅ sample.generate sample.chat_model
               [] ∅ (fresh 100) in
  (exists e, run.1 = Raise e /\ exn_class e = "IndexError")
  /\ count is_called (trace run.2) = 0%nat
  /\ clock run.2 = 100.
Proof.
  intros run.
  destruct (chat_call_without_positional_arguments_fails sample.default_process ∅
              sample.generate sample.chat_model ∅ (fresh 100) (VStr "gpt-4")
              eq_refl eq_refl eq_refl) as (H1 & _ & H3).
  split; [exact H1 |]. split; [reflexivity | exact H3].
Defined.

Lemma chat_result_is_lost_when_recording_it_fails_witness :
  let run := langchain.chat_wrapper sample.default_process ∅ sample.invoke sample.chat_model
               sample.chat_args ∅ (fresh 100) in
  returned (sample.invoke sample.chat_args ∅) = Ok sample.chat_message
  /\ run.1 = Raise (AttributeError "'AIMessage' object has no attribute 'generations'")
  /\ count is_called (trace run.2) = 1%nat.
Proof.
  intros run. split; [reflexivity |].
  apply (chat_result_is_lost_when_recording_it_fails sample.default_process ∅ sample.invoke
           sample.chat_model sample.chat_args ∅ 100 sample.chat_message);
    reflexivity.
Defined.

Lemma suppressed_achat_wrapper_returns_the_coroutine_witness :
  (langchain.achat_wrapper sample.suppressed_process ∅ sample.agenerate sample.chat_model
     sample.chat_args ∅ (fresh 100)).1 = Ok (RCoroutine 3 (Ok sample.chat_result))
  /\ (call_and_await sample.agenerate sample.chat_args ∅ (fresh 100)).1 = Ok sample.chat_result.
Proof.
  apply (suppressed_achat_wrapper_returns_the_coroutine sample.suppressed_process ∅
           sample.agenerate sample.chat_model sample.chat_args ∅ (fresh 100));
    reflexivity.
Defined.

Lemma chat_prompts_are_recorded_by_index_witness :
  let prompts :=
    [ VObject "SystemMessage" {[ "content" := VStr "Be brief." ]};
      VObject "HumanMessage" {[ "content" := VStr "hi" ]} ] in
  let run := langchain._handle_request sample.default_process 0 [VList [VList prompts]] ∅
               sample.chat_model (fresh 100) in
  run.1 = Ok tt
  /\ span_attributes 0 (trace run.2) !! "llm.prompts.0.user" = Some (VStr "Be brief.")
  /\ span_attributes 0 (trace run.2) !! "llm.prompts.1.user" = Some (VStr "hi").
Proof.
  intros prompts run.
  destruct (chat_prompts_are_recorded_by_index sample.default_process 0 prompts [] [] ∅
              sample.chat_model (fresh 100) (VStr "gpt-4") eq_refl eq_refl) as [H1 H2].
  { intros prompt Hprompt. unfold prompts in Hprompt. each_member Hprompt. }
  split; [exact H1 |]. split.
  - exact (H2 0%nat _ (VStr "Be brief.") eq_refl eq_refl).
  - exact (H2 1%nat _ (VStr "hi") eq_refl eq_refl).
Defined.

Lemma chat_completions_are_recorded_by_index_witness :
  let run := langchain._handle_response sample.default_process 0 sample.chat_result
               (fresh 100) in
  run.1 = Ok tt
  /\ span_attributes 0 (trace run.2) !! "llm.completions.0.content" = Some (VStr "hello").
Proof.
  intros run.
  destruct (chat_completions_are_recorded_by_index sample.default_process 0 sample.chat_result
              [VList [VObject "ChatGeneration" {[ "text" := VStr "hello" ]}]] (fresh 100)
              eq_refl eq_refl) as [H1 H2].
  { intros generation Hgeneration. each_member Hgeneration. }
  split; [exact H1 |].
  exact (H2 0%nat _ (VStr "hello") eq_refl eq_refl).
Defined.

Lemma prompt_tokens_are_summed_over_messages_witness :
  let recorded (run : result unit * world) :=
    run.1 = Ok tt
    /\ span_attributes 0 (trace run.2) !! SpanAttributes.LLM_USAGE_PROMPT_TOKENS
         = Some (VInt 18)
    /\ span_attributes 0 (trace run.2) !! SpanAttributes.LLM_USAGE_TOTAL_TOKENS
         = Some (VInt 22) in
  (forall z, writes sample.default_process (VInt z) = true)
  /\ recorded (_set_token_usage sample.default_process 0 sample.a_client sample.two_questions
                 sample.message ∅ None None (fresh 100))
  /\ recorded (_set_token_usage_a sample.default_process 0 sample.a_client sample.two_questions
                 sample.message (fresh 100)).
Proof.
  intros recorded.
  assert (Hwrites : forall z, writes sample.default_process (VInt z) = true) by reflexivity.
  split; [exact Hwrites |].
  refine (prompt_tokens_are_summed_over_messages sample.default_process Hwrites 0
            sample.a_client sample.two_questions sample.message _
            [ VDict {[ "role" := VStr "user"; "content" := VStr "Tell me a joke" ]};
              VDict {[ "role" := VStr "user"; "content" := VStr "Why?" ]} ]
            [14; 4] 4 ∅ None None (fresh 100) eq_refl eq_refl eq_refl _ _ eq_refl).
  - discriminate.
  - repeat constructor; eexists; split; reflexivity.
Defined.

Lemma max_tokens_is_read_from_max_tokens_to_sample_only_witness :
  writes sample.default_process VNone = false
  /\ get sample.request "max_tokens" = VInt 1024
  /\ get sample.request "max_tokens_to_sample" = VNone
  /\ count (is_attribute_set SpanAttributes.LLM_REQUEST_MAX_TOKENS)
       (trace (_wrap sample.default_process sample.create sample.returns_message sample.messages
                 [] sample.request (fresh 100)).2) = 0%nat
  /\ count (is_attribute_set SpanAttributes.LLM_REQUEST_MAX_TOKENS)
       (trace (_awrap sample.default_process sample.create sample.async_returns_message
                 sample.messages [] sample.request (fresh 100)).2) = 0%nat.
Proof.
  split; [reflexivity |]. split; [reflexivity |]. split; [reflexivity |].
  exact (max_tokens_is_read_from_max_tokens_to_sample_only sample.default_process sample.create
           sample.returns_message sample.async_returns_message sample.messages []
           sample.request 100 eq_refl eq_refl).
Defined.

Lemma installed_wrappers_start_completion_spans_witness :
  let w := _with_tracer_wrapper (_awrap sample.default_process)
             (wrapped_method "anthropic.resources.messages" "AsyncMessages" "create"
                "anthropic.completion") in
  let e := SpanStarted 0 (VStr "anthropic.completion") SpanKind.CLIENT
             {[ SpanAttributes.LLM_VENDOR := VStr "Anthropic";
                SpanAttributes.LLM_REQUEST_TYPE := VStr LLMRequestTypeValues.COMPLETION ]} in
  (VStr "anthropic.resources.messages", "AsyncMessages.create", w)
    ∈ wrap_requests sample.default_process
  /\ e ∈ trace (w sample.async_returns_message sample.messages [] sample.request (fresh 100)).2
  /\ is_completion_span e.
Proof.
  intros w e.
  assert (Hw : (VStr "anthropic.resources.messages", "AsyncMessages.create", w)
                 ∈ wrap_requests sample.default_process).
  { unfold wrap_requests. simpl. repeat first [ apply list_elem_of_here | apply list_elem_of_further ]. }
  assert (He : e ∈ trace (w sample.async_returns_message sample.messages [] sample.request
                            (fresh 100)).2).
  { vm_compute. apply list_elem_of_here. }
  split; [exact Hw |]. split; [exact He |].
  exact (installed_wrappers_start_completion_spans sample.default_process _ _ w
           sample.async_returns_message sample.messages [] sample.request 100 e Hw He eq_refl).
Defined.
